(** * commit-ts: creating a commit through the GitHub API

    A shallow embedding of the commit library (the [createCommit] entry
    point with its base-branch resolution, tree construction, submodule
    HEAD resolution and ref upsert) and of the earlier [commit] entry point
    of [main.ts], followed by the properties stated about them.

    Conventions of the embedding:
    - a JavaScript string is a [string] whose characters stand for code
      units below 256;
    - an optional property ([files?: string[]]) is an [option];
    - an [async] function is a computation in the monad [M]: it reads the
      history of the calls made so far and returns its outcome (a thrown
      value or a result) together with the calls it made itself;
    - the API client ([octokit]) and the file system ([node:fs/promises])
      are collaborators: records of response functions;
    - [logger.info] is console plumbing and is left out. *)

From Stdlib Require Import ZArith Bool Ascii String List Lia.
From stdpp Require Import base option list strings gmap.

Local Open Scope Z_scope.

(** ** JavaScript values and string operations *)

Module JS.

(** A value that reaches a [catch] clause.  [ThrownObject message code]
    is an object; each property is [Some] when it is present and a
    string.  [new Error(m)] is [ThrownObject (Some m) None], a Node.js
    system error carries a [code] as well. *)
Inductive Thrown : Type :=
| ThrownObject (message : option string) (code : option string)
| ThrownNull
| ThrownPrimitive (repr : string).

Definition newError (m : string) : Thrown := ThrownObject (Some m) None.

(** [!s] is false for a non-empty string. *)
Definition truthy_string (s : string) : bool := negb (String.eqb s "").

(** Truthiness of an optional string property: [undefined] and [""] are
    falsy. *)
Definition truthy_opt_string (s : option string) : bool :=
  match s with
  | Some s => truthy_string s
  | None => false
  end.

(** Truthiness of an optional boolean property. *)
Definition truthy_opt_bool (b : option bool) : bool :=
  match b with
  | Some b => b
  | None => false
  end.

(** [l?.length] as a truth value: true for a present, non-empty array. *)
Definition has_length {A} (l : option (list A)) : bool :=
  match l with
  | Some (_ :: _) => true
  | _ => false
  end.

(** [l || []] *)
Definition or_nil {A} (l : option (list A)) : list A := default [] l.

(** [s || ""] *)
Definition or_empty_string (s : option string) : string :=
  match s with
  | Some s => s
  | None => ""
  end.

(** White space of [String.prototype.trim] and of the regular expression
    class [\s], restricted to code units below 256: TAB, LF, VT, FF, CR,
    SPACE and NBSP. *)
Definition is_white_space (c : ascii) : bool :=
  let n := nat_of_ascii c in
  (Nat.eqb n 9 || Nat.eqb n 10 || Nat.eqb n 11 || Nat.eqb n 12
   || Nat.eqb n 13 || Nat.eqb n 32 || Nat.eqb n 160)%bool.

(** Line terminators, which [.] of a regular expression does not match:
    LF and CR below 256. *)
Definition is_line_terminator (c : ascii) : bool :=
  let n := nat_of_ascii c in (Nat.eqb n 10 || Nat.eqb n 13)%bool.

Fixpoint trimStart (s : string) : string :=
  match s with
  | EmptyString => EmptyString
  | String c s' => if is_white_space c then trimStart s' else s
  end.

Fixpoint trimEnd (s : string) : string :=
  match s with
  | EmptyString => EmptyString
  | String c s' =>
      let r := trimEnd s' in
      if (is_white_space c && String.eqb r "")%bool then EmptyString
      else String c r
  end.

(** [s.trim()] *)
Definition trim (s : string) : string := trimEnd (trimStart s).

(** [s.startsWith(p)] *)
Definition startsWith (p s : string) : bool := String.prefix p s.

(** [s.slice(n)] for [0 <= n]. *)
Fixpoint slice (n : nat) (s : string) : string :=
  match n, s with
  | O, _ => s
  | S n', String _ s' => slice n' s'
  | S _, EmptyString => EmptyString
  end.

(** [s.includes(needle)] *)
Fixpoint includes (needle s : string) : bool :=
  (String.prefix needle s
   || match s with
      | EmptyString => false
      | String _ s' => includes needle s'
      end)%bool.

(** [s.split(sep)] for a separator of one character.  The result is
    never empty: without separator in [s] it is [[s]]. *)
Fixpoint split (sep : ascii) (s : string) : list string :=
  match s with
  | EmptyString => [EmptyString]
  | String c s' =>
      match split sep s' with
      | hd :: tl =>
          if Ascii.eqb c sep then EmptyString :: hd :: tl
          else String c hd :: tl
      | [] => [EmptyString]
      end
  end.

(** [s.split(sep, limit)] keeps the first [limit] pieces. *)
Definition split_limit (sep : ascii) (limit : nat) (s : string)
  : list string :=
  take limit (split sep s).

(** Is every character of [s] accepted by [p]? *)
Fixpoint string_forall (p : ascii -> bool) (s : string) : bool :=
  match s with
  | EmptyString => true
  | String c s' => (p c && string_forall p s')%bool
  end.

End JS.
Export JS.

(** ** Git tree entries *)

Inductive FileType : Type := Blob | Tree | Commit.

Inductive FileMode : Type := M100644 | M100755 | M040000 | M160000 | M120000.

(** The [sha?: string | null] property of a tree entry: absent, [null]
    (the path is removed from the tree) or an object name. *)
Inductive ShaField : Type :=
| ShaAbsent
| ShaNull
| ShaOf (oid : string).

Record File : Type := mkFile {
  file_path : string;
  file_content : option string;
  file_sha : ShaField;
  file_mode : FileMode;
  file_type : option FileType;
}.

(** ** Calls to the collaborators and the monad of asynchronous code *)

Inductive Event : Type :=
| FsStat (p : string)
| FsReadFile (p : string)
| GraphqlTree (owner repo oid : string)
| GraphqlRef (owner repo ref : string)
| GraphqlDefaultBranchRef (owner repo : string)
| RestCreateTree (owner repo : string) (tree : list File)
    (base_tree : option string)
| RestCreateCommit (owner repo message tree : string)
    (parents : option (list string))
| RestUpdateRef (owner repo ref sha : string) (force : option bool)
| RestCreateRef (owner repo ref sha : string).

Definition is_fs_event (e : Event) : bool :=
  match e with
  | FsStat _ | FsReadFile _ => true
  | _ => false
  end.

Definition Trace : Type := list Event.

(** A computation reads the calls made before it started and returns what
    it threw or returned, with the calls it made, oldest first. *)
Definition M (A : Type) : Type := Trace -> (Thrown + A) * Trace.

Definition ret {A} (a : A) : M A := fun _ => (inr a, []).

Definition throw {A} (e : Thrown) : M A := fun _ => (inl e, []).

Definition bind {A B} (m : M A) (k : A -> M B) : M B :=
  fun h =>
    match m h with
    | (inl e, es) => (inl e, es)
    | (inr a, es) =>
        match k a (h ++ es) with
        | (r, es') => (r, es ++ es')
        end
    end.

(** [try { m } catch (error) { handler error }] *)
Definition try_catch {A} (m : M A) (handler : Thrown -> M A) : M A :=
  fun h =>
    match m h with
    | (inl e, es) =>
        match handler e (h ++ es) with
        | (r, es') => (r, es ++ es')
        end
    | (inr a, es) => (inr a, es)
    end.

(** One call to a collaborator: the call is made, whatever its outcome. *)
Definition perform {A} (ev : Event) (response : Trace -> Thrown + A) : M A :=
  fun h => (response h, [ev]).

(** A synchronous step that may throw. *)
Definition lift {A} (r : Thrown + A) : M A := fun _ => (r, []).

Declare Scope async_scope.
Delimit Scope async_scope with async.
Notation "x <- m ;; k" := (bind m (fun x => k))
  (at level 100, m at next level, right associativity) : async_scope.
Notation "m ;;; k" := (bind m (fun _ => k))
  (at level 100, right associativity) : async_scope.

(** [for (const x of xs) { out.push(await f(x)); }]: the results in
    order; the first failure ends the loop. *)
Fixpoint for_push {A B} (f : A -> M B) (xs : list A) : M (list B) :=
  match xs with
  | [] => ret []
  | x :: xs' =>
      (y <- f x ;;
       ys <- for_push f xs' ;;
       ret (y :: ys))%async
  end.

(** What a GraphQL query answers for [repository.ref]: the declared type
    is [Ref | undefined], and a response carries [null] for a ref that does
    not exist. *)
Inductive Lookup (R : Type) : Type :=
| LookupUndefined
| LookupNull
| LookupValue (r : R).
Arguments LookupUndefined {R}.
Arguments LookupNull {R}.
Arguments LookupValue {R}.

(** The API client.  Every method answers from the history of the calls
    made so far and its arguments; [R] is the shape of a branch as the
    GraphQL query of the caller selects it. *)
Record GitHub (R : Type) : Type := mkGitHub {
  graphql_tree : Trace -> string -> string -> string -> Thrown + string;
  graphql_ref : Trace -> string -> string -> string -> Thrown + Lookup R;
  graphql_defaultBranchRef : Trace -> string -> string -> Thrown + R;
  rest_git_createTree :
    Trace -> string -> string -> list File -> option string ->
    Thrown + string;
  rest_git_createCommit :
    Trace -> string -> string -> string -> string ->
    option (list string) -> Thrown + string;
  rest_git_updateRef :
    Trace -> string -> string -> string -> string -> option bool ->
    Thrown + string;
  rest_git_createRef :
    Trace -> string -> string -> string -> string -> Thrown + string;
}.
Arguments graphql_tree {R}.
Arguments graphql_ref {R}.
Arguments graphql_defaultBranchRef {R}.
Arguments rest_git_createTree {R}.
Arguments rest_git_createCommit {R}.
Arguments rest_git_updateRef {R}.
Arguments rest_git_createRef {R}.

(** [fs.Stats]: the mode word; [isDirectory] and [isFile] test its
    file-type bits ([S_IFMT = 0o170000]). *)
Record Stats : Type := mkStats { st_mode : Z }.

Definition isDirectory (s : Stats) : bool :=
  Z.eqb (Z.land (st_mode s) 0xF000) 0x4000.

Definition isFile (s : Stats) : bool :=
  Z.eqb (Z.land (st_mode s) 0xF000) 0x8000.

(** [node:fs/promises], read only. *)
Record FileSystem : Type := mkFileSystem {
  fs_stat : string -> Thrown + Stats;
  fs_readFile : string -> Thrown + string;
}.

(** [node:path] *)
Record Path : Type := mkPath {
  path_join : string -> string -> string;
  path_isAbsolute : string -> bool;
  path_resolve : string -> string -> string;
}.

(** The calls, as computations. *)
Section Calls.
Context {R : Type} (octokit : GitHub R).

Definition graphqlTree (owner repo oid : string) : M string :=
  perform (GraphqlTree owner repo oid)
    (fun h => graphql_tree octokit h owner repo oid).

Definition graphqlRef (owner repo ref : string) : M (Lookup R) :=
  perform (GraphqlRef owner repo ref)
    (fun h => graphql_ref octokit h owner repo ref).

Definition graphqlDefaultBranchRef (owner repo : string) : M R :=
  perform (GraphqlDefaultBranchRef owner repo)
    (fun h => graphql_defaultBranchRef octokit h owner repo).

Definition restCreateTree (owner repo : string) (tree : list File)
    (base_tree : option string) : M string :=
  perform (RestCreateTree owner repo tree base_tree)
    (fun h => rest_git_createTree octokit h owner repo tree base_tree).

Definition restCreateCommit (owner repo message tree : string)
    (parents : option (list string)) : M string :=
  perform (RestCreateCommit owner repo message tree parents)
    (fun h =>
       rest_git_createCommit octokit h owner repo message tree parents).

Definition restUpdateRef (owner repo ref sha : string)
    (force : option bool) : M string :=
  perform (RestUpdateRef owner repo ref sha force)
    (fun h => rest_git_updateRef octokit h owner repo ref sha force).

Definition restCreateRef (owner repo ref sha : string) : M string :=
  perform (RestCreateRef owner repo ref sha)
    (fun h => rest_git_createRef octokit h owner repo ref sha).
End Calls.

Definition stat (fs : FileSystem) (p : string) : M Stats :=
  perform (FsStat p) (fun _ => fs_stat fs p).

Definition readFile (fs : FileSystem) (p : string) : M string :=
  perform (FsReadFile p) (fun _ => fs_readFile fs p).

(** ** The library: [createCommit] *)

Module CreateCommit.

Record Options : Type := mkOptions {
  owner : string;
  repo : string;
  branch : string;
  message : string;
  rootDir : option string;
  empty : option bool;
  files : option (list string);
  baseSHA : option string;
  baseBranch : option string;
  noParent : option bool;
  deletedFiles : option (list string);
  deleteIfNotExist : option bool;
  forcePush : option bool;
}.

(** [{ commit: { sha } }] *)
Record Result : Type := mkResult { commit_sha : string }.

(** [{ target: { oid, tree: { oid } } }] *)
Record Ref : Type := mkRef {
  target_oid : string;
  target_tree_oid : string;
}.

(** A value of the declared type [Ref] at run time is an object or [null]:
    [getBaseBranch] returns what the lookup of the base branch answered.
    [None] is [null], and reading [target] of it is a TypeError, here with
    the message that V8 gives it. *)
Definition nullTarget : Thrown :=
  newError "Cannot read properties of null (reading 'target')".

(** [baseBranch.target.oid] *)
Definition targetOid (baseBranch : option Ref) : Thrown + string :=
  match baseBranch with
  | Some b => inr (target_oid b)
  | None => inl nullTarget
  end.

(** [baseBranch.target.tree.oid] *)
Definition targetTreeOid (baseBranch : option Ref) : Thrown + string :=
  match baseBranch with
  | Some b => inr (target_tree_oid b)
  | None => inl nullTarget
  end.

Definition isError (value : Thrown) : bool :=
  match value with
  | ThrownObject (Some _) _ => true
  | _ => false
  end.

(** [error.message] of a value that passed [isError]. *)
Definition error_message (value : Thrown) : string :=
  match value with
  | ThrownObject (Some m) _ => m
  | _ => ""
  end.

Fixpoint validateKeys (opts : Options)
    (keys : list (string * (Options -> string))) : Thrown + unit :=
  match keys with
  | [] => inr tt
  | (key, get) :: keys' =>
      if negb (truthy_string (get opts))
      then inl (newError (key +:+ " is required"))
      else validateKeys opts keys'
  end.

Definition validateOptions (opts : Options) : Thrown + unit :=
  validateKeys opts
    [("owner", owner); ("repo", repo); ("branch", branch);
     ("message", message)].

Definition getFileType (mode : FileMode) : FileType :=
  match mode with
  | M100644 => Blob
  | M100755 => Blob
  | M040000 => Tree
  | M160000 => Commit
  | M120000 => Blob
  end.

Definition getFileMode (mode : Z) : FileMode :=
  let type := Z.land mode 0xF000 (* 0o170000 *) in
  let perm := Z.land mode 0x1FF (* 0o777 *) in
  if Z.eqb type 0x8000 (* 0o100000: regular file *) then
    if negb (Z.eqb (Z.land perm 0x49 (* 0o111 *)) 0) then M100755
    else M100644
  else if Z.eqb type 0x4000 (* 0o040000: directory *) then M040000
  else if Z.eqb type 0xE000 (* 0o160000: gitlink *) then M160000
  else if Z.eqb type 0xA000 (* 0o120000: symlink *) then M120000
  else M100644.

Section Remote.
Context (octokit : GitHub Ref).

Definition updateRef (opts : Options) (sha : string) : M Result :=
  (s <- restUpdateRef octokit (owner opts) (repo opts)
          ("heads/" +:+ branch opts) sha
          (Some (truthy_opt_bool (forcePush opts))) ;;
   ret (mkResult s))%async.

Definition createRef (opts : Options) (sha : string) : M Result :=
  (s <- restCreateRef octokit (owner opts) (repo opts)
          ("refs/heads/" +:+ branch opts) sha ;;
   ret (mkResult s))%async.

Definition getTree (owner repo oid : string) : M string :=
  graphqlTree octokit owner repo oid.

Definition getBranch (owner repo branch : string) : M (Lookup Ref) :=
  graphqlRef octokit owner repo branch.

Definition getDefaultBranch (opts : Options) : M Ref :=
  graphqlDefaultBranchRef octokit (owner opts) (repo opts).

(** In a branch guarded by the truthiness of an optional string, the
    string is [or_empty_string] of it.  The explicit base branch is tested
    with [branch === undefined], so that a [null] answer is returned as
    the base; the target branch is tested for truthiness, so that [null]
    and [undefined] both lead to the default branch. *)
Definition getBaseBranch (opts : Options) : M (option Ref) :=
  if truthy_opt_string (baseSHA opts) then
    let sha := or_empty_string (baseSHA opts) in
    (t <- getTree (owner opts) (repo opts) sha ;;
     ret (Some (mkRef sha t)))%async
  else if truthy_opt_string (baseBranch opts) then
    (b <- getBranch (owner opts) (repo opts)
            (or_empty_string (baseBranch opts)) ;;
     match b with
     | LookupUndefined =>
         throw (newError
           ("Branch " +:+ branch opts +:+ " does not exist in "
            +:+ owner opts +:+ "/" +:+ repo opts))
     | LookupNull => ret None
     | LookupValue b => ret (Some b)
     end)%async
  else
    (b <- getBranch (owner opts) (repo opts) (branch opts) ;;
     match b with
     | LookupValue b => ret (Some b)
     | LookupUndefined | LookupNull =>
         d <- getDefaultBranch opts ;; ret (Some d)
     end)%async.
End Remote.

Section Local.
Context (path : Path) (fs : FileSystem).

(** The loop of [resolvePackedRef] over the lines of [packed-refs]:
    [const [sha, packedRef] = line.split(" ", 2)] leaves [packedRef]
    undefined on a line without space. *)
Fixpoint scanPackedRefs (lines : list string) (ref : string)
  : option string :=
  match lines with
  | [] => None
  | line :: rest =>
      if (startsWith "#" line || String.eqb (trim line) "")%bool
      then scanPackedRefs rest ref
      else
        match split_limit " " 2 line with
        | sha :: packedRef :: _ =>
            if String.eqb packedRef ref then Some sha
            else scanPackedRefs rest ref
        | _ => scanPackedRefs rest ref
        end
  end.

Definition resolvePackedRef (gitDir ref : string) : M string :=
  let packedRefsPath := path_join path gitDir "packed-refs" in
  (content <- readFile fs packedRefsPath ;;
   match scanPackedRefs (split "010" content) ref with
   | Some sha => ret sha
   | None =>
       throw (newError ("ref " +:+ ref +:+ " not found in packed-refs"))
   end)%async.

Definition resolveGitHEAD (gitDir : string) : M string :=
  let headPath := path_join path gitDir "HEAD" in
  (raw <- readFile fs headPath ;;
   let content := trim raw in
   if negb (startsWith "ref: " content) then ret content
   else
     let ref := slice 5 content in
     let refPath := path_join path gitDir ref in
     try_catch
       (loose <- readFile fs refPath ;; ret (trim loose))
       (fun _ => resolvePackedRef gitDir ref))%async.

(** [\s*(.+)$] matched at the start of [s]: group 1.  The white space
    is taken greedily and given back one character at a time; [.+]
    needs at least one character and no line terminator up to the end
    of the input. *)
Fixpoint match_spaces_rest (s : string) : option string :=
  let whole :=
    if string_forall (fun c => negb (is_line_terminator c)) s
    then Some s else None in
  match s with
  | EmptyString => None
  | String c s' =>
      if is_white_space c then
        match match_spaces_rest s' with
        | Some r => Some r
        | None => whole
        end
      else whole
  end.

(** [content.match(/^gitdir:\s*(.+)$/)]: group 1 of the match. *)
Definition match_gitdir (content : string) : option string :=
  if startsWith "gitdir:" content
  then match_spaces_rest (slice 7 content)
  else None.

Definition getSubmoduleCommitSHA (dirPath : string)
  : M (option string) :=
  let dotGitPath := path_join path dirPath ".git" in
  (is_file <- try_catch
                (stats <- stat fs dotGitPath ;; ret (isFile stats))
                (fun _ => ret false) ;;
   if negb is_file then ret None
   else
     raw <- readFile fs dotGitPath ;;
     let content := trim raw in
     match match_gitdir content with
     | None => ret None
     | Some m1 =>
         let gitDir :=
           if path_isAbsolute path m1 then m1
           else path_resolve path dirPath m1 in
         sha <- resolveGitHEAD gitDir ;;
         ret (Some sha)
     end)%async.

(** What both branches of [getFileContentAndMode] do with a path that
    [stat] found. *)
Definition fileOfStats (filePath : string) (stats : Stats) : M File :=
  if isDirectory stats then
    (commitSHA <- getSubmoduleCommitSHA filePath ;;
     match commitSHA with
     | Some commitSHA =>
         ret (mkFile filePath None (ShaOf commitSHA) M160000
                (Some Commit))
     | None => ret (mkFile filePath None ShaAbsent M040000 (Some Tree))
     end)%async
  else
    (content <- readFile fs filePath ;;
     let mode := getFileMode (st_mode stats) in
     ret (mkFile filePath (Some content) ShaAbsent mode
            (Some (getFileType mode))))%async.

Definition getFileContentAndMode (filePath : string)
    (deleteIfNotExist : bool) : M File :=
  if negb deleteIfNotExist then
    (stats <- stat fs filePath ;; fileOfStats filePath stats)%async
  else
    try_catch
      (stats <- stat fs filePath ;; fileOfStats filePath stats)%async
      (fun error =>
         match error with
         | ThrownPrimitive _ => throw error
         | ThrownNull =>
             (* [err.code] on [null] is a TypeError *)
             throw (newError
               "Cannot read properties of null (reading 'code')")
         | ThrownObject _ code =>
             match code with
             | Some code =>
                 if String.eqb code "ENOENT" then
                   let mode := M100644 in
                   ret (mkFile filePath None ShaNull mode
                          (Some (getFileType mode)))
                 else throw error
             | None => throw error
             end
         end).

Definition createTreeFile (opts : Options) (filePath : string)
  : M File :=
  (file <- getFileContentAndMode
             (path_join path (or_empty_string (rootDir opts)) filePath)
             (truthy_opt_bool (deleteIfNotExist opts)) ;;
   ret (mkFile filePath (file_content file) (file_sha file)
          (file_mode file) (Some (getFileType (file_mode file)))))%async.

Definition createDeletedTreeFile (opts : Options) (filePath : string)
  : M File :=
  (file <- getFileContentAndMode
             (path_join path (or_empty_string (rootDir opts)) filePath)
             (truthy_opt_bool (deleteIfNotExist opts)) ;;
   ret (mkFile filePath None ShaNull (file_mode file)
          (Some (getFileType (file_mode file)))))%async.

Context (octokit : GitHub Ref).

Definition getTreeSHA (opts : Options) (baseBranch : option Ref)
  : M string :=
  if truthy_opt_bool (empty opts) then lift (targetTreeOid baseBranch)
  else
    (added <- for_push (createTreeFile opts) (or_nil (files opts)) ;;
     deleted <- for_push (createDeletedTreeFile opts)
                  (or_nil (deletedFiles opts)) ;;
     let tree := added ++ deleted in
     baseTree <- lift (if truthy_opt_bool (noParent opts) then inr None
                       else
                         match targetTreeOid baseBranch with
                         | inl e => inl e
                         | inr oid => inr (Some oid)
                         end) ;;
     restCreateTree octokit (owner opts) (repo opts) tree baseTree)%async.

(** [undefined] is [None]. *)
Definition createCommit (opts : Options) : M (option Result) :=
  if (negb (has_length (files opts))
      && negb (has_length (deletedFiles opts))
      && negb (truthy_opt_bool (empty opts)))%bool
  then ret None
  else
    (lift (validateOptions opts) ;;;
     baseBranch <- getBaseBranch octokit opts ;;
     treeSHA <- getTreeSHA opts baseBranch ;;
     parents <- lift (if truthy_opt_bool (noParent opts) then inr None
                      else
                        match targetOid baseBranch with
                        | inl e => inl e
                        | inr oid => inr (Some [oid])
                        end) ;;
     commit <- restCreateCommit octokit (owner opts) (repo opts)
                 (message opts) treeSHA parents ;;
     try_catch
       (r <- updateRef octokit opts commit ;; ret (Some r))
       (fun error =>
          if negb (isError error) then throw error
          else if negb (includes "Reference does not exist"
                          (error_message error))
          then throw error
          else (r <- createRef octokit opts commit ;; ret (Some r))))%async.
End Local.

End CreateCommit.

(** ** The earlier entry point: [commit] of [main.ts] *)

Module MainTs.

Record Options : Type := mkOptions {
  owner : string;
  repo : string;
  branch : string;
  message : string;
  empty : option bool;
  files : option (list string);
  parent : option string;
  noParent : option bool;
  directory : option string;
  deletedFiles : option (list string);
  deleteIfNotExist : option bool;
  forcePush : option bool;
}.

Record Result : Type := mkResult { commit_sha : string }.

(** [{ name, target: { oid, tree: { oid } } }] *)
Record Ref : Type := mkRef {
  name : string;
  target_oid : string;
  target_tree_oid : string;
}.

Definition getFileMode (mode : Z) : FileMode :=
  let masked := Z.land mode 0xF000 (* 0o170000 *) in
  if Z.eqb masked 0x81ED (* 0o100755 *) then M100755
  else if Z.eqb masked 0x4000 (* 0o040000 *) then M040000
  else if Z.eqb masked 0xE000 (* 0o160000 *) then M160000
  else if Z.eqb masked 0xA000 (* 0o120000 *) then M120000
  else M100644.

(** [Promise.all([readFile(filePath), stat(filePath)])]: both calls are
    started, in this order.  When both fail the promise rejects with the
    failure that settles first; the model takes the one of [readFile]. *)
Definition getFileContentAndMode (fs : FileSystem) (filePath : string)
  : M File :=
  fun _ =>
    (match fs_readFile fs filePath, fs_stat fs filePath with
     | inr content, inr stats =>
         inr (mkFile filePath (Some content) ShaAbsent
                (getFileMode (st_mode stats)) (Some Blob))
     | inl e, _ => inl e
     | inr _, inl e => inl e
     end,
     [FsReadFile filePath; FsStat filePath]).

Fixpoint validateKeys (opts : Options)
    (keys : list (string * (Options -> string))) : Thrown + unit :=
  match keys with
  | [] => inr tt
  | (key, get) :: keys' =>
      if negb (truthy_string (get opts))
      then inl (newError (key +:+ " is required"))
      else validateKeys opts keys'
  end.

Section Remote.
Context (fs : FileSystem) (octokit : GitHub Ref).

Definition getBranch (owner repo branch : string) : M (Lookup Ref) :=
  graphqlRef octokit owner repo branch.

Definition getDefaultBranch (opts : Options) : M Ref :=
  graphqlDefaultBranchRef octokit (owner opts) (repo opts).

Definition getBaseBranch (opts : Options) : M Ref :=
  if negb (truthy_string (branch opts))
  then throw (newError "branch is not specified")
  else
    (b <- getBranch (owner opts) (repo opts) (branch opts) ;;
     match b with
     | LookupValue b => ret b
     | LookupUndefined | LookupNull => getDefaultBranch opts
     end)%async.

Definition treeEntry (filePath : string) : M File :=
  (file <- getFileContentAndMode fs filePath ;;
   ret (mkFile filePath (file_content file) ShaAbsent (file_mode file)
          (Some Blob)))%async.

Definition commit (opts : Options) : M (option Result) :=
  if (negb (has_length (files opts))
      && negb (truthy_opt_bool (empty opts)))%bool
  then ret None
  else
    (lift (validateKeys opts
             [("owner", owner); ("repo", repo); ("branch", branch);
              ("message", message)]) ;;;
     baseBranch <- getBaseBranch opts ;;
     treeSHA <-
       (if negb (truthy_opt_bool (empty opts)) then
          tree <- for_push treeEntry (or_nil (files opts)) ;;
          restCreateTree octokit (owner opts) (repo opts) tree
            (Some (target_tree_oid baseBranch))
        else ret (target_tree_oid baseBranch)) ;;
     let parents :=
       if truthy_opt_string (parent opts)
       then [or_empty_string (parent opts)]
       else [target_oid baseBranch] in
     commit <- restCreateCommit octokit (owner opts) (repo opts)
                 (message opts) treeSHA (Some parents) ;;
     if String.eqb (name baseBranch) (branch opts) then
       s <- restUpdateRef octokit (owner opts) (repo opts)
              ("heads/" +:+ branch opts) commit None ;;
       ret (Some (mkResult s))
     else
       s <- restCreateRef octokit (owner opts) (repo opts)
              ("refs/heads/" +:+ branch opts) commit ;;
       ret (Some (mkResult s)))%async.
End Remote.

End MainTs.

(** ** The entry point with deletions: [commit] of [part_001] *)

(** The declarations of [Options], [Result] and [Ref] and the functions
    [getFileMode], [getBranch], [getDefaultBranch] and [getBaseBranch] of
    this file are, character for character, those of [main.ts]; they are
    taken from [MainTs]. *)
Module Part001.

Definition getFileContentAndMode (fs : FileSystem) (filePath : string)
    (deleteIfNotExist : bool) : M File :=
  if negb deleteIfNotExist then
    (* [Promise.all([readFile(filePath), stat(filePath)])], as in
       [MainTs.getFileContentAndMode] *)
    fun _ =>
      (match fs_readFile fs filePath, fs_stat fs filePath with
       | inr content, inr stats =>
           inr (mkFile filePath (Some content) ShaAbsent
                  (MainTs.getFileMode (st_mode stats)) (Some Blob))
       | inl e, _ => inl e
       | inr _, inl e => inl e
       end,
       [FsReadFile filePath; FsStat filePath])
  else
    try_catch
      (stats <- stat fs filePath ;;
       content <- readFile fs filePath ;;
       ret (mkFile filePath (Some content) ShaAbsent
              (MainTs.getFileMode (st_mode stats)) (Some Blob)))%async
      (fun error =>
         match error with
         | ThrownPrimitive _ => throw error
         | ThrownNull =>
             (* [err.code] on [null] is a TypeError *)
             throw (newError
               "Cannot read properties of null (reading 'code')")
         | ThrownObject _ code =>
             match code with
             | Some code =>
                 if String.eqb code "ENOENT" then
                   ret (mkFile filePath None ShaNull M100644 (Some Blob))
                 else throw error
             | None => throw error
             end
         end).

Section Remote.
Context (fs : FileSystem) (octokit : GitHub MainTs.Ref).

Definition addedEntry (opts : MainTs.Options) (filePath : string) : M File :=
  (file <- getFileContentAndMode fs filePath
             (truthy_opt_bool (MainTs.deleteIfNotExist opts)) ;;
   ret (mkFile filePath (file_content file) (file_sha file)
          (file_mode file) (Some Blob)))%async.

Definition deletedEntry (opts : MainTs.Options) (filePath : string)
  : M File :=
  (file <- getFileContentAndMode fs filePath
             (truthy_opt_bool (MainTs.deleteIfNotExist opts)) ;;
   ret (mkFile filePath None ShaNull (file_mode file) (Some Blob)))%async.

Definition commit (opts : MainTs.Options) : M (option MainTs.Result) :=
  if (negb (has_length (MainTs.files opts))
      && negb (has_length (MainTs.deletedFiles opts))
      && negb (truthy_opt_bool (MainTs.empty opts)))%bool
  then ret None
  else
    (lift (MainTs.validateKeys opts
             [("owner", MainTs.owner); ("repo", MainTs.repo);
              ("branch", MainTs.branch); ("message", MainTs.message)]) ;;;
     baseBranch <- MainTs.getBaseBranch octokit opts ;;
     treeSHA <-
       (if negb (truthy_opt_bool (MainTs.empty opts)) then
          added <- for_push (addedEntry opts) (or_nil (MainTs.files opts)) ;;
          deleted <- for_push (deletedEntry opts)
                       (or_nil (MainTs.deletedFiles opts)) ;;
          restCreateTree octokit (MainTs.owner opts) (MainTs.repo opts)
            (added ++ deleted) (Some (MainTs.target_tree_oid baseBranch))
        else ret (MainTs.target_tree_oid baseBranch)) ;;
     let parents :=
       if truthy_opt_string (MainTs.parent opts)
       then [or_empty_string (MainTs.parent opts)]
       else [MainTs.target_oid baseBranch] in
     commit <- restCreateCommit octokit (MainTs.owner opts)
                 (MainTs.repo opts) (MainTs.message opts) treeSHA
                 (Some parents) ;;
     if String.eqb (MainTs.name baseBranch) (MainTs.branch opts) then
       s <- restUpdateRef octokit (MainTs.owner opts) (MainTs.repo opts)
              ("heads/" +:+ MainTs.branch opts) commit
              (Some (truthy_opt_bool (MainTs.forcePush opts))) ;;
       ret (Some (MainTs.mkResult s))
     else
       s <- restCreateRef octokit (MainTs.owner opts) (MainTs.repo opts)
              ("refs/heads/" +:+ MainTs.branch opts) commit ;;
       ret (Some (MainTs.mkResult s)))%async.
End Remote.

End Part001.

(** ** The collaborator's tree semantics *)

(** One entry of a [createTree] request applied to a tree (a finite map
    from path to entry): an entry whose
    [sha] is [null] removes its path, any other entry takes its place. *)
Definition applyEntry (t : gmap string File) (e : File) : gmap string File :=
  match file_sha e with
  | ShaNull => delete (file_path e) t
  | _ => <[file_path e := e]> t
  end.

(** Modelled from the spec: the remote's [createTree(entries, baseTreeSHA?)]
    itself is the API server and not part of the sources.  Entries omitted
    from the request but present in the base tree remain in the resulting
    tree unless explicitly marked for deletion; an entry that is a deletion
    marker removes its path; without a base tree the tree is built from only
    the entries of the request.  [trees] maps the object name of each tree
    the remote holds to its content. *)
Definition remoteCreateTree (trees : gmap string (gmap string File))
    (entries : list File) (base_tree : option string) : gmap string File :=
  let base : gmap string File :=
    match base_tree with
    | Some oid => default ∅ (trees !! oid)
    | None => ∅
    end in
  foldl applyEntry base entries.

(** ** Vocabulary of the properties *)

(** The error signature by which the remote reports that the ref to
    update is absent: an error object whose message contains
    "Reference does not exist". *)
Definition referenceDoesNotExist (error : Thrown) : bool :=
  match error with
  | ThrownObject (Some m) _ => includes "Reference does not exist" m
  | _ => false
  end.

(** A request that [createCommit] answers with [undefined]. *)
Definition noop_request (opts : CreateCommit.Options) : Prop :=
  or_nil (CreateCommit.files opts) = []
  /\ or_nil (CreateCommit.deletedFiles opts) = []
  /\ truthy_opt_bool (CreateCommit.empty opts) = false.

(** The calls that write the ref. *)
Definition is_ref_write (e : Event) : bool :=
  match e with
  | RestUpdateRef _ _ _ _ _ | RestCreateRef _ _ _ _ => true
  | _ => false
  end.

(** Every call made by [m], from any history, satisfies [P]. *)
Definition emits {A} (P : Event -> Prop) (m : M A) : Prop :=
  forall h, Forall P (snd (m h)).

(** [line] of [packed-refs] is an entry for [ref] with object name [sha]:
    it is no comment, it is not blank, and its first two fields separated
    by a space are [sha] and [ref]. *)
Definition packed_entry (line ref sha : string) : Prop :=
  startsWith "#" line = false
  /\ trim line <> ""
  /\ exists rest, split " " line = sha :: ref :: rest.

(** A request for a commit object names exactly one parent. *)
Definition one_parent (e : Event) : bool :=
  match e with
  | RestCreateCommit _ _ _ _ (Some [_]) => true
  | RestCreateCommit _ _ _ _ _ => false
  | _ => true
  end.

(** The calls that query the remote. *)
Definition is_query (e : Event) : bool :=
  match e with
  | GraphqlTree _ _ _ | GraphqlRef _ _ _ | GraphqlDefaultBranchRef _ _ => true
  | _ => false
  end.

(** The writes of the ref for one commit: nothing, an update, or an update
    followed by a creation. *)
Definition ref_steps (l : list Event) : bool :=
  match l with
  | [] => true
  | [RestUpdateRef _ _ _ _ _] => true
  | [RestUpdateRef _ _ _ _ _; RestCreateRef _ _ _ _] => true
  | _ => false
  end.

(** Nothing, or one commit object followed by the writes of the ref. *)
Definition commit_steps (l : list Event) : bool :=
  match l with
  | [] => true
  | RestCreateCommit _ _ _ _ _ :: rest => ref_steps rest
  | _ => false
  end.

(** The writes of one run: at most one tree, then [commit_steps]. *)
Definition write_steps (l : list Event) : bool :=
  match l with
  | RestCreateTree _ _ _ _ :: rest => commit_steps rest
  | _ => commit_steps l
  end.

(** A field of a line of [packed-refs]: no space and no line feed in it. *)
Definition is_field (s : string) : bool :=
  string_forall
    (fun c => negb (Ascii.eqb c " ") && negb (Ascii.eqb c "010"))%bool s.

(** An object name as [packed-refs] lists it: a field that starts with a
    character other than [#] and white space. *)
Definition is_object_name (s : string) : bool :=
  match s with
  | EmptyString => false
  | String c _ =>
      (negb (Ascii.eqb c "#") && negb (is_white_space c) && is_field s)%bool
  end.

(** [packed-refs] written from its entries, object name first: one line
    per entry, each ended by a line feed. *)
Fixpoint writePackedRefs (entries : list (string * string)) : string :=
  match entries with
  | [] => EmptyString
  | (sha, ref) :: entries' =>
      sha +:+ " " +:+ ref +:+ String "010" (writePackedRefs entries')
  end.

(** The object name of the first entry for [ref]. *)
Fixpoint firstEntry (entries : list (string * string)) (ref : string)
  : option string :=
  match entries with
  | [] => None
  | (sha, r) :: entries' =>
      if String.eqb r ref then Some sha else firstEntry entries' ref
  end.

(** [s] is white space, then [g]. *)
Definition spaces_then (s g : string) : Prop :=
  exists ws, s = ws +:+ g /\ string_forall is_white_space ws = true.

(** [m] makes at most [n] calls, from any history. *)
Definition calls_le {A} (n : nat) (m : M A) : Prop :=
  forall h, (length (snd (m h)) <= n)%nat.

(** A tree entry whose type goes with its mode and that carries content
    or a [sha] as its kind asks: without [sha], content unless it is a
    directory; with a [sha], no content and the mode of a submodule; as a
    deletion, no content. *)
Definition entry_ok (f : File) : Prop :=
  file_type f = Some (CreateCommit.getFileType (file_mode f))
  /\ match file_sha f with
     | ShaAbsent => file_content f = None <-> file_mode f = M040000
     | ShaOf _ => file_content f = None /\ file_mode f = M160000
     | ShaNull => file_content f = None
     end.

(** A tree entry that removes its path. *)
Definition is_deletion (f : File) : Prop :=
  file_sha f = ShaNull /\ file_content f = None.

(** ** Fixtures for the examples *)

(** An in-memory disk: what is at a path. *)
Inductive Node : Type :=
| RegularFile (mode : Z) (content : string)
| Directory (mode : Z).

Definition errno (code syscall p : string) : Thrown :=
  ThrownObject (Some (code +:+ ": " +:+ syscall +:+ " '" +:+ p +:+ "'"))
    (Some code).

(** The file system over a disk: a missing path fails with [ENOENT],
    reading a directory with [EISDIR]. *)
Definition diskFS (disk : gmap string Node) : FileSystem :=
  {| fs_stat p :=
       match disk !! p with
       | Some (RegularFile mode _) => inr (mkStats mode)
       | Some (Directory mode) => inr (mkStats mode)
       | None => inl (errno "ENOENT" "stat" p)
       end;
     fs_readFile p :=
       match disk !! p with
       | Some (RegularFile _ content) => inr content
       | Some (Directory _) => inl (errno "EISDIR" "read" p)
       | None => inl (errno "ENOENT" "open" p)
       end |}.

(** [node:path] on paths that need no normalisation. *)
Definition plainPath : Path :=
  {| path_join a b := if String.eqb a "" then b else a +:+ "/" +:+ b;
     path_isAbsolute p := startsWith "/" p;
     path_resolve d p := d +:+ "/" +:+ p |}.

(** A remote with one branch, [main], at commit [c0] with tree [t0].  It
    answers every tree request with [t1] and every commit request with
    [c1]; updating a ref other than [heads/main] fails because the ref
    does not exist; creating a ref succeeds. *)
Definition stubRemote {R : Type} (mainRef : R) : GitHub R :=
  {| graphql_tree _ _ _ _ := inr "t0";
     graphql_ref _ _ _ ref :=
       inr (if String.eqb ref "main" then LookupValue mainRef
            else LookupNull);
     graphql_defaultBranchRef _ _ _ := inr mainRef;
     rest_git_createTree _ _ _ _ _ := inr "t1";
     rest_git_createCommit _ _ _ _ _ _ := inr "c1";
     rest_git_updateRef _ _ _ ref sha _ :=
       if String.eqb ref "heads/main" then inr sha
       else inl (newError "Reference does not exist");
     rest_git_createRef _ _ _ _ sha := inr sha |}.

Definition stubGitHub : GitHub CreateCommit.Ref :=
  stubRemote (CreateCommit.mkRef "c0" "t0").

Definition stubGitHubMain : GitHub MainTs.Ref :=
  stubRemote (MainTs.mkRef "main" "c0" "t0").


(** Requests to [createCommit] on the repository [o/r] with message [m]:
    the branch, then [empty], [files], [baseSHA], [baseBranch],
    [noParent], [deletedFiles] and [deleteIfNotExist]. *)
Definition request (branch : string) (empty : option bool)
    (files : option (list string)) (baseSHA baseBranch : option string)
    (noParent : option bool) (deletedFiles : option (list string))
    (deleteIfNotExist : option bool) : CreateCommit.Options :=
  CreateCommit.mkOptions "o" "r" branch "m" None empty files baseSHA
    baseBranch noParent deletedFiles deleteIfNotExist None.

(** No file, no deletion, not empty, and no owner either. *)
Definition noopRequest : CreateCommit.Options :=
  CreateCommit.mkOptions "" "r" "main" "m" None (Some false) (Some [])
    None None None None None None.

(** A file to add, and no owner. *)
Definition ownerlessRequest : CreateCommit.Options :=
  CreateCommit.mkOptions "" "r" "main" "m" None None (Some ["a.txt"])
    None None None None None None.

Definition noopRequestMain : MainTs.Options :=
  MainTs.mkOptions "" "r" "main" "m" (Some false) (Some []) None None None
    None None None.

(** An empty commit on [main] without parent, for [commit] of [main.ts]
    and for [createCommit]. *)
Definition rootRequestMain : MainTs.Options :=
  MainTs.mkOptions "o" "r" "main" "m" (Some true) None None (Some true)
    None None None None.

Definition rootRequest : CreateCommit.Options :=
  request "main" (Some true) None None None (Some true) None None.

(** A disk with one file. *)
Definition oneFileDisk : gmap string Node :=
  {[ "a.txt" := RegularFile 0x81A4 (* 0o100644 *) "hello" ]}.

(** Git directories of a submodule whose HEAD is on [main]: with the
    loose ref and a stale packed one, with the packed ref only, and with
    neither. *)
Definition packedRefsText : string :=
  String "#" "pack-refs with: peeled fully-peeled sorted "
  +:+ String "010" "1111111 refs/heads/dev"
  +:+ String "010" "2222222 refs/heads/main"
  +:+ String "010" "".

Definition headText : string := "ref: refs/heads/main" +:+ String "010" "".

Definition looseGitDir : gmap string Node :=
  {[ "gd/HEAD" := RegularFile 0x81A4 headText;
     "gd/refs/heads/main" :=
       RegularFile 0x81A4 ("3333333" +:+ String "010" "");
     "gd/packed-refs" := RegularFile 0x81A4 packedRefsText ]}.

Definition packedGitDir : gmap string Node :=
  {[ "gd/HEAD" := RegularFile 0x81A4 headText;
     "gd/packed-refs" := RegularFile 0x81A4 packedRefsText ]}.

Definition stalePackedGitDir : gmap string Node :=
  {[ "gd/HEAD" := RegularFile 0x81A4 headText;
     "gd/packed-refs" :=
       RegularFile 0x81A4 ("1111111 refs/heads/dev" +:+ String "010" "") ]}.

Definition detachedGitDir : gmap string Node :=
  {[ "gd/HEAD" := RegularFile 0x81A4 ("4444444" +:+ String "010" "") ]}.

(** The file system over [looseGitDir] on which the loose ref, present
    on disk, may not be read. *)
Definition unreadableRefFS : FileSystem :=
  {| fs_stat := fs_stat (diskFS looseGitDir);
     fs_readFile p :=
       if String.eqb p "gd/refs/heads/main"
       then inl (errno "EACCES" "open" p)
       else fs_readFile (diskFS looseGitDir) p |}.

(** A git directory whose HEAD is the prefix of a symbolic ref and
    nothing more, and one that has a HEAD on [main] and nothing else. *)
Definition blankRefGitDir : gmap string Node :=
  {[ "gd/HEAD" := RegularFile 0x81A4 ("ref: " +:+ String "010" "") ]}.

Definition headOnlyGitDir : gmap string Node :=
  {[ "gd/HEAD" := RegularFile 0x81A4 headText ]}.



(** A submodule at [sub]: its [.git] file points to the git directory
    [/gd], whose HEAD is on [main], packed. *)
Definition submoduleDisk : gmap string Node :=
  <[ "sub" := Directory 0x41ED (* 0o040755 *) ]>
    (<[ "sub/.git" := RegularFile 0x81A4 "gitdir: /gd" ]>
       (<[ "/gd/HEAD" := RegularFile 0x81A4 headText ]>
          {[ "/gd/packed-refs" := RegularFile 0x81A4 packedRefsText ]})).

(** The same submodule after its git directory was removed. *)
Definition orphanSubmoduleDisk : gmap string Node :=
  <[ "sub" := Directory 0x41ED ]>
    {[ "sub/.git" := RegularFile 0x81A4 "gitdir: /gd" ]}.

(** A directory that holds a repository of its own. *)
Definition nestedRepoDisk : gmap string Node :=
  <[ "dir" := Directory 0x41ED ]> {[ "dir/.git" := Directory 0x41ED ]}.

(** An empty commit on the new branch [feat], for [commit] of [main.ts]
    and of [part_001]; and the request [rootRequestMain] with every option
    that [commit] of [main.ts] does not read set differently. *)
Definition featRequestMain : MainTs.Options :=
  MainTs.mkOptions "o" "r" "feat" "m" (Some true) None None None None None
    None None.

Definition rootRequestMainOther : MainTs.Options :=
  MainTs.mkOptions "o" "r" "main" "m" (Some true) None None None
    (Some "dir") (Some ["a.txt"]) (Some true) (Some true).

(** A request to [commit] of [part_001] on [main] without parent: one
    addition and one deletion of a path that may be missing. *)
Definition changeRequestMain : MainTs.Options :=
  MainTs.mkOptions "o" "r" "main" "m" None (Some ["a.txt"]) None (Some true)
    None (Some ["gone.txt"]) (Some true) None.

(** * Properties *)

(** ** The embedding on examples *)

Example trim_example :
  trim (String "009" " ref: refs/heads/main " +:+ String "010" "")
  = "ref: refs/heads/main".
Proof. reflexivity. Qed.

Example split_lines_example :
  split "010" ("a b" +:+ String "010" "" +:+ String "010" "c")
  = ["a b"; ""; "c"].
Proof. reflexivity. Qed.

Example split_limit_example :
  split_limit " " 2 "2222222 refs/heads/main trailing" =
  ["2222222"; "refs/heads/main"]
  /\ split_limit " " 2 "^2222222" = ["^2222222"].
Proof. split; reflexivity. Qed.

Example includes_example :
  includes "Reference does not exist"
    "Reference does not exist - https://docs.github.com/rest" = true
  /\ includes "Reference does not exist" "Reference already exists" = false.
Proof. split; reflexivity. Qed.

Example match_gitdir_example :
  CreateCommit.match_gitdir "gitdir: ../.git/modules/sub"
  = Some "../.git/modules/sub"
  /\ CreateCommit.match_gitdir "gitdir:" = None
  /\ CreateCommit.match_gitdir "worktree: x" = None.
Proof. repeat split. Qed.

(** A submodule directory: [.git] is a file that points to the git
    directory, whose HEAD is resolved through [packed-refs]. *)
Example submodule_entry_example :
  let disk : gmap string Node :=
    <[ "sub" := Directory 0x41ED (* 0o040755 *) ]>
      (<[ "sub/.git" := RegularFile 0x81A4 "gitdir: /gd" ]>
         (<[ "/gd/HEAD" := RegularFile 0x81A4 headText ]>
            {[ "/gd/packed-refs" := RegularFile 0x81A4 packedRefsText ]})) in
  CreateCommit.createTreeFile plainPath (diskFS disk)
    (request "main" None (Some ["sub"]) None None None None None) "sub" []
  = (inr (mkFile "sub" None (ShaOf "2222222") M160000 (Some Commit)),
     [FsStat "sub"; FsStat "sub/.git"; FsReadFile "sub/.git";
      FsReadFile "/gd/HEAD"; FsReadFile "/gd/refs/heads/main";
      FsReadFile "/gd/packed-refs"]).
Proof. reflexivity. Qed.

(** Adding [a.txt] on a branch that does not exist yet: the default branch
    is the base, the tree has one blob entry on top of the base tree, the
    commit has the base commit as its parent, and the ref is created after
    the update found no ref. *)
Example createCommit_new_branch_example :
  CreateCommit.createCommit plainPath (diskFS oneFileDisk) stubGitHub
    (request "feat-x" None (Some ["a.txt"]) None None None None None) []
  = (inr (Some (CreateCommit.mkResult "c1")),
     [GraphqlRef "o" "r" "feat-x"; GraphqlDefaultBranchRef "o" "r";
      FsStat "a.txt"; FsReadFile "a.txt";
      RestCreateTree "o" "r"
        [mkFile "a.txt" (Some "hello") ShaAbsent M100644 (Some Blob)]
        (Some "t0");
      RestCreateCommit "o" "r" "m" "t1" (Some ["c0"]);
      RestUpdateRef "o" "r" "heads/feat-x" "c1" (Some false);
      RestCreateRef "o" "r" "refs/heads/feat-x" "c1"]).
Proof. reflexivity. Qed.

(** ** The monad *)

Section MonadLemmas.
Context {A B : Type}.

Lemma bind_inv_inr (m : M A) (k : A -> M B) h b es :
  bind m k h = (inr b, es) ->
  exists a es1 es2,
    m h = (inr a, es1) /\ k a (h ++ es1) = (inr b, es2)
    /\ es = es1 ++ es2.
Proof.
  unfold bind. destruct (m h) as [[e | a] es1]; [discriminate |].
  destruct (k a (h ++ es1)) as [r es2] eqn:Hk. intros [= -> <-].
  now exists a, es1, es2.
Qed.

Lemma bind_lift_inr (r : A) (k : A -> M B) h :
  bind (lift (inr r)) k h = k r h.
Proof.
  unfold bind, lift. rewrite app_nil_r. now destruct (k r h).
Qed.

Lemma bind_perform (ev : Event) (resp : Trace -> Thrown + A)
    (k : A -> M B) h :
  bind (perform ev resp) k h =
  match resp h with
  | inl e => (inl e, [ev])
  | inr a => (fst (k a (h ++ [ev])), ev :: snd (k a (h ++ [ev])))
  end.
Proof.
  unfold bind, perform. destruct (resp h) as [e | a]; [reflexivity |].
  now destruct (k a (h ++ [ev])).
Qed.
End MonadLemmas.

(** ** The no-op check *)

Section NoOp.
Import CreateCommit.
Context (path : Path) (fs : FileSystem) (octokit : GitHub Ref).

Lemma has_length_or_nil {X} (l : option (list X)) :
  or_nil l = [] -> has_length l = false.
Proof. destruct l as [[| x l] |]; [reflexivity | discriminate | reflexivity]. Qed.

Lemma createCommit_noop (opts : Options) (h : Trace) :
  or_nil (files opts) = [] ->
  or_nil (deletedFiles opts) = [] ->
  truthy_opt_bool (empty opts) = false ->
  createCommit path fs octokit opts h = (inr None, []).
Proof.
  intros Hf Hd He. unfold createCommit.
  rewrite (has_length_or_nil _ Hf), (has_length_or_nil _ Hd), He.
  reflexivity.
Qed.

(** C10.  The no-op check comes before the check of the required
    options: a no-op request returns [undefined] whatever [owner],
    [repo], [branch] and [message] are; a request on which
    [createCommit] throws is not a no-op request; and a request that is
    not a no-op and lacks a required option throws the error of
    [validateOptions] before any call. *)
Theorem noop_check_precedes_validation (opts : Options) (h : Trace) :
  (or_nil (files opts) = [] ->
   or_nil (deletedFiles opts) = [] ->
   truthy_opt_bool (empty opts) = false ->
   createCommit path fs octokit opts h = (inr None, []))
  /\ (forall e es,
        createCommit path fs octokit opts h = (inl e, es) ->
        or_nil (files opts) <> [] \/ or_nil (deletedFiles opts) <> []
        \/ truthy_opt_bool (empty opts) = true)
  /\ (forall e,
        (or_nil (files opts) <> [] \/ or_nil (deletedFiles opts) <> []
         \/ truthy_opt_bool (empty opts) = true) ->
        validateOptions opts = inl e ->
        createCommit path fs octokit opts h = (inl e, [])).
Proof.
  split; [| split].
  - intros Hf Hd He. unfold createCommit.
    rewrite (has_length_or_nil _ Hf), (has_length_or_nil _ Hd), He.
    reflexivity.
  - intros e es Hrun.
    destruct (files opts) as [[| f fl] |] eqn:Hf;
      destruct (deletedFiles opts) as [[| d dl] |] eqn:Hd;
      destruct (truthy_opt_bool (empty opts)) eqn:He;
      try (left; discriminate); try (right; left; discriminate);
      try (right; right; reflexivity);
      unfold createCommit in Hrun; rewrite Hf, Hd, He in Hrun;
      discriminate.
  - intros e Hnot Hval. unfold createCommit.
    assert (Hguard :
      (negb (has_length (files opts)) && negb (has_length (deletedFiles opts))
       && negb (truthy_opt_bool (empty opts)))%bool = false).
    { destruct Hnot as [Hf | [Hd | He]].
      - destruct (files opts) as [[| f fl] |]; try (now elim Hf).
        reflexivity.
      - destruct (deletedFiles opts) as [[| d dl] |]; try (now elim Hd).
        simpl. now rewrite andb_false_r.
      - rewrite He. simpl. now rewrite andb_false_r. }
    rewrite Hguard, Hval. reflexivity.
Qed.
End NoOp.

(** The earlier entry point has the same early return; it does not look
    at [deletedFiles]. *)
Lemma main_commit_noop (fs : FileSystem) (octokit : GitHub MainTs.Ref)
    (opts : MainTs.Options) (h : Trace) :
  or_nil (MainTs.files opts) = [] ->
  truthy_opt_bool (MainTs.empty opts) = false ->
  MainTs.commit fs octokit opts h = (inr None, []).
Proof.
  intros Hf He. unfold MainTs.commit.
  rewrite (has_length_or_nil _ Hf), He. reflexivity.
Qed.

(** C1.  A request with no additions, no deletions and [empty] unset or
    false is answered with [undefined] without any call: the calls made,
    to the remote or to the file system, are none.  This holds of
    [createCommit] and of [commit] of [main.ts]. *)
Theorem noop_returns_undefined_without_calls :
  (forall (path : Path) (fs : FileSystem)
          (octokit : GitHub CreateCommit.Ref) (opts : CreateCommit.Options)
          (h : Trace),
     or_nil (CreateCommit.files opts) = [] ->
     or_nil (CreateCommit.deletedFiles opts) = [] ->
     truthy_opt_bool (CreateCommit.empty opts) = false ->
     CreateCommit.createCommit path fs octokit opts h = (inr None, []))
  /\ (forall (fs : FileSystem) (octokit : GitHub MainTs.Ref)
             (opts : MainTs.Options) (h : Trace),
        or_nil (MainTs.files opts) = [] ->
        or_nil (MainTs.deletedFiles opts) = [] ->
        truthy_opt_bool (MainTs.empty opts) = false ->
        MainTs.commit fs octokit opts h = (inr None, [])).
Proof.
  split.
  - intros. now apply createCommit_noop.
  - intros. now apply main_commit_noop.
Qed.

(** ** Base-state resolution *)

Section BaseBranch.
Import CreateCommit.
Context (octokit : GitHub Ref).

(** C2.  The base is resolved in strict priority.  With a non-empty
    [baseSHA] the only call is the query for the tree of that commit, so
    no branch is looked up, whatever [baseBranch] is.  Without it, a
    non-empty [baseBranch] is the only branch looked up, and what the
    lookup answers is the base: the branch, or [null] when the response
    carries [null] for it; only an [undefined] answer is the error that
    the branch does not exist.  With neither, the target branch is looked
    up and used when the answer is a branch; when the answer is [null] or
    [undefined], the default branch is queried and used. *)
Theorem getBaseBranch_priority (opts : Options) (h : Trace) :
  let o := owner opts in
  let r := repo opts in
  (truthy_opt_string (baseSHA opts) = true ->
   let sha := or_empty_string (baseSHA opts) in
   getBaseBranch octokit opts h =
     (match graphql_tree octokit h o r sha with
      | inl e => inl e
      | inr tree => inr (Some (mkRef sha tree))
      end,
      [GraphqlTree o r sha]))
  /\ (truthy_opt_string (baseSHA opts) = false ->
      truthy_opt_string (baseBranch opts) = true ->
      let bb := or_empty_string (baseBranch opts) in
      getBaseBranch octokit opts h =
        (match graphql_ref octokit h o r bb with
         | inl e => inl e
         | inr (LookupValue b) => inr (Some b)
         | inr LookupNull => inr None
         | inr LookupUndefined =>
             inl (newError ("Branch " +:+ branch opts
                            +:+ " does not exist in " +:+ o +:+ "/" +:+ r))
         end,
         [GraphqlRef o r bb]))
  /\ (truthy_opt_string (baseSHA opts) = false ->
      truthy_opt_string (baseBranch opts) = false ->
      forall b,
        graphql_ref octokit h o r (branch opts) = inr (LookupValue b) ->
        getBaseBranch octokit opts h =
          (inr (Some b), [GraphqlRef o r (branch opts)]))
  /\ (truthy_opt_string (baseSHA opts) = false ->
      truthy_opt_string (baseBranch opts) = false ->
      graphql_ref octokit h o r (branch opts) = inr LookupNull
      \/ graphql_ref octokit h o r (branch opts) = inr LookupUndefined ->
      getBaseBranch octokit opts h =
        (match graphql_defaultBranchRef octokit
                 (h ++ [GraphqlRef o r (branch opts)]) o r with
         | inl e => inl e
         | inr d => inr (Some d)
         end,
         [GraphqlRef o r (branch opts); GraphqlDefaultBranchRef o r])).
Proof.
  intros o r. unfold getBaseBranch, getTree, getBranch, getDefaultBranch.
  split; [| split; [| split]].
  - intros ->. unfold graphqlTree. rewrite bind_perform.
    fold o r. now destruct (graphql_tree octokit h o r _).
  - intros -> ->. unfold graphqlRef. rewrite bind_perform.
    fold o r. now destruct (graphql_ref octokit h o r _) as [e | [| | b]].
  - intros -> -> b Hb. unfold graphqlRef. rewrite bind_perform.
    fold o r. now rewrite Hb.
  - intros -> -> [Hb | Hb]; unfold graphqlRef; rewrite bind_perform;
      fold o r; rewrite Hb; cbv beta iota;
      unfold graphqlDefaultBranchRef, bind, perform, ret; cbn;
      now destruct (graphql_defaultBranchRef octokit _ o r).
Qed.
End BaseBranch.

(** ** File modes *)

Section FileModes.

Lemma land_perm_exec (mode : Z) :
  Z.land (Z.land mode 0x1FF) 0x49 = Z.land mode 0x49.
Proof. now rewrite <- Z.land_assoc. Qed.

(** The mapping of [createCommit]'s [getFileMode], by the file-type bits
    ([mode & 0o170000]): a regular file is [100755] with any of the
    execute bits ([0o111]) and [100644] without, a directory is [040000],
    a gitlink [160000], a symbolic link [120000], anything else
    [100644]. *)
Lemma getFileMode_mapping (mode : Z) :
  let type := Z.land mode 0xF000 in
  (type = 0x8000 -> Z.land mode 0x49 <> 0 ->
   CreateCommit.getFileMode mode = M100755)
  /\ (type = 0x8000 -> Z.land mode 0x49 = 0 ->
      CreateCommit.getFileMode mode = M100644)
  /\ (type = 0x4000 -> CreateCommit.getFileMode mode = M040000)
  /\ (type = 0xE000 -> CreateCommit.getFileMode mode = M160000)
  /\ (type = 0xA000 -> CreateCommit.getFileMode mode = M120000)
  /\ (type <> 0x8000 -> type <> 0x4000 -> type <> 0xE000 ->
      type <> 0xA000 -> CreateCommit.getFileMode mode = M100644).
Proof.
  intros type. unfold CreateCommit.getFileMode. fold type.
  rewrite land_perm_exec.
  split; [| split; [| split; [| split; [| split]]]].
  - intros -> Hx. simpl. apply Z.eqb_neq in Hx. now rewrite Hx.
  - intros -> Hx. simpl. now rewrite Hx.
  - now intros ->.
  - now intros ->.
  - now intros ->.
  - intros H1 H2 H3 H4.
    apply Z.eqb_neq in H1, H2, H3, H4. now rewrite H1, H2, H3, H4.
Qed.

(** The file-type bits of a mode never equal [0o100755]. *)
Lemma masked_mode_not_0o100755 (mode : Z) :
  Z.land mode 0xF000 <> 0x81ED.
Proof.
  intros H.
  assert (Hidem : Z.land (Z.land mode 0xF000) 0xF000 = Z.land mode 0xF000).
  { now rewrite <- Z.land_assoc. }
  rewrite H in Hidem. discriminate Hidem.
Qed.

(** [getFileMode] of [main.ts] never answers [100755]. *)
Lemma main_getFileMode_never_executable (mode : Z) :
  MainTs.getFileMode mode <> M100755.
Proof.
  unfold MainTs.getFileMode.
  destruct (Z.eqb_spec (Z.land mode 0xF000) 0x81ED) as [H | _].
  - now apply masked_mode_not_0o100755 in H.
  - now repeat destruct (Z.eqb _ _).
Qed.

(** C7.  A regular file with all execute bits set, mode [0o100755]:
    [getFileMode] of [main.ts] answers [100644], where the mapping asks
    for [100755], which [getFileMode] of [createCommit] answers. *)
Theorem main_getFileMode_executable_file :
  Z.land 0x81ED 0xF000 = 0x8000
  /\ Z.land 0x81ED 0x49 <> 0
  /\ MainTs.getFileMode 0x81ED = M100644
  /\ CreateCommit.getFileMode 0x81ED = M100755.
Proof. repeat split. discriminate. Qed.
End FileModes.

(** ** From the commit object to the ref *)

(** With a base that is an object, reading its commit and its tree does
    not fail. *)
Lemma parents_of_base (noParent : bool) (base : CreateCommit.Ref) :
  (if noParent then inr None
   else
     match CreateCommit.targetOid (Some base) with
     | inl e => inl e
     | inr oid => inr (Some [oid])
     end) =
  @inr Thrown _ (if noParent then None
                 else Some [CreateCommit.target_oid base]).
Proof. now destruct noParent. Qed.

Lemma baseTree_of_base (noParent : bool) (base : CreateCommit.Ref) :
  (if noParent then inr None
   else
     match CreateCommit.targetTreeOid (Some base) with
     | inl e => inl e
     | inr oid => inr (Some oid)
     end) =
  @inr Thrown _ (if noParent then None
                 else Some (CreateCommit.target_tree_oid base)).
Proof. now destruct noParent. Qed.

Section AfterTree.
Import CreateCommit.
Context (path : Path) (fs : FileSystem) (octokit : GitHub Ref).
Context (opts : Options) (h : Trace).
Context (base : Ref) (es1 : Trace) (treeSHA : string) (es2 : Trace).

Hypothesis Hrequested : ~ noop_request opts.
Hypothesis Hvalid : validateOptions opts = inr tt.
Hypothesis Hbase : getBaseBranch octokit opts h = (inr (Some base), es1).
Hypothesis Htree :
  getTreeSHA path fs octokit opts (Some base) (h ++ es1)
  = (inr treeSHA, es2).

Lemma requested_guard :
  (negb (has_length (files opts)) && negb (has_length (deletedFiles opts))
   && negb (truthy_opt_bool (empty opts)))%bool = false.
Proof.
  destruct (files opts) as [[| f fl] |] eqn:Hf;
    destruct (deletedFiles opts) as [[| d dl] |] eqn:Hd;
    destruct (truthy_opt_bool (empty opts)) eqn:He; try reflexivity;
    elim Hrequested; unfold noop_request; rewrite Hf, Hd, He; auto.
Qed.

Let o := owner opts.
Let r := repo opts.
Let parents : option (list string) :=
  if truthy_opt_bool (noParent opts) then None
  else Some [target_oid base].
Let created := RestCreateCommit o r (message opts) treeSHA parents.
Let h3 := ((h ++ es1) ++ es2) ++ [created].
Let force := Some (truthy_opt_bool (forcePush opts)).

(** The [try]/[catch] around [updateRef], from any history. *)
Lemma upsert_run (commit : string) (h' : Trace) :
  let update :=
    RestUpdateRef o r ("heads/" +:+ branch opts) commit force in
  let create := RestCreateRef o r ("refs/heads/" +:+ branch opts) commit in
  try_catch
    (r <- updateRef octokit opts commit ;; ret (Some r))%async
    (fun error =>
       if negb (isError error) then throw error
       else if negb (includes "Reference does not exist"
                       (error_message error))
       then throw error
       else (r <- createRef octokit opts commit ;; ret (Some r))%async)
    h' =
  match
    rest_git_updateRef octokit h' o r ("heads/" +:+ branch opts) commit force
  with
  | inr sha => (inr (Some (mkResult sha)), [update])
  | inl error =>
      if referenceDoesNotExist error then
        (match
           rest_git_createRef octokit (h' ++ [update]) o r
             ("refs/heads/" +:+ branch opts) commit
         with
         | inl e => inl e
         | inr sha => inr (Some (mkResult sha))
         end,
         [update; create])
      else (inl error, [update])
  end.
Proof.
  intros update create.
  unfold try_catch, updateRef, createRef, restUpdateRef, restCreateRef,
    bind, perform, ret, throw.
  fold o r force update create.
  destruct (rest_git_updateRef octokit h' o r ("heads/" +:+ branch opts)
              commit force) as [error | sha]; [| reflexivity].
  destruct error as [[m |] code | | repr]; simpl; try reflexivity.
  destruct (includes "Reference does not exist" m); simpl;
    [| reflexivity].
  now destruct (rest_git_createRef octokit (h' ++ [update]) o r
                  ("refs/heads/" +:+ branch opts) commit).
Qed.

Lemma upsert_emits (commit : string) (h' : Trace) :
  Forall (fun e => is_ref_write e = true)
    (snd (try_catch
       (r <- updateRef octokit opts commit ;; ret (Some r))%async
       (fun error =>
          if negb (isError error) then throw error
          else if negb (includes "Reference does not exist"
                          (error_message error))
          then throw error
          else (r <- createRef octokit opts commit ;; ret (Some r))%async)
       h')).
Proof.
  rewrite upsert_run.
  destruct (rest_git_updateRef octokit h' o r ("heads/" +:+ branch opts)
              commit force) as [error | sha].
  - destruct (referenceDoesNotExist error); simpl; repeat constructor.
  - simpl. repeat constructor.
Qed.

(** The run of [createCommit] once the base and the tree are there: the
    commit object is requested with the tree and the parents, and on
    success the ref is written. *)
Lemma createCommit_after_tree :
  createCommit path fs octokit opts h =
    match
      rest_git_createCommit octokit ((h ++ es1) ++ es2) o r (message opts)
        treeSHA parents
    with
    | inl e => (inl e, es1 ++ es2 ++ [created])
    | inr commit =>
        let tail :=
          try_catch
            (r <- updateRef octokit opts commit ;; ret (Some r))%async
            (fun error =>
               if negb (isError error) then throw error
               else if negb (includes "Reference does not exist"
                               (error_message error))
               then throw error
               else
                 (r <- createRef octokit opts commit ;; ret (Some r))%async)
            h3 in
        (fst tail, es1 ++ es2 ++ created :: snd tail)
    end.
Proof.
  unfold createCommit. rewrite requested_guard, Hvalid, bind_lift_inr.
  unfold bind at 1. rewrite Hbase.
  unfold bind at 1. rewrite Htree.
  rewrite parents_of_base, bind_lift_inr.
  unfold restCreateCommit. rewrite bind_perform.
  fold o r parents.
  now destruct (rest_git_createCommit octokit ((h ++ es1) ++ es2) o r
                  (message opts) treeSHA parents).
Qed.


(** Parent linkage of [createCommit]: the commit object is requested
    with no parents when [noParent] is set, whatever the base is, and
    with the commit of the resolved base as its one parent otherwise;
    what follows are writes of the ref only. *)
Lemma createCommit_parents :
  exists outcome rest,
    createCommit path fs octokit opts h =
      (outcome,
       es1 ++ es2
       ++ RestCreateCommit o r (message opts) treeSHA
            (if truthy_opt_bool (noParent opts) then None
             else Some [target_oid base])
       :: rest)
    /\ Forall (fun e => is_ref_write e = true) rest.
Proof.
  rewrite createCommit_after_tree. fold parents. fold created.
  destruct (rest_git_createCommit octokit ((h ++ es1) ++ es2) o r
              (message opts) treeSHA parents) as [e | commit].
  - exists (inl e), []. split; [reflexivity | constructor].
  - cbv zeta. eexists _, _. split; [reflexivity |]. apply upsert_emits.
Qed.
End AfterTree.

(** ** What a computation calls *)

Section Emits.
Context {A B : Type} (P : Event -> Prop).

Lemma emits_ret (a : A) : emits P (ret a).
Proof. intros h. constructor. Qed.

Lemma emits_throw (e : Thrown) : emits P (@throw A e).
Proof. intros h. constructor. Qed.

Lemma emits_lift (r : Thrown + A) : emits P (lift r).
Proof. intros h. constructor. Qed.

Lemma emits_perform (ev : Event) (resp : Trace -> Thrown + A) :
  P ev -> emits P (perform ev resp).
Proof. intros Hev h. simpl. now repeat constructor. Qed.

Lemma emits_bind (m : M A) (k : A -> M B) :
  emits P m -> (forall a, emits P (k a)) -> emits P (bind m k).
Proof.
  intros Hm Hk h. unfold bind. specialize (Hm h).
  destruct (m h) as [[e | a] es]; [exact Hm |].
  specialize (Hk a (h ++ es)). destruct (k a (h ++ es)) as [r es'].
  simpl in *. apply Forall_app. now split.
Qed.

Lemma emits_try_catch (m : M A) (handler : Thrown -> M A) :
  emits P m -> (forall e, emits P (handler e)) ->
  emits P (try_catch m handler).
Proof.
  intros Hm Hk h. unfold try_catch. specialize (Hm h).
  destruct (m h) as [[e | a] es]; [| exact Hm].
  specialize (Hk e (h ++ es)). destruct (handler e (h ++ es)) as [r es'].
  simpl in *. apply Forall_app. now split.
Qed.

End Emits.

Lemma emits_for_push {A B} (P : Event -> Prop) (f : A -> M B)
    (xs : list A) :
  (forall x, emits P (f x)) -> emits P (for_push f xs).
Proof.
  intros Hf. induction xs as [| x xs IH]; simpl.
  - apply emits_ret.
  - apply emits_bind; [apply Hf | intros y].
    apply emits_bind; [exact IH | intros ys]. apply emits_ret.
Qed.

Ltac emits_step :=
  first
    [ apply emits_ret
    | apply emits_throw
    | apply emits_lift
    | apply emits_perform; reflexivity
    | apply emits_bind; [| intros ?]
    | apply emits_try_catch; [| intros ?]
    | match goal with
      | |- emits _ (if ?b then _ else _) => destruct b
      | |- emits _ (match ?x with _ => _ end) => destruct x
      end ].

Section LocalEmits.
Import CreateCommit.
Context (path : Path) (fs : FileSystem).

Let fs_only (e : Event) : Prop := is_fs_event e = true.

Lemma resolveGitHEAD_emits gitDir :
  emits fs_only (resolveGitHEAD path fs gitDir).
Proof.
  unfold resolveGitHEAD, resolvePackedRef, readFile. repeat emits_step.
Qed.

Lemma getSubmoduleCommitSHA_emits dirPath :
  emits fs_only (getSubmoduleCommitSHA path fs dirPath).
Proof.
  unfold getSubmoduleCommitSHA, stat, readFile.
  repeat first [apply resolveGitHEAD_emits | emits_step].
Qed.

Lemma getFileContentAndMode_emits filePath deleteIfNotExist :
  emits fs_only (getFileContentAndMode path fs filePath deleteIfNotExist).
Proof.
  unfold getFileContentAndMode, fileOfStats, stat, readFile.
  repeat first [apply getSubmoduleCommitSHA_emits | emits_step].
Qed.

Lemma createTreeFile_emits opts filePath :
  emits fs_only (createTreeFile path fs opts filePath).
Proof.
  unfold createTreeFile.
  repeat first [apply getFileContentAndMode_emits | emits_step].
Qed.

Lemma createDeletedTreeFile_emits opts filePath :
  emits fs_only (createDeletedTreeFile path fs opts filePath).
Proof.
  unfold createDeletedTreeFile.
  repeat first [apply getFileContentAndMode_emits | emits_step].
Qed.

Lemma createTreeFile_path opts filePath h file es :
  createTreeFile path fs opts filePath h = (inr file, es) ->
  file_path file = filePath.
Proof.
  unfold createTreeFile. intros Hrun.
  apply bind_inv_inr in Hrun as (f & e1 & e2 & _ & Hret & _).
  unfold ret in Hret. now injection Hret as <- _.
Qed.

Lemma createDeletedTreeFile_path opts filePath h file es :
  createDeletedTreeFile path fs opts filePath h = (inr file, es) ->
  file_path file = filePath.
Proof.
  unfold createDeletedTreeFile. intros Hrun.
  apply bind_inv_inr in Hrun as (f & e1 & e2 & _ & Hret & _).
  unfold ret in Hret. now injection Hret as <- _.
Qed.

Lemma for_push_paths (f : string -> M File) :
  (forall x h y es, f x h = (inr y, es) -> file_path y = x) ->
  forall xs h ys es,
    for_push f xs h = (inr ys, es) -> map file_path ys = xs.
Proof.
  intros Hf. induction xs as [| x xs IH]; intros h ys es Hrun.
  - simpl in Hrun. unfold ret in Hrun. now injection Hrun as <- _.
  - simpl in Hrun.
    apply bind_inv_inr in Hrun as (y & e1 & e2 & Hy & Hrest & _).
    apply bind_inv_inr in Hrest as (ys' & e3 & e4 & Hys & Hret & _).
    unfold ret in Hret. injection Hret as <- _.
    simpl. f_equal; [eapply Hf, Hy | eapply IH, Hys].
Qed.
End LocalEmits.

(** ** The tree of the commit *)

Lemma applyEntry_other (t : gmap string File) (e : File) (p : string) :
  file_path e <> p -> applyEntry t e !! p = t !! p.
Proof.
  intros Hne. unfold applyEntry.
  destruct (file_sha e).
  - now apply lookup_insert_ne.
  - now apply lookup_delete_ne.
  - now apply lookup_insert_ne.
Qed.

Lemma foldl_applyEntry_unlisted (entries : list File) :
  forall (t : gmap string File) (p : string),
    ~ In p (map file_path entries) ->
    foldl applyEntry t entries !! p = t !! p.
Proof.
  induction entries as [| e entries IH]; intros t p Hnot; [reflexivity |].
  simpl. rewrite IH.
  - apply applyEntry_other. intros Heq. apply Hnot. now left.
  - intros Hin. apply Hnot. now right.
Qed.

Lemma fs_event_not_createTree (es : Trace) o r tree bt :
  Forall (fun e => is_fs_event e = true) es ->
  ~ In (RestCreateTree o r tree bt) es.
Proof.
  intros Hall Hin. rewrite Forall_forall in Hall.
  apply list_elem_of_In in Hin. apply Hall in Hin. discriminate Hin.
Qed.

Section TreeSHA.
Import CreateCommit.
Context (path : Path) (fs : FileSystem) (octokit : GitHub Ref).
Context (opts : Options) (base : Ref) (h : Trace).

(** C8.  With [empty] set the tree is not built: [getTreeSHA] answers
    the tree of the resolved base without any call, neither to the file
    system nor to the remote, whatever [files] and [deletedFiles] are;
    and [createCommit] requests the commit object with exactly that tree
    right after the base is resolved. *)
Theorem empty_commit_reuses_base_tree :
  truthy_opt_bool (empty opts) = true ->
  getTreeSHA path fs octokit opts (Some base) h = (inr (target_tree_oid base), [])
  /\ (forall h0 es1,
        validateOptions opts = inr tt ->
        getBaseBranch octokit opts h0 = (inr (Some base), es1) ->
        exists outcome rest,
          createCommit path fs octokit opts h0 =
            (outcome,
             es1
             ++ RestCreateCommit (owner opts) (repo opts) (message opts)
                  (target_tree_oid base)
                  (if truthy_opt_bool (noParent opts) then None
                   else Some [target_oid base])
             :: rest)
          /\ Forall (fun e => is_ref_write e = true) rest).
Proof.
  intros Hempty.
  assert (Htree : forall h', getTreeSHA path fs octokit opts (Some base) h'
                             = (inr (target_tree_oid base), [])).
  { intros h'. unfold getTreeSHA. now rewrite Hempty. }
  split; [apply Htree |].
  intros h0 es1 Hvalid Hbase.
  assert (Hreq : ~ noop_request opts).
  { intros (_ & _ & He). rewrite Hempty in He. discriminate He. }
  destruct (createCommit_parents path fs octokit opts h0 base es1
              (target_tree_oid base) [] Hreq Hvalid Hbase (Htree _))
    as (outcome & rest & Hrun & Hrest).
  now exists outcome, rest.
Qed.

Let listed : list string :=
  or_nil (files opts) ++ or_nil (deletedFiles opts).
Let baseTree : option string :=
  if truthy_opt_bool (noParent opts) then None
  else Some (target_tree_oid base).

(** C9.  For a commit that is not empty, the tree is requested
    without base tree when [noParent] is set and with the tree of the
    resolved base otherwise.  Once every listed path is inspected,
    [createTree] is called, with one entry per listed path in the order
    of the request, and its answer is the answer of [getTreeSHA].  By
    the tree semantics of the remote, a path that is not listed is then
    absent from the new tree when [noParent] is set, and is what it is in
    the base tree otherwise. *)
Theorem tree_base_follows_noParent :
  truthy_opt_bool (empty opts) = false ->
  (forall added es_a deleted es_d,
     for_push (createTreeFile path fs opts) (or_nil (files opts)) h
       = (inr added, es_a) ->
     for_push (createDeletedTreeFile path fs opts)
       (or_nil (deletedFiles opts)) (h ++ es_a) = (inr deleted, es_d) ->
     getTreeSHA path fs octokit opts (Some base) h =
       (rest_git_createTree octokit ((h ++ es_a) ++ es_d) (owner opts)
          (repo opts) (added ++ deleted) baseTree,
        es_a ++ es_d
        ++ [RestCreateTree (owner opts) (repo opts) (added ++ deleted)
              baseTree]))
  /\ (forall outcome es o r tree base_tree,
        getTreeSHA path fs octokit opts (Some base) h = (outcome, es) ->
        In (RestCreateTree o r tree base_tree) es ->
        base_tree = baseTree
        /\ map file_path tree = listed
        /\ forall (trees : gmap string (gmap string File)) (p : string),
             ~ In p listed ->
             remoteCreateTree trees tree base_tree !! p =
               if truthy_opt_bool (noParent opts) then None
               else default ∅ (trees !! target_tree_oid base) !! p).
Proof.
  intros Hempty.
  assert (Hrun : forall added es_a deleted es_d,
     for_push (createTreeFile path fs opts) (or_nil (files opts)) h
       = (inr added, es_a) ->
     for_push (createDeletedTreeFile path fs opts)
       (or_nil (deletedFiles opts)) (h ++ es_a) = (inr deleted, es_d) ->
     getTreeSHA path fs octokit opts (Some base) h =
       (rest_git_createTree octokit ((h ++ es_a) ++ es_d) (owner opts)
          (repo opts) (added ++ deleted) baseTree,
        es_a ++ es_d
        ++ [RestCreateTree (owner opts) (repo opts) (added ++ deleted)
              baseTree])).
  { intros added es_a deleted es_d Ha Hd.
    unfold getTreeSHA. rewrite Hempty.
    unfold bind at 1. rewrite Ha. unfold bind at 1. rewrite Hd.
    rewrite baseTree_of_base, bind_lift_inr. reflexivity. }
  split; [exact Hrun |].
  intros outcome es o r tree base_tree Hget Hin.
  pose proof (emits_for_push _ _ (or_nil (files opts))
                (createTreeFile_emits path fs opts) h) as Hfs_a.
  destruct (for_push (createTreeFile path fs opts) (or_nil (files opts)) h)
    as [[e | added] es_a] eqn:Ha.
  { exfalso. unfold getTreeSHA in Hget. rewrite Hempty in Hget.
    unfold bind at 1 in Hget. rewrite Ha in Hget.
    injection Hget as _ <-.
    exact (fs_event_not_createTree _ _ _ _ _ Hfs_a Hin). }
  pose proof (emits_for_push _ _ (or_nil (deletedFiles opts))
                (createDeletedTreeFile_emits path fs opts) (h ++ es_a))
    as Hfs_d.
  destruct (for_push (createDeletedTreeFile path fs opts)
              (or_nil (deletedFiles opts)) (h ++ es_a))
    as [[e | deleted] es_d] eqn:Hd.
  { exfalso. unfold getTreeSHA in Hget. rewrite Hempty in Hget.
    unfold bind at 1 in Hget. rewrite Ha in Hget.
    unfold bind at 1 in Hget. rewrite Hd in Hget.
    injection Hget as _ <-. simpl in Hfs_a, Hfs_d.
    apply in_app_or in Hin as [Hin | Hin].
    - exact (fs_event_not_createTree _ _ _ _ _ Hfs_a Hin).
    - exact (fs_event_not_createTree _ _ _ _ _ Hfs_d Hin). }
  rewrite (Hrun _ _ _ _ eq_refl Hd) in Hget. injection Hget as _ <-.
  simpl in Hfs_a, Hfs_d.
  apply in_app_or in Hin as [Hin | Hin];
    [exfalso; exact (fs_event_not_createTree _ _ _ _ _ Hfs_a Hin) |].
  apply in_app_or in Hin as [Hin | Hin];
    [exfalso; exact (fs_event_not_createTree _ _ _ _ _ Hfs_d Hin) |].
  destruct Hin as [Heq | []]. injection Heq as <- <- <- <-.
  assert (Hpaths : map file_path (added ++ deleted) = listed).
  { rewrite map_app. unfold listed. f_equal.
    - eapply for_push_paths, Ha. apply createTreeFile_path.
    - eapply for_push_paths, Hd. apply createDeletedTreeFile_path. }
  split; [reflexivity |]. split; [exact Hpaths |].
  intros trees p Hnot. unfold remoteCreateTree.
  rewrite foldl_applyEntry_unlisted by now rewrite Hpaths.
  unfold baseTree. destruct (truthy_opt_bool (noParent opts)).
  - apply lookup_empty.
  - reflexivity.
Qed.
End TreeSHA.

(** ** Paths missing on disk *)

Section MissingPath.
Import CreateCommit.
Context (path : Path) (fs : FileSystem).
Context (opts : Options) (filePath : string) (h : Trace).

Let fullPath : string :=
  path_join path (or_empty_string (rootDir opts)) filePath.

(** The tree entry of a path on which [stat] fails with [ENOENT]. *)
Lemma missing_path_entries (msg : option string) :
  let notFound := ThrownObject msg (Some "ENOENT") in
  let deletion := mkFile filePath None ShaNull M100644 (Some Blob) in
  fs_stat fs fullPath = inl notFound ->
  (truthy_opt_bool (deleteIfNotExist opts) = false ->
   createTreeFile path fs opts filePath h = (inl notFound, [FsStat fullPath])
   /\ createDeletedTreeFile path fs opts filePath h
      = (inl notFound, [FsStat fullPath]))
  /\ (truthy_opt_bool (deleteIfNotExist opts) = true ->
      createTreeFile path fs opts filePath h
        = (inr deletion, [FsStat fullPath])
      /\ createDeletedTreeFile path fs opts filePath h
         = (inr deletion, [FsStat fullPath])).
Proof.
  intros notFound deletion Hstat.
  split; intros Hflag.
  - unfold createTreeFile, createDeletedTreeFile, getFileContentAndMode.
    fold fullPath. rewrite Hflag. simpl negb. cbv iota.
    unfold stat, bind, perform. rewrite Hstat. now split.
  - unfold createTreeFile, createDeletedTreeFile, getFileContentAndMode.
    fold fullPath. rewrite Hflag. simpl negb. cbv iota.
    unfold try_catch, stat, bind, perform. rewrite Hstat. now split.
Qed.
End MissingPath.

(** A loop stops at the first failure: it fails as soon as one of its
    elements fails from every history. *)
Lemma for_push_fails {A B} (f : A -> M B) (xs : list A) (x : A) :
  In x xs ->
  (forall h, exists e es, f x h = (inl e, es)) ->
  forall h, exists e es, for_push f xs h = (inl e, es).
Proof.
  intros Hin Hfail. induction xs as [| a xs IH]; [contradiction |].
  intros h. simpl. unfold bind at 1.
  destruct (f a h) as [[e | y] es] eqn:Ha; [now exists e, es |].
  destruct Hin as [-> | Hin].
  - destruct (Hfail h) as (e & es' & Hx). rewrite Hx in Ha. discriminate Ha.
  - destruct (IH Hin (h ++ es)) as (e & es' & Hrest).
    unfold bind at 1. rewrite Hrest. now exists e, (es ++ es').
Qed.

(** Without [deleteIfNotExist], one listed path that is missing on disk
    makes [getTreeSHA] throw before the remote is asked for a tree: the
    calls made are calls to the file system. *)
Lemma missing_path_aborts_tree (path : Path) (fs : FileSystem)
    (octokit : GitHub CreateCommit.Ref) (opts : CreateCommit.Options)
    (base : option CreateCommit.Ref) (filePath : string)
    (msg : option string) (h : Trace) :
  truthy_opt_bool (CreateCommit.empty opts) = false ->
  truthy_opt_bool (CreateCommit.deleteIfNotExist opts) = false ->
  In filePath
    (or_nil (CreateCommit.files opts)
     ++ or_nil (CreateCommit.deletedFiles opts)) ->
  fs_stat fs
    (path_join path (or_empty_string (CreateCommit.rootDir opts)) filePath)
    = inl (ThrownObject msg (Some "ENOENT")) ->
  exists e es,
    CreateCommit.getTreeSHA path fs octokit opts base h = (inl e, es)
    /\ Forall (fun ev => is_fs_event ev = true) es.
Proof.
  intros Hempty Hflag Hin Hstat.
  assert (Hadd : forall h', exists e es,
            CreateCommit.createTreeFile path fs opts filePath h' = (inl e, es)).
  { intros h'.
    destruct (missing_path_entries path fs opts filePath h' msg Hstat)
      as [Hs _].
    destruct (Hs Hflag) as [Hrun _]. eauto. }
  assert (Hdel : forall h', exists e es,
            CreateCommit.createDeletedTreeFile path fs opts filePath h'
            = (inl e, es)).
  { intros h'.
    destruct (missing_path_entries path fs opts filePath h' msg Hstat)
      as [Hs _].
    destruct (Hs Hflag) as [_ Hrun]. eauto. }
  pose proof (emits_for_push _ _ (or_nil (CreateCommit.files opts))
                (createTreeFile_emits path fs opts) h) as Hfs_a.
  unfold CreateCommit.getTreeSHA. rewrite Hempty. unfold bind at 1.
  destruct (for_push (CreateCommit.createTreeFile path fs opts)
              (or_nil (CreateCommit.files opts)) h)
    as [[e | added] es_a] eqn:Ha.
  { exists e, es_a. now split. }
  apply in_app_or in Hin as [Hin | Hin].
  { destruct (for_push_fails _ _ _ Hin Hadd h) as (e & es & Hfail).
    rewrite Hfail in Ha. discriminate Ha. }
  pose proof (emits_for_push _ _ (or_nil (CreateCommit.deletedFiles opts))
                (createDeletedTreeFile_emits path fs opts) (h ++ es_a))
    as Hfs_d.
  destruct (for_push_fails _ _ _ Hin Hdel (h ++ es_a)) as (e & es_d & Hfail).
  unfold bind at 1. rewrite Hfail in *.
  exists e, (es_a ++ es_d). split; [reflexivity |].
  apply Forall_app. now split.
Qed.

(** C5.  Let the path of an addition or of a deletion, joined to
    [rootDir], be missing on disk: [stat] fails with the code [ENOENT].
    Without [deleteIfNotExist], building its tree entry throws that very
    error, and so [getTreeSHA] throws without asking the remote for a
    tree.  With [deleteIfNotExist] nothing is thrown for the path and its
    entry is the deletion of the path: [sha] is [null], there is no
    content, the mode is [100644] and the type [blob].  For the path,
    [stat] is the only call. *)
Theorem missing_path_policy (path : Path) (fs : FileSystem)
    (opts : CreateCommit.Options) (filePath : string)
    (msg : option string) :
  let fullPath :=
    path_join path (or_empty_string (CreateCommit.rootDir opts)) filePath in
  let notFound := ThrownObject msg (Some "ENOENT") in
  let deletion := mkFile filePath None ShaNull M100644 (Some Blob) in
  fs_stat fs fullPath = inl notFound ->
  (truthy_opt_bool (CreateCommit.deleteIfNotExist opts) = false ->
   (forall h,
      CreateCommit.createTreeFile path fs opts filePath h
        = (inl notFound, [FsStat fullPath])
      /\ CreateCommit.createDeletedTreeFile path fs opts filePath h
         = (inl notFound, [FsStat fullPath]))
   /\ (truthy_opt_bool (CreateCommit.empty opts) = false ->
       In filePath
         (or_nil (CreateCommit.files opts)
          ++ or_nil (CreateCommit.deletedFiles opts)) ->
       forall octokit base h,
       exists e es,
         CreateCommit.getTreeSHA path fs octokit opts base h = (inl e, es)
         /\ Forall (fun ev => is_fs_event ev = true) es))
  /\ (truthy_opt_bool (CreateCommit.deleteIfNotExist opts) = true ->
      forall h,
        CreateCommit.createTreeFile path fs opts filePath h
          = (inr deletion, [FsStat fullPath])
        /\ CreateCommit.createDeletedTreeFile path fs opts filePath h
           = (inr deletion, [FsStat fullPath])).
Proof.
  intros fullPath notFound deletion Hstat. split; intros Hflag.
  - split.
    + intros h.
      now apply (missing_path_entries path fs opts filePath h msg Hstat).
    + intros Hempty Hin octokit base h.
      now apply (missing_path_aborts_tree path fs octokit opts base filePath
                   msg h).
  - intros h.
    now apply (missing_path_entries path fs opts filePath h msg Hstat).
Qed.

(** ** The HEAD of a submodule *)

Section PackedRefs.
Import CreateCommit.

Lemma take_two_fields (l : list string) (sha ref : string) :
  (exists rest, l = sha :: ref :: rest) <->
  (exists rest, take 2 l = sha :: ref :: rest).
Proof.
  destruct l as [| a [| b rest]]; simpl; split; intros [rest' H];
    try discriminate H.
  - injection H as -> -> _. now exists [].
  - injection H as -> -> _. now exists rest.
Qed.

Lemma scanPackedRefs_entry (line ref sha : string) (rest : list string) :
  packed_entry line ref sha ->
  scanPackedRefs (line :: rest) ref = Some sha.
Proof.
  intros (Hcomment & Hblank & Hfields).
  apply take_two_fields in Hfields as [rest' Hfields].
  simpl. rewrite Hcomment. apply String.eqb_neq in Hblank.
  rewrite Hblank. simpl. unfold split_limit. rewrite Hfields.
  now rewrite String.eqb_refl.
Qed.

Lemma scanPackedRefs_skip (line ref : string) (rest : list string) :
  (forall sha, ~ packed_entry line ref sha) ->
  scanPackedRefs (line :: rest) ref = scanPackedRefs rest ref.
Proof.
  intros Hnot. simpl.
  destruct (startsWith "#" line) eqn:Hcomment; [reflexivity |].
  destruct (String.eqb_spec (trim line) "") as [Hblank | Hblank];
    [reflexivity |].
  simpl. unfold split_limit.
  destruct (take 2 (split " " line)) as [| sha [| packedRef tl]] eqn:Hf;
    try reflexivity.
  destruct (String.eqb_spec packedRef ref) as [-> | Hne]; [| reflexivity].
  exfalso. apply (Hnot sha). repeat split; try assumption.
  apply take_two_fields. now exists tl.
Qed.

(** The scan answers the object name of the first entry for [ref]. *)
Lemma scanPackedRefs_first (before after : list string)
    (line ref sha : string) :
  (forall l, In l before -> forall s, ~ packed_entry l ref s) ->
  packed_entry line ref sha ->
  scanPackedRefs (before ++ line :: after) ref = Some sha.
Proof.
  induction before as [| l before IH]; intros Hbefore Hline.
  - now apply scanPackedRefs_entry.
  - simpl app. rewrite scanPackedRefs_skip.
    + apply IH; [| exact Hline]. intros l' Hin. apply Hbefore. now right.
    + apply Hbefore. now left.
Qed.

(** Without entry for [ref] the scan finds nothing. *)
Lemma scanPackedRefs_none (lines : list string) (ref : string) :
  (forall l, In l lines -> forall s, ~ packed_entry l ref s) ->
  scanPackedRefs lines ref = None.
Proof.
  induction lines as [| l lines IH]; intros Hnone; [reflexivity |].
  rewrite scanPackedRefs_skip.
  - apply IH. intros l' Hin. apply Hnone. now right.
  - apply Hnone. now left.
Qed.
End PackedRefs.

Section GitHEAD.
Import CreateCommit.
Context (path : Path) (fs : FileSystem) (gitDir : string) (h : Trace).
Context (raw : string).

Let headPath := path_join path gitDir "HEAD".
Let content := trim raw.
Let ref := slice 5 content.
Let refPath := path_join path gitDir ref.
Let packedRefsPath := path_join path gitDir "packed-refs".

Hypothesis Hhead : fs_readFile fs headPath = inr raw.

(** The three runs of a resolution that has read [HEAD]. *)
Lemma resolveGitHEAD_detached :
  startsWith "ref: " content = false ->
  resolveGitHEAD path fs gitDir h = (inr content, [FsReadFile headPath]).
Proof.
  intros Hdetached. unfold resolveGitHEAD, readFile.
  rewrite bind_perform. fold headPath. rewrite Hhead. fold content.
  now rewrite Hdetached.
Qed.

Lemma resolveGitHEAD_loose (loose : string) :
  startsWith "ref: " content = true ->
  fs_readFile fs refPath = inr loose ->
  resolveGitHEAD path fs gitDir h =
    (inr (trim loose), [FsReadFile headPath; FsReadFile refPath]).
Proof.
  intros Hsym Hloose. unfold resolveGitHEAD, readFile.
  rewrite bind_perform. fold headPath. rewrite Hhead. fold content.
  rewrite Hsym. change (negb true) with false. cbv beta iota.
  fold ref refPath.
  unfold try_catch. rewrite bind_perform, Hloose. reflexivity.
Qed.

Lemma resolveGitHEAD_fallback (e : Thrown) :
  startsWith "ref: " content = true ->
  fs_readFile fs refPath = inl e ->
  resolveGitHEAD path fs gitDir h =
    (match fs_readFile fs packedRefsPath with
     | inl e' => inl e'
     | inr packed =>
         match scanPackedRefs (split "010" packed) ref with
         | Some sha => inr sha
         | None =>
             inl (newError ("ref " +:+ ref +:+ " not found in packed-refs"))
         end
     end,
     [FsReadFile headPath; FsReadFile refPath; FsReadFile packedRefsPath]).
Proof.
  intros Hsym Hloose. unfold resolveGitHEAD, readFile.
  rewrite bind_perform. fold headPath. rewrite Hhead. fold content.
  rewrite Hsym. change (negb true) with false. cbv beta iota.
  fold ref refPath.
  unfold try_catch. rewrite bind_perform, Hloose.
  unfold resolvePackedRef, readFile. rewrite bind_perform.
  fold packedRefsPath.
  destruct (fs_readFile fs packedRefsPath) as [e' | packed]; [reflexivity |].
  now destruct (scanPackedRefs (split "010" packed) ref).
Qed.

(** C4.  Let [HEAD] of the git directory read [raw].  When the
    trimmed content does not start with "ref: ", the trimmed content is
    the answer.  When it does, the ref file under the git directory is
    read first: if it can be read, its trimmed content is the answer and
    [packed-refs] is not read, whatever it holds.  If the ref file is
    absent, so that reading it fails with the code [ENOENT], and
    [packed-refs] can be read, the answer is the object name of the first
    entry of [packed-refs] whose ref name is the ref; without such an
    entry the resolution throws an error that names the ref. *)
Theorem resolveGitHEAD_absent_ref_chain :
  (startsWith "ref: " content = false ->
   resolveGitHEAD path fs gitDir h = (inr content, [FsReadFile headPath]))
  /\ (startsWith "ref: " content = true ->
      (forall loose,
         fs_readFile fs refPath = inr loose ->
         resolveGitHEAD path fs gitDir h =
           (inr (trim loose), [FsReadFile headPath; FsReadFile refPath]))
      /\ (forall msg packed,
            fs_readFile fs refPath = inl (ThrownObject msg (Some "ENOENT")) ->
            fs_readFile fs packedRefsPath = inr packed ->
            let reads :=
              [FsReadFile headPath; FsReadFile refPath;
               FsReadFile packedRefsPath] in
            (forall before line after sha,
               split "010" packed = before ++ line :: after ->
               (forall l, In l before -> forall s, ~ packed_entry l ref s) ->
               packed_entry line ref sha ->
               resolveGitHEAD path fs gitDir h = (inr sha, reads))
            /\ ((forall l, In l (split "010" packed) ->
                 forall s, ~ packed_entry l ref s) ->
                resolveGitHEAD path fs gitDir h =
                  (inl (newError
                          ("ref " +:+ ref +:+ " not found in packed-refs")),
                   reads)))).
Proof.
  split; [exact resolveGitHEAD_detached | intros Hsym; split].
  - intros loose. now apply resolveGitHEAD_loose.
  - intros msg packed Hloose Hpacked reads.
    pose proof (resolveGitHEAD_fallback _ Hsym Hloose) as Hrun.
    rewrite Hpacked in Hrun. fold reads in Hrun.
    split.
    + intros before line after sha Hlines Hbefore Hline.
      rewrite Hrun, Hlines.
      now rewrite (scanPackedRefs_first _ _ _ _ _ Hbefore Hline).
    + intros Hnone. rewrite Hrun.
      now rewrite (scanPackedRefs_none _ _ Hnone).
Qed.
End GitHEAD.

(** ** Parent linkage *)

(** C6.  An empty commit on the existing branch [main] with [noParent]
    set: [commit] of [main.ts] requests the commit object with one parent,
    the commit of the branch, where [createCommit] requests it without
    parents. *)
Theorem main_commit_ignores_noParent :
  truthy_opt_bool (MainTs.noParent rootRequestMain) = true
  /\ MainTs.commit (diskFS ∅) stubGitHubMain rootRequestMain [] =
       (inr (Some (MainTs.mkResult "c1")),
        [GraphqlRef "o" "r" "main";
         RestCreateCommit "o" "r" "m" "t0" (Some ["c0"]);
         RestUpdateRef "o" "r" "heads/main" "c1" None])
  /\ CreateCommit.createCommit plainPath (diskFS ∅) stubGitHub rootRequest [] =
       (inr (Some (CreateCommit.mkResult "c1")),
        [GraphqlRef "o" "r" "main";
         RestCreateCommit "o" "r" "m" "t0" None;
         RestUpdateRef "o" "r" "heads/main" "c1" (Some false)]).
Proof. repeat split. Qed.

(** Whatever [noParent] is, every commit object that [commit] of [main.ts]
    requests has exactly one parent. *)
Lemma main_commit_one_parent (fs : FileSystem)
    (octokit : GitHub MainTs.Ref) (opts : MainTs.Options) :
  emits (fun e => one_parent e = true) (MainTs.commit fs octokit opts).
Proof.
  assert (Hentry : forall filePath,
            emits (fun e => one_parent e = true)
              (MainTs.treeEntry fs filePath)).
  { intros filePath. unfold MainTs.treeEntry.
    apply emits_bind; [| intros ?; apply emits_ret].
    intros h. simpl. now repeat constructor. }
  unfold MainTs.commit, MainTs.getBaseBranch, MainTs.getBranch,
    MainTs.getDefaultBranch, graphqlRef, graphqlDefaultBranchRef,
    restCreateTree, restCreateCommit, restUpdateRef, restCreateRef.
  destruct (truthy_opt_string (MainTs.parent opts));
    repeat first [apply emits_for_push; exact Hentry | emits_step].
Qed.

(** ** The properties at work *)

Lemma noop_returns_undefined_without_calls_example :
  CreateCommit.createCommit plainPath (diskFS ∅) stubGitHub noopRequest []
    = (inr None, [])
  /\ MainTs.commit (diskFS ∅) stubGitHubMain noopRequestMain []
     = (inr None, []).
Proof.
  split.
  - apply (proj1 noop_returns_undefined_without_calls); reflexivity.
  - apply (proj2 noop_returns_undefined_without_calls); reflexivity.
Defined.

Lemma noop_check_precedes_validation_example :
  CreateCommit.createCommit plainPath (diskFS ∅) stubGitHub noopRequest []
    = (inr None, [])
  /\ CreateCommit.createCommit plainPath (diskFS ∅) stubGitHub
       ownerlessRequest []
     = (inl (newError "owner is required"), []).
Proof.
  split.
  - apply (noop_check_precedes_validation plainPath (diskFS ∅) stubGitHub
             noopRequest []); reflexivity.
  - apply (noop_check_precedes_validation plainPath (diskFS ∅) stubGitHub
             ownerlessRequest []).
    + left. discriminate.
    + reflexivity.
Defined.

Lemma getBaseBranch_priority_example :
  CreateCommit.getBaseBranch stubGitHub
    (request "feat" (Some true) None (Some "c9") (Some "main") None None None)
    []
  = (inr (Some (CreateCommit.mkRef "c9" "t0")), [GraphqlTree "o" "r" "c9"])
  /\ CreateCommit.getBaseBranch stubGitHub
       (request "feat" (Some true) None None (Some "main") None None None) []
     = (inr (Some (CreateCommit.mkRef "c0" "t0")),
        [GraphqlRef "o" "r" "main"])
  /\ CreateCommit.getBaseBranch stubGitHub
       (request "feat" (Some true) None None (Some "gone") None None None) []
     = (inr None, [GraphqlRef "o" "r" "gone"])
  /\ CreateCommit.getBaseBranch stubGitHub
       (request "main" (Some true) None None None None None None) []
     = (inr (Some (CreateCommit.mkRef "c0" "t0")),
        [GraphqlRef "o" "r" "main"])
  /\ CreateCommit.getBaseBranch stubGitHub
       (request "feat" (Some true) None None None None None None) []
     = (inr (Some (CreateCommit.mkRef "c0" "t0")),
        [GraphqlRef "o" "r" "feat"; GraphqlDefaultBranchRef "o" "r"]).
Proof.
  split; [| split; [| split; [| split]]].
  - apply (getBaseBranch_priority stubGitHub
             (request "feat" (Some true) None (Some "c9") (Some "main") None
                None None) []).
    reflexivity.
  - apply (getBaseBranch_priority stubGitHub
             (request "feat" (Some true) None None (Some "main") None None
                None) []); reflexivity.
  - apply (getBaseBranch_priority stubGitHub
             (request "feat" (Some true) None None (Some "gone") None None
                None) []); reflexivity.
  - apply (getBaseBranch_priority stubGitHub
             (request "main" (Some true) None None None None None None) []);
      reflexivity.
  - apply (getBaseBranch_priority stubGitHub
             (request "feat" (Some true) None None None None None None) []);
      [reflexivity | reflexivity | left; reflexivity].
Defined.



Lemma missing_path_policy_example :
  let strict := request "main" None (Some ["gone.txt"]) None None None None
                  (Some false) in
  let lenient := request "main" None None None None None (Some ["gone.txt"])
                   (Some true) in
  let notFound := errno "ENOENT" "stat" "gone.txt" in
  let deletion := mkFile "gone.txt" None ShaNull M100644 (Some Blob) in
  (CreateCommit.createTreeFile plainPath (diskFS oneFileDisk) strict
     "gone.txt" [] = (inl notFound, [FsStat "gone.txt"])
   /\ CreateCommit.createDeletedTreeFile plainPath (diskFS oneFileDisk)
        strict "gone.txt" [] = (inl notFound, [FsStat "gone.txt"]))
  /\ (exists e es,
        CreateCommit.getTreeSHA plainPath (diskFS oneFileDisk) stubGitHub
          strict (Some (CreateCommit.mkRef "c0" "t0")) [] = (inl e, es)
        /\ Forall (fun ev => is_fs_event ev = true) es)
  /\ (CreateCommit.createTreeFile plainPath (diskFS oneFileDisk) lenient
        "gone.txt" [] = (inr deletion, [FsStat "gone.txt"])
      /\ CreateCommit.createDeletedTreeFile plainPath (diskFS oneFileDisk)
           lenient "gone.txt" [] = (inr deletion, [FsStat "gone.txt"])).
Proof.
  intros strict lenient notFound deletion.
  destruct (missing_path_policy plainPath (diskFS oneFileDisk) strict
              "gone.txt" (Some "ENOENT: stat 'gone.txt'") eq_refl)
    as [Hstrict _].
  destruct (Hstrict eq_refl) as [Hpath Htree].
  destruct (missing_path_policy plainPath (diskFS oneFileDisk) lenient
              "gone.txt" (Some "ENOENT: stat 'gone.txt'") eq_refl)
    as [_ Hlenient].
  split; [exact (Hpath []) |]. split; [| exact (Hlenient eq_refl [])].
  apply Htree; [reflexivity | now left].
Defined.

Lemma not_packed_entry_comment (line ref sha : string) :
  startsWith "#" line = true -> ~ packed_entry line ref sha.
Proof. intros Hc (Hn & _). rewrite Hc in Hn. discriminate Hn. Qed.

Lemma not_packed_entry_blank (line ref sha : string) :
  trim line = "" -> ~ packed_entry line ref sha.
Proof. intros Hb (_ & Hn & _). now apply Hn. Qed.

Lemma not_packed_entry_other (line ref sha : string) :
  match split " " line with
  | _ :: packedRef :: _ => String.eqb packedRef ref
  | _ => false
  end = false ->
  ~ packed_entry line ref sha.
Proof.
  intros Hne (_ & _ & rest & Hfields). rewrite Hfields in Hne.
  now rewrite String.eqb_refl in Hne.
Qed.

Lemma resolveGitHEAD_absent_ref_chain_example :
  CreateCommit.resolveGitHEAD plainPath (diskFS detachedGitDir) "gd" []
    = (inr "4444444", [FsReadFile "gd/HEAD"])
  /\ CreateCommit.resolveGitHEAD plainPath (diskFS looseGitDir) "gd" []
     = (inr "3333333",
        [FsReadFile "gd/HEAD"; FsReadFile "gd/refs/heads/main"])
  /\ CreateCommit.resolveGitHEAD plainPath (diskFS packedGitDir) "gd" []
     = (inr "2222222",
        [FsReadFile "gd/HEAD"; FsReadFile "gd/refs/heads/main";
         FsReadFile "gd/packed-refs"])
  /\ CreateCommit.resolveGitHEAD plainPath (diskFS stalePackedGitDir) "gd" []
     = (inl (newError "ref refs/heads/main not found in packed-refs"),
        [FsReadFile "gd/HEAD"; FsReadFile "gd/refs/heads/main";
         FsReadFile "gd/packed-refs"]).
Proof.
  split; [| split; [| split]].
  - apply (resolveGitHEAD_absent_ref_chain plainPath (diskFS detachedGitDir)
             "gd" [] ("4444444" +:+ String "010" "")); reflexivity.
  - destruct (resolveGitHEAD_absent_ref_chain plainPath (diskFS looseGitDir)
                "gd" [] headText eq_refl) as [_ Hsym].
    destruct (Hsym eq_refl) as [Hloose _].
    exact (Hloose ("3333333" +:+ String "010" "") eq_refl).
  - destruct (resolveGitHEAD_absent_ref_chain plainPath (diskFS packedGitDir)
                "gd" [] headText eq_refl) as [_ Hsym].
    destruct (Hsym eq_refl) as [_ Hpacked].
    destruct (Hpacked (Some "ENOENT: open 'gd/refs/heads/main'")
                packedRefsText eq_refl eq_refl) as [Hfound _].
    apply (Hfound
             [String "#" "pack-refs with: peeled fully-peeled sorted ";
              "1111111 refs/heads/dev"]
             "2222222 refs/heads/main" [""] "2222222").
    + reflexivity.
    + intros l [<- | [<- | []]] s.
      * now apply not_packed_entry_comment.
      * now apply not_packed_entry_other.
    + repeat split; [discriminate | now exists []].
  - destruct (resolveGitHEAD_absent_ref_chain plainPath
                (diskFS stalePackedGitDir) "gd" [] headText eq_refl)
      as [_ Hsym].
    destruct (Hsym eq_refl) as [_ Hpacked].
    destruct (Hpacked (Some "ENOENT: open 'gd/refs/heads/main'")
                ("1111111 refs/heads/dev" +:+ String "010" "")
                eq_refl eq_refl) as [_ Hnone].
    apply Hnone.
    intros l [<- | [<- | []]] s.
    + now apply not_packed_entry_other.
    + now apply not_packed_entry_blank.
Defined.

(** It does not hold that [packed-refs] is scanned only if the loose ref
    file is absent, that a loose ref always wins over a stale packed
    entry, and that a resolution without matching line fails with an error
    naming the ref: three git directories show it.  On the first the
    loose ref is on disk, with the value [3333333], but may not be read:
    [packed-refs] is scanned and the stale [2222222] is the answer.  On
    the second [HEAD]
    starts with "ref: " and names no ref: no ref file is read and the
    answer is what is left of the prefix after trimming.  On the third
    there is neither loose ref nor [packed-refs]: the error is that of
    reading [packed-refs] and does not name the ref. *)
Lemma resolveGitHEAD_loose_ref_not_read :
  (fs_stat unreadableRefFS "gd/refs/heads/main" = inr (mkStats 0x81A4)
   /\ fs_readFile (diskFS looseGitDir) "gd/refs/heads/main"
      = inr ("3333333" +:+ String "010" "")
   /\ CreateCommit.resolveGitHEAD plainPath unreadableRefFS "gd" []
      = (inr "2222222",
         [FsReadFile "gd/HEAD"; FsReadFile "gd/refs/heads/main";
          FsReadFile "gd/packed-refs"]))
  /\ (startsWith "ref: " ("ref: " +:+ String "010" "") = true
      /\ CreateCommit.resolveGitHEAD plainPath (diskFS blankRefGitDir) "gd" []
         = (inr "ref:", [FsReadFile "gd/HEAD"]))
  /\ CreateCommit.resolveGitHEAD plainPath (diskFS headOnlyGitDir) "gd" []
     = (inl (errno "ENOENT" "open" "gd/packed-refs"),
        [FsReadFile "gd/HEAD"; FsReadFile "gd/refs/heads/main";
         FsReadFile "gd/packed-refs"]).
Proof. repeat split. Qed.

Lemma empty_commit_reuses_base_tree_example :
  let req := request "main" (Some true) (Some ["a.txt"]) None None None None
               None in
  let base := CreateCommit.mkRef "c0" "t0" in
  CreateCommit.getTreeSHA plainPath (diskFS oneFileDisk) stubGitHub req
    (Some base) [GraphqlRef "o" "r" "main"] = (inr "t0", [])
  /\ exists outcome rest,
       CreateCommit.createCommit plainPath (diskFS oneFileDisk) stubGitHub
         req []
       = (outcome,
          [GraphqlRef "o" "r" "main"]
          ++ RestCreateCommit "o" "r" "m" "t0" (Some ["c0"]) :: rest)
       /\ Forall (fun e => is_ref_write e = true) rest.
Proof.
  intros req base.
  destruct (empty_commit_reuses_base_tree plainPath (diskFS oneFileDisk)
              stubGitHub req base [GraphqlRef "o" "r" "main"] eq_refl)
    as [Htree Hcommit].
  split; [exact Htree |].
  exact (Hcommit [] [GraphqlRef "o" "r" "main"] eq_refl eq_refl).
Defined.

Lemma tree_base_follows_noParent_example :
  let entry :=
    mkFile "a.txt" (Some "hello") ShaAbsent M100644 (Some Blob) in
  let kept := mkFile "b.txt" None (ShaOf "b0") M100644 (Some Blob) in
  let trees : gmap string (gmap string File) :=
    {[ "t0" := {[ "b.txt" := kept ]} ]} in
  let base := CreateCommit.mkRef "c0" "t0" in
  let root := request "main" None (Some ["a.txt"]) None None (Some true)
                None None in
  let child := request "main" None (Some ["a.txt"]) None None None None
                 None in
  let inspected := [FsStat "a.txt"; FsReadFile "a.txt"] in
  (CreateCommit.getTreeSHA plainPath (diskFS oneFileDisk) stubGitHub root
     (Some base) []
   = (inr "t1", inspected ++ [] ++ [RestCreateTree "o" "r" ([entry] ++ []) None])
   /\ remoteCreateTree trees ([entry] ++ []) None !! "b.txt" = None)
  /\ (CreateCommit.getTreeSHA plainPath (diskFS oneFileDisk) stubGitHub
        child (Some base) []
      = (inr "t1",
         inspected ++ [] ++ [RestCreateTree "o" "r" ([entry] ++ []) (Some "t0")])
      /\ remoteCreateTree trees ([entry] ++ []) (Some "t0") !! "b.txt"
         = Some kept).
Proof.
  intros entry kept trees base root child inspected.
  assert (Hnot : ~ In "b.txt" (["a.txt"] ++ [])).
  { intros [H | []]. discriminate H. }
  split.
  - destruct (tree_base_follows_noParent plainPath (diskFS oneFileDisk)
                stubGitHub root base [] eq_refl) as [Hcall Hevent].
    pose proof (Hcall [entry] inspected [] [] eq_refl eq_refl) as Hrun.
    split; [exact Hrun |].
    destruct (Hevent _ _ "o" "r" ([entry] ++ []) None Hrun)
      as (_ & _ & Htrees).
    + apply in_or_app. right. now left.
    + exact (Htrees trees "b.txt" Hnot).
  - destruct (tree_base_follows_noParent plainPath (diskFS oneFileDisk)
                stubGitHub child base [] eq_refl) as [Hcall Hevent].
    pose proof (Hcall [entry] inspected [] [] eq_refl eq_refl) as Hrun.
    split; [exact Hrun |].
    destruct (Hevent _ _ "o" "r" ([entry] ++ []) (Some "t0") Hrun)
      as (_ & _ & Htrees).
    + apply in_or_app. right. now left.
    + exact (Htrees trees "b.txt" Hnot).
Defined.

(** * Further properties of the code *)

(** ** Required options *)

(** X1.  [validateOptions] accepts a request exactly when [owner],
    [repo], [branch] and [message] are all non-empty, and otherwise names
    the first empty one, in this order, in its error. *)
Theorem validateOptions_first_missing (opts : CreateCommit.Options) :
  let o := CreateCommit.owner opts in
  let r := CreateCommit.repo opts in
  let b := CreateCommit.branch opts in
  let m := CreateCommit.message opts in
  (CreateCommit.validateOptions opts = inr tt <->
   o <> "" /\ r <> "" /\ b <> "" /\ m <> "")
  /\ (o = "" ->
      CreateCommit.validateOptions opts = inl (newError "owner is required"))
  /\ (o <> "" -> r = "" ->
      CreateCommit.validateOptions opts = inl (newError "repo is required"))
  /\ (o <> "" -> r <> "" -> b = "" ->
      CreateCommit.validateOptions opts
      = inl (newError "branch is required"))
  /\ (o <> "" -> r <> "" -> b <> "" -> m = "" ->
      CreateCommit.validateOptions opts
      = inl (newError "message is required")).
Proof.
  intros o r b m.
  unfold CreateCommit.validateOptions, CreateCommit.validateKeys,
    truthy_string.
  fold o r b m.
  destruct (String.eqb_spec o "") as [Ho | Ho];
    destruct (String.eqb_spec r "") as [Hr | Hr];
    destruct (String.eqb_spec b "") as [Hb | Hb];
    destruct (String.eqb_spec m "") as [Hm | Hm]; simpl;
    repeat split; intros; try tauto; try discriminate; try reflexivity;
    try contradiction;
    match goal with H : _ /\ _ |- _ => tauto end.
Qed.

Lemma validateOptions_first_missing_example :
  CreateCommit.validateOptions ownerlessRequest
    = inl (newError "owner is required")
  /\ CreateCommit.validateOptions
       (CreateCommit.mkOptions "o" "r" "" "" None None None None None None
          None None None)
     = inl (newError "branch is required")
  /\ CreateCommit.validateOptions rootRequest = inr tt.
Proof.
  split; [| split].
  - apply (validateOptions_first_missing ownerlessRequest). reflexivity.
  - apply (validateOptions_first_missing
             (CreateCommit.mkOptions "o" "r" "" "" None None None None None
                None None None None)); (discriminate || reflexivity).
  - apply (validateOptions_first_missing rootRequest).
    repeat split; discriminate.
Defined.

(** ** The two mode mappings *)

(** X2.  [getFileMode] of [main.ts] and [getFileMode] of [createCommit]
    give the same git mode for every stat mode except those of regular
    files with an execute bit, where they differ. *)
Theorem getFileMode_versions_agree (mode : Z) :
  MainTs.getFileMode mode = CreateCommit.getFileMode mode <->
  ~ (Z.land mode 0xF000 = 0x8000 /\ Z.land mode 0x49 <> 0).
Proof.
  unfold MainTs.getFileMode, CreateCommit.getFileMode.
  rewrite land_perm_exec.
  destruct (Z.eqb_spec (Z.land mode 0xF000) 0x81ED) as [H | _];
    [now apply masked_mode_not_0o100755 in H |].
  destruct (Z.eqb_spec (Z.land mode 0xF000) 0x8000) as [Hreg | Hreg].
  - rewrite Hreg. simpl.
    destruct (Z.eqb_spec (Z.land mode 0x49) 0) as [Hx | Hx]; simpl.
    + split; [intros _ [_ Hne]; now apply Hne | reflexivity].
    + split; [discriminate | intros Hn; elim Hn; now split].
  - split; [intros _ [Heq _]; now apply Hreg | reflexivity].
Qed.

Lemma getFileMode_versions_agree_example :
  MainTs.getFileMode 0x81A4 = CreateCommit.getFileMode 0x81A4
  /\ MainTs.getFileMode 0x41ED = CreateCommit.getFileMode 0x41ED.
Proof.
  split.
  - apply (getFileMode_versions_agree 0x81A4). intros [_ H]. now apply H.
  - apply (getFileMode_versions_agree 0x41ED). intros [H _]. discriminate H.
Defined.

(** ** The run of [createCommit] *)

Section Run.
Import CreateCommit.
Context (path : Path) (fs : FileSystem) (octokit : GitHub Ref).
Context (opts : Options) (h : Trace).

Lemma noop_request_guard :
  (negb (has_length (files opts)) && negb (has_length (deletedFiles opts))
   && negb (truthy_opt_bool (empty opts)))%bool = true ->
  noop_request opts.
Proof.
  unfold noop_request.
  destruct (files opts) as [[| f fl] |];
    destruct (deletedFiles opts) as [[| d dl] |];
    destruct (truthy_opt_bool (empty opts)); simpl; intros H;
    try discriminate H; repeat split.
Qed.

(** The ref writes that follow the commit object. *)
Lemma upsert_steps (commit : string) (h' : Trace) :
  ref_steps
    (snd (try_catch
      (r <- updateRef octokit opts commit ;; ret (Some r))%async
      (fun error =>
         if negb (isError error) then throw error
         else if negb (includes "Reference does not exist"
                         (error_message error))
         then throw error
         else (r <- createRef octokit opts commit ;; ret (Some r))%async)
      h')) = true.
Proof.
  rewrite upsert_run.
  destruct (rest_git_updateRef octokit h' (owner opts) (repo opts)
              ("heads/" +:+ branch opts) commit
              (Some (truthy_opt_bool (forcePush opts)))) as [error | sha];
    [| reflexivity].
  now destruct (referenceDoesNotExist error).
Qed.

(** [getBaseBranch] only queries. *)
Lemma getBaseBranch_emits :
  emits (fun e => is_query e = true) (getBaseBranch octokit opts).
Proof.
  unfold getBaseBranch, getTree, getBranch, getDefaultBranch, graphqlTree,
    graphqlRef, graphqlDefaultBranchRef.
  repeat emits_step.
Qed.

(** The calls of [getTreeSHA]: inspections of the disk, then at most one
    request for a tree. *)
Lemma getTreeSHA_calls (base : option Ref) (h' : Trace) :
  exists inspections request,
    snd (getTreeSHA path fs octokit opts base h') = inspections ++ request
    /\ Forall (fun e => is_fs_event e = true) inspections
    /\ (request = []
        \/ exists tree base_tree,
             request = [RestCreateTree (owner opts) (repo opts) tree
                          base_tree]).
Proof.
  unfold getTreeSHA.
  destruct (truthy_opt_bool (empty opts)).
  { exists [], []. repeat split; [constructor | now left]. }
  pose proof (emits_for_push _ _ (or_nil (files opts))
                (createTreeFile_emits path fs opts) h') as Hfs_a.
  unfold bind at 1.
  destruct (for_push (createTreeFile path fs opts) (or_nil (files opts)) h')
    as [[e | added] es_a].
  { exists es_a, []. rewrite app_nil_r. repeat split; [exact Hfs_a | now left]. }
  pose proof (emits_for_push _ _ (or_nil (deletedFiles opts))
                (createDeletedTreeFile_emits path fs opts) (h' ++ es_a))
    as Hfs_d.
  unfold bind at 1.
  destruct (for_push (createDeletedTreeFile path fs opts)
              (or_nil (deletedFiles opts)) (h' ++ es_a))
    as [[e | deleted] es_d]; simpl in Hfs_a, Hfs_d.
  { exists (es_a ++ es_d), []. rewrite app_nil_r.
    repeat split; [apply Forall_app; now split | now left]. }
  destruct (if truthy_opt_bool (noParent opts) then inr None
            else
              match targetTreeOid base with
              | inl e => inl e
              | inr oid => inr (Some oid)
              end) as [e | baseTree].
  { exists (es_a ++ es_d), []. simpl. rewrite !app_nil_r.
    repeat split; [apply Forall_app; now split | now left]. }
  rewrite bind_lift_inr.
  exists (es_a ++ es_d), [RestCreateTree (owner opts) (repo opts)
                            (added ++ deleted) baseTree].
  simpl. rewrite <- app_assoc.
  repeat split; [apply Forall_app; now split | right; eauto].
Qed.

(** The run of [createCommit], step by step. *)
Lemma createCommit_run :
  createCommit path fs octokit opts h =
    if (negb (has_length (files opts)) && negb (has_length (deletedFiles opts))
        && negb (truthy_opt_bool (empty opts)))%bool
    then (inr None, [])
    else
      match validateOptions opts with
      | inl e => (inl e, [])
      | inr _ =>
          match getBaseBranch octokit opts h with
          | (inl e, es1) => (inl e, es1)
          | (inr base, es1) =>
              match getTreeSHA path fs octokit opts base (h ++ es1) with
              | (inl e, es2) => (inl e, es1 ++ es2)
              | (inr treeSHA, es2) =>
                  match
                    if truthy_opt_bool (noParent opts) then inr None
                    else
                      match targetOid base with
                      | inl e => inl e
                      | inr oid => inr (Some [oid])
                      end
                  with
                  | inl e => (inl e, es1 ++ es2)
                  | inr parents =>
                      let created :=
                        RestCreateCommit (owner opts) (repo opts)
                          (message opts) treeSHA parents in
                      match
                        rest_git_createCommit octokit ((h ++ es1) ++ es2)
                          (owner opts) (repo opts) (message opts) treeSHA
                          parents
                      with
                      | inl e => (inl e, es1 ++ es2 ++ [created])
                      | inr commit =>
                          let tail :=
                            try_catch
                              (r <- updateRef octokit opts commit ;;
                               ret (Some r))%async
                              (fun error =>
                                 if negb (isError error) then throw error
                                 else if negb (includes
                                                 "Reference does not exist"
                                                 (error_message error))
                                 then throw error
                                 else
                                   (r <- createRef octokit opts commit ;;
                                    ret (Some r))%async)
                              (((h ++ es1) ++ es2) ++ [created]) in
                          (fst tail, es1 ++ es2 ++ created :: snd tail)
                      end
                  end
              end
          end
      end.
Proof.
  unfold createCommit.
  destruct (negb (has_length (files opts))
            && negb (has_length (deletedFiles opts))
            && negb (truthy_opt_bool (empty opts)))%bool; [reflexivity |].
  destruct (validateOptions opts) as [e | []]; [reflexivity |].
  rewrite bind_lift_inr. unfold bind at 1.
  destruct (getBaseBranch octokit opts h) as [[e | base] es1];
    [reflexivity |].
  unfold bind at 1.
  destruct (getTreeSHA path fs octokit opts base (h ++ es1))
    as [[e | treeSHA] es2]; [reflexivity |].
  destruct (if truthy_opt_bool (noParent opts) then inr None
            else
              match targetOid base with
              | inl e => inl e
              | inr oid => inr (Some [oid])
              end) as [e | parents].
  { unfold bind, lift. now rewrite !app_nil_r. }
  rewrite bind_lift_inr.
  unfold restCreateCommit. rewrite bind_perform.
  now destruct (rest_git_createCommit octokit ((h ++ es1) ++ es2)
                  (owner opts) (repo opts) (message opts) treeSHA _).
Qed.


(** X4.  Every run of [createCommit] makes its calls in this order:
    queries of the remote, then inspections of the disk, then the writes,
    which are at most one tree, then at most one commit object, then at
    most one update of the ref followed by at most one creation of the
    ref.  The ref is never written without a commit object created in the
    same run, and never created without an update tried before. *)
Theorem createCommit_call_order :
  exists queries inspections writes,
    snd (createCommit path fs octokit opts h)
      = queries ++ inspections ++ writes
    /\ Forall (fun e => is_query e = true) queries
    /\ Forall (fun e => is_fs_event e = true) inspections
    /\ write_steps writes = true.
Proof.
  rewrite createCommit_run.
  destruct (negb (has_length (files opts))
            && negb (has_length (deletedFiles opts))
            && negb (truthy_opt_bool (empty opts)))%bool.
  { exists [], [], []. repeat split; constructor. }
  destruct (validateOptions opts) as [e | []].
  { exists [], [], []. repeat split; constructor. }
  pose proof (getBaseBranch_emits h) as Hq.
  destruct (getBaseBranch octokit opts h) as [[e | base] es1];
    simpl in Hq.
  { exists es1, [], []. rewrite !app_nil_r. repeat split;
      [exact Hq | constructor]. }
  destruct (getTreeSHA_calls base (h ++ es1))
    as (inspections & request & Hes2 & Hfs & Hrequest).
  destruct (getTreeSHA path fs octokit opts base (h ++ es1))
    as [[e | treeSHA] es2]; simpl in Hes2; subst es2.
  { exists es1, inspections, request. repeat split; try assumption.
    destruct Hrequest as [-> | (tree & bt & ->)]; reflexivity. }
  destruct (if truthy_opt_bool (noParent opts) then inr None
            else
              match targetOid base with
              | inl e => inl e
              | inr oid => inr (Some [oid])
              end) as [e | parents].
  { exists es1, inspections, request. repeat split; try assumption.
    destruct Hrequest as [-> | (tree & bt & ->)]; reflexivity. }
  cbv zeta.
  destruct (rest_git_createCommit octokit ((h ++ es1) ++ inspections ++ request)
              (owner opts) (repo opts) (message opts) treeSHA _)
    as [e | commit].
  - eexists es1, inspections, (request ++ [_]). simpl.
    rewrite <- !app_assoc. repeat split; try assumption.
    destruct Hrequest as [-> | (tree & bt & ->)]; reflexivity.
  - match goal with
    | |- context [try_catch ?m ?k ?hh] =>
        pose proof (upsert_steps commit hh) as Hsteps;
        set (tail := try_catch m k hh) in *
    end.
    eexists es1, inspections, (request ++ _ :: snd tail). simpl.
    rewrite <- !app_assoc. repeat split; try assumption.
    destruct Hrequest as [-> | (tree & bt & ->)]; exact Hsteps.
Qed.
End Run.



(** ** Counting calls *)

Section CallsLe.
Context {A B : Type}.

Lemma calls_le_ret (a : A) n : calls_le n (ret a).
Proof. intros h. simpl. lia. Qed.

Lemma calls_le_throw (e : Thrown) n : calls_le n (@throw A e).
Proof. intros h. simpl. lia. Qed.

Lemma calls_le_perform (ev : Event) (resp : Trace -> Thrown + A) n :
  (1 <= n)%nat -> calls_le n (perform ev resp).
Proof. intros Hn h. simpl. lia. Qed.

Lemma calls_le_bind (m : M A) (k : A -> M B) n1 n2 n :
  calls_le n1 m -> (forall a, calls_le n2 (k a)) -> (n1 + n2 <= n)%nat ->
  calls_le n (bind m k).
Proof.
  intros Hm Hk Hn h. unfold bind. specialize (Hm h).
  destruct (m h) as [[e | a] es]; simpl in *; [lia |].
  specialize (Hk a (h ++ es)). destruct (k a (h ++ es)) as [r es'].
  simpl in *. rewrite length_app. lia.
Qed.

Lemma calls_le_try_catch (m : M A) (handler : Thrown -> M A) n1 n2 n :
  calls_le n1 m -> (forall e, calls_le n2 (handler e)) ->
  (n1 + n2 <= n)%nat -> calls_le n (try_catch m handler).
Proof.
  intros Hm Hk Hn h. unfold try_catch. specialize (Hm h).
  destruct (m h) as [[e | a] es]; simpl in *; [| lia].
  specialize (Hk e (h ++ es)). destruct (handler e (h ++ es)) as [r es'].
  simpl in *. rewrite length_app. lia.
Qed.
End CallsLe.

Lemma calls_le_for_push {A B} (f : A -> M B) (xs : list A) n :
  (forall x, calls_le n (f x)) ->
  calls_le (n * length xs) (for_push f xs).
Proof.
  intros Hf. induction xs as [| x xs IH]; simpl.
  - apply calls_le_ret.
  - eapply calls_le_bind; [apply Hf | intros y |].
    + eapply calls_le_bind; [exact IH | intros ys; apply (calls_le_ret _ 0) |].
      reflexivity.
    + lia.
Qed.

Section LocalCalls.
Import CreateCommit.
Context (path : Path) (fs : FileSystem).

Lemma resolvePackedRef_calls gitDir ref :
  calls_le 1 (resolvePackedRef path fs gitDir ref).
Proof.
  unfold resolvePackedRef, readFile.
  eapply calls_le_bind with (n1 := 1%nat) (n2 := 0%nat);
    [now apply calls_le_perform | intros content | lia].
  destruct (scanPackedRefs _ _); [apply calls_le_ret | apply calls_le_throw].
Qed.

Lemma resolveGitHEAD_calls gitDir :
  calls_le 3 (resolveGitHEAD path fs gitDir).
Proof.
  unfold resolveGitHEAD, readFile.
  eapply calls_le_bind with (n1 := 1%nat) (n2 := 2%nat);
    [now apply calls_le_perform | intros raw | lia].
  destruct (negb _); [apply calls_le_ret |].
  eapply calls_le_try_catch with (n1 := 1%nat) (n2 := 1%nat);
    [| intros e; apply resolvePackedRef_calls | lia].
  eapply calls_le_bind with (n1 := 1%nat) (n2 := 0%nat);
    [now apply calls_le_perform | intros loose; apply calls_le_ret | lia].
Qed.

Lemma getSubmoduleCommitSHA_calls dirPath :
  calls_le 5 (getSubmoduleCommitSHA path fs dirPath).
Proof.
  unfold getSubmoduleCommitSHA, stat, readFile.
  eapply calls_le_bind with (n1 := 1%nat) (n2 := 4%nat); [| intros is_file | lia].
  - eapply calls_le_try_catch with (n1 := 1%nat) (n2 := 0%nat);
      [| intros e; apply calls_le_ret | lia].
    eapply calls_le_bind with (n1 := 1%nat) (n2 := 0%nat);
      [now apply calls_le_perform | intros st; apply calls_le_ret | lia].
  - destruct (negb is_file); [apply calls_le_ret |].
    eapply calls_le_bind with (n1 := 1%nat) (n2 := 3%nat);
      [now apply calls_le_perform | intros raw | lia].
    destruct (match_gitdir _); [| apply calls_le_ret].
    eapply calls_le_bind with (n1 := 3%nat) (n2 := 0%nat);
      [apply resolveGitHEAD_calls | intros sha; apply calls_le_ret | lia].
Qed.

Lemma fileOfStats_calls filePath stats :
  calls_le 5 (fileOfStats path fs filePath stats).
Proof.
  unfold fileOfStats, readFile. destruct (isDirectory stats).
  - eapply calls_le_bind with (n1 := 5%nat) (n2 := 0%nat);
      [apply getSubmoduleCommitSHA_calls | intros [sha |]; apply calls_le_ret
      | lia].
  - eapply calls_le_bind with (n1 := 1%nat) (n2 := 0%nat);
      [now apply calls_le_perform | intros c; apply calls_le_ret | lia].
Qed.

Lemma getFileContentAndMode_calls filePath deleteIfNotExist :
  calls_le 6 (getFileContentAndMode path fs filePath deleteIfNotExist).
Proof.
  assert (Hbody : calls_le 6
            (stats <- stat fs filePath ;;
             fileOfStats path fs filePath stats)%async).
  { unfold stat.
    eapply calls_le_bind with (n1 := 1%nat) (n2 := 5%nat);
      [now apply calls_le_perform | intros st; apply fileOfStats_calls | lia]. }
  unfold getFileContentAndMode. destruct (negb deleteIfNotExist);
    [exact Hbody |].
  eapply calls_le_try_catch with (n1 := 6%nat) (n2 := 0%nat);
    [exact Hbody | intros e | lia].
  destruct e as [msg [code |] | | repr];
    try destruct (String.eqb code "ENOENT");
    first [apply calls_le_ret | apply calls_le_throw].
Qed.

Lemma createTreeFile_calls opts filePath :
  calls_le 6 (createTreeFile path fs opts filePath).
Proof.
  unfold createTreeFile.
  eapply calls_le_bind with (n1 := 6%nat) (n2 := 0%nat);
    [apply getFileContentAndMode_calls | intros f; apply calls_le_ret | lia].
Qed.

Lemma createDeletedTreeFile_calls opts filePath :
  calls_le 6 (createDeletedTreeFile path fs opts filePath).
Proof.
  unfold createDeletedTreeFile.
  eapply calls_le_bind with (n1 := 6%nat) (n2 := 0%nat);
    [apply getFileContentAndMode_calls | intros f; apply calls_le_ret | lia].
Qed.

(** X5.  Building the tree entry of a path, for an addition or for a
    deletion, only reads the disk, with at most six calls: the remote is
    not contacted before the tree is requested.  [getTreeSHA] makes at most
    six calls per listed path and one request to the remote. *)
Theorem tree_entries_are_local (octokit : GitHub Ref) (opts : Options)
    (base : option Ref) (filePath : string) (h : Trace) :
  let added := snd (createTreeFile path fs opts filePath h) in
  let deleted := snd (createDeletedTreeFile path fs opts filePath h) in
  Forall (fun e => is_fs_event e = true) added
  /\ (length added <= 6)%nat
  /\ Forall (fun e => is_fs_event e = true) deleted
  /\ (length deleted <= 6)%nat
  /\ (length (snd (getTreeSHA path fs octokit opts base h))
      <= 6 * (length (or_nil (files opts))
              + length (or_nil (deletedFiles opts))) + 1)%nat.
Proof.
  intros added deleted.
  split; [apply createTreeFile_emits |].
  split; [apply createTreeFile_calls |].
  split; [apply createDeletedTreeFile_emits |].
  split; [apply createDeletedTreeFile_calls |].
  clear added deleted.
  unfold getTreeSHA. destruct (truthy_opt_bool (empty opts)); [simpl; lia |].
  revert h.
  change (calls_le
            (6 * (length (or_nil (files opts))
                  + length (or_nil (deletedFiles opts))) + 1)
            (added <- for_push (createTreeFile path fs opts)
                        (or_nil (files opts)) ;;
             deleted <- for_push (createDeletedTreeFile path fs opts)
                          (or_nil (deletedFiles opts)) ;;
             baseTree <- lift (if truthy_opt_bool (noParent opts)
                               then inr None
                               else
                                 match targetTreeOid base with
                                 | inl e => inl e
                                 | inr oid => inr (Some oid)
                                 end) ;;
             restCreateTree octokit (owner opts) (repo opts)
               (added ++ deleted) baseTree)%async).
  eapply calls_le_bind;
    [apply calls_le_for_push, createTreeFile_calls | intros a |
     reflexivity || idtac].
  - eapply calls_le_bind;
      [apply calls_le_for_push, createDeletedTreeFile_calls | intros d |
       reflexivity].
    eapply calls_le_bind with (n1 := 0%nat) (n2 := 1%nat);
      [intros h'; unfold lift; simpl; lia | intros bt | reflexivity].
    unfold restCreateTree. apply calls_le_perform. apply le_n.
  - lia.
Qed.
End LocalCalls.

(** ** The shape of tree entries *)

Lemma ret_inv {A} (a b : A) h es : ret a h = (inr b, es) -> a = b /\ es = [].
Proof. unfold ret. now intros [= -> <-]. Qed.

Lemma try_catch_inv_inr {A} (m : M A) (handler : Thrown -> M A) h a es :
  try_catch m handler h = (inr a, es) ->
  m h = (inr a, es)
  \/ exists e es1 es2,
       m h = (inl e, es1) /\ handler e (h ++ es1) = (inr a, es2)
       /\ es = es1 ++ es2.
Proof.
  unfold try_catch. destruct (m h) as [[e | a'] es1].
  - destruct (handler e (h ++ es1)) as [r es2] eqn:Hh. intros [= -> <-].
    right. now exists e, es1, es2.
  - intros [= -> <-]. now left.
Qed.

Lemma getFileMode_directory (mode : Z) :
  CreateCommit.getFileMode mode = M040000 <-> Z.land mode 0xF000 = 0x4000.
Proof.
  unfold CreateCommit.getFileMode.
  destruct (Z.eqb_spec (Z.land mode 0xF000) 0x8000) as [H8 | H8].
  - rewrite H8. split; [| discriminate].
    now destruct (negb _).
  - destruct (Z.eqb_spec (Z.land mode 0xF000) 0x4000) as [H4 | H4];
      [tauto |].
    split; [| tauto].
    now repeat destruct (Z.eqb _ _).
Qed.

Section Entries.
Import CreateCommit.
Context (path : Path) (fs : FileSystem).

(** What [fileOfStats] answers: the content of a file, a directory, or a
    submodule. *)
Lemma fileOfStats_shape filePath stats h file es :
  fileOfStats path fs filePath stats h = (inr file, es) ->
  file_path file = filePath
  /\ file_type file = Some (getFileType (file_mode file))
  /\ match file_sha file with
     | ShaAbsent =>
         (file_content file = None <-> file_mode file = M040000)
     | ShaOf _ => file_content file = None /\ file_mode file = M160000
     | ShaNull => False
     end.
Proof.
  unfold fileOfStats. destruct (isDirectory stats) eqn:Hdir; intros Hrun.
  - apply bind_inv_inr in Hrun as ([sha |] & es1 & es2 & _ & Hret & _);
      apply ret_inv in Hret as [<- _]; simpl; repeat split; tauto.
  - apply bind_inv_inr in Hrun as (content & es1 & es2 & _ & Hret & _).
    apply ret_inv in Hret as [<- _]. simpl. repeat split.
    + discriminate.
    + intros Hmode. apply getFileMode_directory in Hmode.
      unfold isDirectory in Hdir. apply Z.eqb_neq in Hdir. contradiction.
Qed.

Lemma getFileContentAndMode_shape filePath flag h file es :
  getFileContentAndMode path fs filePath flag h = (inr file, es) ->
  file_path file = filePath
  /\ file_type file = Some (getFileType (file_mode file))
  /\ match file_sha file with
     | ShaAbsent =>
         (file_content file = None <-> file_mode file = M040000)
     | ShaOf _ => file_content file = None /\ file_mode file = M160000
     | ShaNull =>
         file_content file = None /\ file_mode file = M100644 /\ flag = true
     end.
Proof.
  assert (Hbody : forall h' es',
            (stats <- stat fs filePath ;;
             fileOfStats path fs filePath stats)%async h' = (inr file, es') ->
            file_path file = filePath
            /\ file_type file = Some (getFileType (file_mode file))
            /\ match file_sha file with
               | ShaAbsent =>
                   (file_content file = None <-> file_mode file = M040000)
               | ShaOf _ =>
                   file_content file = None /\ file_mode file = M160000
               | ShaNull => False
               end).
  { intros h' es' Hrun.
    apply bind_inv_inr in Hrun as (stats & es1 & es2 & _ & Hfile & _).
    exact (fileOfStats_shape _ _ _ _ _ Hfile). }
  unfold getFileContentAndMode. destruct flag; simpl negb; cbv iota.
  - intros Hrun. apply try_catch_inv_inr in Hrun
      as [Hrun | (e & es1 & es2 & _ & Hhandler & _)].
    + destruct (Hbody _ _ Hrun) as (Hp & Ht & Hs).
      repeat split; try assumption. now destruct (file_sha file).
    + destruct e as [msg [code |] | | repr]; try discriminate Hhandler.
      destruct (String.eqb code "ENOENT"); [| discriminate Hhandler].
      apply ret_inv in Hhandler as [<- _]. simpl. repeat split.
  - intros Hrun. destruct (Hbody _ _ Hrun) as (Hp & Ht & Hs).
    repeat split; try assumption. now destruct (file_sha file).
Qed.

Lemma createTreeFile_shape (opts : Options) (filePath : string)
    (h : Trace) (file : File) (es : Trace) :
  createTreeFile path fs opts filePath h = (inr file, es) ->
  file_path file = filePath
  /\ file_type file = Some (getFileType (file_mode file))
  /\ match file_sha file with
     | ShaAbsent =>
         (file_content file = None <-> file_mode file = M040000)
     | ShaOf _ => file_content file = None /\ file_mode file = M160000
     | ShaNull =>
         file_content file = None /\ file_mode file = M100644
         /\ truthy_opt_bool (deleteIfNotExist opts) = true
     end.
Proof.
  unfold createTreeFile. intros Hrun.
  apply bind_inv_inr in Hrun as (f & es1 & es2 & Hf & Hret & _).
  apply ret_inv in Hret as [<- _]. simpl.
  destruct (getFileContentAndMode_shape _ _ _ _ _ Hf) as (_ & _ & Hs).
  repeat split. exact Hs.
Qed.

(** X6.  Every tree entry that [createTreeFile] answers has the path of
    the request (not the path joined to [rootDir]) and the type that goes
    with its mode, and is of one of four kinds: a file with its content and
    no [sha]; a directory, mode [040000], with neither; a submodule, mode
    [160000], with the commit as [sha] and no content; or, only with
    [deleteIfNotExist], a deletion, [sha] [null], mode [100644], no
    content.  Content and [sha] never come together. *)
Theorem createTreeFile_entry (opts : Options) (filePath : string)
    (h : Trace) (file : File) (es : Trace) :
  createTreeFile path fs opts filePath h = (inr file, es) ->
  file_path file = filePath
  /\ file_type file = Some (getFileType (file_mode file))
  /\ match file_sha file with
     | ShaAbsent =>
         (file_content file = None <-> file_mode file = M040000)
     | ShaOf _ => file_content file = None /\ file_mode file = M160000
     | ShaNull =>
         file_content file = None /\ file_mode file = M100644
         /\ truthy_opt_bool (deleteIfNotExist opts) = true
     end.
Proof. apply createTreeFile_shape. Qed.

Lemma createDeletedTreeFile_entry (opts : Options) (filePath : string)
    (h : Trace) (file : File) (es : Trace) :
  createDeletedTreeFile path fs opts filePath h = (inr file, es) ->
  is_deletion file /\ entry_ok file.
Proof.
  unfold createDeletedTreeFile. intros Hrun.
  apply bind_inv_inr in Hrun as (f & es1 & es2 & Hf & Hret & ->).
  apply ret_inv in Hret as [<- ->]. now repeat split.
Qed.

Lemma createTreeFile_entry_ok (opts : Options) (filePath : string)
    (h : Trace) (file : File) (es : Trace) :
  createTreeFile path fs opts filePath h = (inr file, es) -> entry_ok file.
Proof.
  intros Hrun.
  destruct (createTreeFile_shape _ _ _ _ _ Hrun) as (_ & Ht & Hs).
  split; [exact Ht |]. destruct (file_sha file); tauto.
Qed.

Lemma for_push_Forall {A B} (f : A -> M B) (P : B -> Prop) :
  (forall x h y es, f x h = (inr y, es) -> P y) ->
  forall xs h ys es, for_push f xs h = (inr ys, es) -> Forall P ys.
Proof.
  intros Hf. induction xs as [| x xs IH]; intros h ys es Hrun.
  - simpl in Hrun. unfold ret in Hrun. injection Hrun as <- _. constructor.
  - simpl in Hrun.
    apply bind_inv_inr in Hrun as (y & e1 & e2 & Hy & Hrest & _).
    apply bind_inv_inr in Hrest as (ys' & e3 & e4 & Hys & Hret & _).
    unfold ret in Hret. injection Hret as <- _. constructor; eauto.
Qed.

(** A request for a tree among the calls of [getTreeSHA] comes after both
    loops have succeeded. *)
Lemma getTreeSHA_request (octokit : GitHub Ref) (opts : Options)
    (base : option Ref) (h : Trace) o r tree base_tree :
  In (RestCreateTree o r tree base_tree)
    (snd (getTreeSHA path fs octokit opts base h)) ->
  exists added es_a deleted es_d,
    for_push (createTreeFile path fs opts) (or_nil (files opts)) h
      = (inr added, es_a)
    /\ for_push (createDeletedTreeFile path fs opts)
         (or_nil (deletedFiles opts)) (h ++ es_a) = (inr deleted, es_d)
    /\ tree = added ++ deleted
    /\ o = owner opts /\ r = repo opts.
Proof.
  unfold getTreeSHA.
  destruct (truthy_opt_bool (empty opts)); [intros [] |].
  pose proof (emits_for_push _ _ (or_nil (files opts))
                (createTreeFile_emits path fs opts) h) as Hfs_a.
  unfold bind at 1.
  destruct (for_push (createTreeFile path fs opts) (or_nil (files opts)) h)
    as [[e | added] es_a] eqn:Ha; simpl in Hfs_a.
  { intros Hin. exfalso.
    exact (fs_event_not_createTree _ _ _ _ _ Hfs_a Hin). }
  pose proof (emits_for_push _ _ (or_nil (deletedFiles opts))
                (createDeletedTreeFile_emits path fs opts) (h ++ es_a))
    as Hfs_d.
  unfold bind at 1.
  destruct (for_push (createDeletedTreeFile path fs opts)
              (or_nil (deletedFiles opts)) (h ++ es_a))
    as [[e | deleted] es_d] eqn:Hd; simpl in Hfs_d.
  { simpl. intros Hin. exfalso. apply in_app_or in Hin as [Hin | Hin].
    - exact (fs_event_not_createTree _ _ _ _ _ Hfs_a Hin).
    - exact (fs_event_not_createTree _ _ _ _ _ Hfs_d Hin). }
  destruct (if truthy_opt_bool (noParent opts) then inr None
            else
              match targetTreeOid base with
              | inl e => inl e
              | inr oid => inr (Some oid)
              end) as [e | baseTree].
  { simpl. rewrite app_nil_r. intros Hin. exfalso.
    apply in_app_or in Hin as [Hin | Hin].
    - exact (fs_event_not_createTree _ _ _ _ _ Hfs_a Hin).
    - exact (fs_event_not_createTree _ _ _ _ _ Hfs_d Hin). }
  rewrite bind_lift_inr. simpl. intros Hin.
  apply in_app_or in Hin as [Hin | Hin];
    [exfalso; exact (fs_event_not_createTree _ _ _ _ _ Hfs_a Hin) |].
  apply in_app_or in Hin as [Hin | Hin];
    [exfalso; exact (fs_event_not_createTree _ _ _ _ _ Hfs_d Hin) |].
  destruct Hin as [Heq | []]. injection Heq as <- <- <- _.
  exists added, es_a, deleted, es_d. now rewrite Hd.
Qed.

(** X7.  Every tree that [getTreeSHA] requests from the remote is for
    the repository of the request and lists the additions first and the
    deletions after them, each in the order of the request and under the
    path of the request.  Every entry of a deletion has [sha] [null] and no
    content, whatever is on disk, and in every entry the type goes with the
    mode and content and [sha] never come together. *)
Theorem createTree_request_entries (octokit : GitHub Ref) (opts : Options)
    (base : option Ref) (h : Trace) o r tree base_tree :
  In (RestCreateTree o r tree base_tree)
    (snd (getTreeSHA path fs octokit opts base h)) ->
  o = owner opts /\ r = repo opts
  /\ exists added deleted,
       tree = added ++ deleted
       /\ map file_path added = or_nil (files opts)
       /\ map file_path deleted = or_nil (deletedFiles opts)
       /\ Forall is_deletion deleted
       /\ Forall entry_ok tree.
Proof.
  intros Hin.
  apply getTreeSHA_request in Hin
    as (added & es_a & deleted & es_d & Ha & Hd & -> & -> & ->).
  repeat split. exists added, deleted. repeat split.
  - eapply for_push_paths, Ha. apply createTreeFile_path.
  - eapply for_push_paths, Hd. apply createDeletedTreeFile_path.
  - eapply for_push_Forall, Hd. intros x h' y es' Hy.
    now apply createDeletedTreeFile_entry in Hy.
  - apply Forall_app. split.
    + eapply for_push_Forall, Ha. intros x h' y es' Hy.
      now apply createTreeFile_entry_ok in Hy.
    + eapply for_push_Forall, Hd. intros x h' y es' Hy.
      now apply createDeletedTreeFile_entry in Hy.
Qed.
End Entries.

Lemma createTreeFile_entry_example :
  let req := request "main" None (Some ["a.txt"]) None None None None None in
  let file := mkFile "a.txt" (Some "hello") ShaAbsent M100644 (Some Blob) in
  file_path file = "a.txt"
  /\ file_type file = Some (CreateCommit.getFileType (file_mode file))
  /\ (file_content file = None <-> file_mode file = M040000).
Proof.
  intros req file.
  exact (createTreeFile_entry plainPath (diskFS oneFileDisk) req "a.txt" []
           file [FsStat "a.txt"; FsReadFile "a.txt"] eq_refl).
Defined.

Lemma createTree_request_entries_example :
  let req := request "main" None (Some ["a.txt"]) None None None
               (Some ["gone.txt"]) (Some true) in
  let tree :=
    [mkFile "a.txt" (Some "hello") ShaAbsent M100644 (Some Blob);
     mkFile "gone.txt" None ShaNull M100644 (Some Blob)] in
  "o" = CreateCommit.owner req /\ "r" = CreateCommit.repo req
  /\ exists added deleted,
       tree = added ++ deleted
       /\ map file_path added = or_nil (CreateCommit.files req)
       /\ map file_path deleted = or_nil (CreateCommit.deletedFiles req)
       /\ Forall is_deletion deleted
       /\ Forall entry_ok tree.
Proof.
  intros req tree.
  apply (createTree_request_entries plainPath (diskFS oneFileDisk) stubGitHub
           req (Some (CreateCommit.mkRef "c0" "t0")) [] "o" "r" tree
           (Some "t0")).
  vm_compute. do 3 right. left. reflexivity.
Defined.

(** ** Inspection with and without [deleteIfNotExist] *)

Section Lenient.
Import CreateCommit.
Context (path : Path) (fs : FileSystem).

(** X8.  [deleteIfNotExist] changes the outcome of inspecting a path
    only when the inspection without it throws: the calls are the same,
    and an entry found is answered as it is.  An error object whose [code]
    is [ENOENT], thrown anywhere in the inspection (by [stat] of the path
    as by reading the HEAD or the [packed-refs] of a submodule), becomes
    the deletion entry of the path; an error object with another code or
    without code, and a thrown primitive, are thrown again as they are. *)
Theorem deleteIfNotExist_recovers_ENOENT (filePath : string) (h : Trace) :
  let strict := getFileContentAndMode path fs filePath false h in
  let lenient := getFileContentAndMode path fs filePath true h in
  snd lenient = snd strict
  /\ match fst strict with
     | inr file => fst lenient = inr file
     | inl (ThrownObject msg (Some code)) =>
         fst lenient =
           if String.eqb code "ENOENT"
           then inr (mkFile filePath None ShaNull M100644 (Some Blob))
           else inl (ThrownObject msg (Some code))
     | inl (ThrownObject msg None) => fst lenient = inl (ThrownObject msg None)
     | inl (ThrownPrimitive repr) => fst lenient = inl (ThrownPrimitive repr)
     | inl ThrownNull =>
         fst lenient =
           inl (newError "Cannot read properties of null (reading 'code')")
     end.
Proof.
  unfold getFileContentAndMode.
  change (negb true) with false. change (negb false) with true.
  cbv beta iota. unfold try_catch.
  destruct ((stats <- stat fs filePath ;;
             fileOfStats path fs filePath stats)%async h)
    as [[e | file] es]; [| now split].
  destruct e as [msg [code |] | | repr]; simpl;
    try (split; [apply app_nil_r | reflexivity]).
  destruct (String.eqb code "ENOENT"); simpl;
    (split; [apply app_nil_r | reflexivity]).
Qed.

(** X9.  A directory is a submodule only through a [.git] that is a
    regular file with a [gitdir] line.  When [stat] of [.git] fails, or
    [.git] is not a regular file, [getSubmoduleCommitSHA] answers
    [undefined] after that one call, without error.  When [.git] is a
    regular file, a failure to read it is thrown; a content without
    [gitdir] line answers [undefined]; and with one, the HEAD of the git
    directory is resolved, the directory named being taken as it is when
    absolute and resolved against the submodule directory otherwise, and
    what the resolution throws is thrown. *)
Theorem getSubmoduleCommitSHA_detection (dirPath : string) (h : Trace) :
  let dotGit := path_join path dirPath ".git" in
  (forall e,
     fs_stat fs dotGit = inl e ->
     getSubmoduleCommitSHA path fs dirPath h = (inr None, [FsStat dotGit]))
  /\ (forall stats,
        fs_stat fs dotGit = inr stats ->
        (isFile stats = false ->
         getSubmoduleCommitSHA path fs dirPath h
         = (inr None, [FsStat dotGit]))
        /\ (isFile stats = true ->
            (forall e,
               fs_readFile fs dotGit = inl e ->
               getSubmoduleCommitSHA path fs dirPath h
               = (inl e, [FsStat dotGit; FsReadFile dotGit]))
            /\ (forall raw,
                  fs_readFile fs dotGit = inr raw ->
                  match match_gitdir (trim raw) with
                  | None =>
                      getSubmoduleCommitSHA path fs dirPath h
                      = (inr None, [FsStat dotGit; FsReadFile dotGit])
                  | Some dir =>
                      let gitDir :=
                        if path_isAbsolute path dir then dir
                        else path_resolve path dirPath dir in
                      let head :=
                        resolveGitHEAD path fs gitDir
                          ((h ++ [FsStat dotGit]) ++ [FsReadFile dotGit]) in
                      getSubmoduleCommitSHA path fs dirPath h
                      = (match fst head with
                         | inl e => inl e
                         | inr sha => inr (Some sha)
                         end,
                         [FsStat dotGit; FsReadFile dotGit] ++ snd head)
                  end))).
Proof.
  intros dotGit.
  assert (Hstat : forall e, fs_stat fs dotGit = inl e ->
            getSubmoduleCommitSHA path fs dirPath h
            = (inr None, [FsStat dotGit])).
  { intros e He. unfold getSubmoduleCommitSHA, stat, try_catch, bind, perform.
    fold dotGit. now rewrite He. }
  split; [exact Hstat |].
  intros stats Hstats. split.
  - intros Hfile.
    unfold getSubmoduleCommitSHA, stat, try_catch, bind, perform.
    fold dotGit. now rewrite Hstats, Hfile.
  - intros Hfile. split.
    + intros e Hread.
      unfold getSubmoduleCommitSHA, stat, readFile, try_catch, bind, perform.
      fold dotGit. now rewrite Hstats, Hfile, Hread.
    + intros raw Hread.
      unfold getSubmoduleCommitSHA, stat, readFile, try_catch, bind, perform,
        ret.
      fold dotGit. rewrite Hstats, Hfile. simpl. rewrite Hread.
      destruct (match_gitdir (trim raw)) as [dir |]; [| reflexivity].
      cbv zeta.
      destruct (resolveGitHEAD path fs _ _) as [[e | sha] es]; simpl;
        [reflexivity |].
      now rewrite app_nil_r.
Qed.
End Lenient.

(** With [deleteIfNotExist], a submodule whose git directory is gone is
    answered as a deletion of its path; without it, the error of reading
    its HEAD is thrown. *)
Example orphan_submodule_example :
  let reads :=
    [FsStat "sub"; FsStat "sub/.git"; FsReadFile "sub/.git";
     FsReadFile "/gd/HEAD"] in
  CreateCommit.getFileContentAndMode plainPath (diskFS orphanSubmoduleDisk)
    "sub" true []
  = (inr (mkFile "sub" None ShaNull M100644 (Some Blob)), reads)
  /\ CreateCommit.getFileContentAndMode plainPath
       (diskFS orphanSubmoduleDisk) "sub" false []
     = (inl (errno "ENOENT" "open" "/gd/HEAD"), reads).
Proof. split; reflexivity. Qed.

Lemma getSubmoduleCommitSHA_detection_example :
  CreateCommit.getSubmoduleCommitSHA plainPath (diskFS oneFileDisk) "plain" []
    = (inr None, [FsStat "plain/.git"])
  /\ CreateCommit.getSubmoduleCommitSHA plainPath (diskFS nestedRepoDisk)
       "dir" []
     = (inr None, [FsStat "dir/.git"])
  /\ CreateCommit.getSubmoduleCommitSHA plainPath (diskFS submoduleDisk)
       "sub" []
     = (inr (Some "2222222"),
        [FsStat "sub/.git"; FsReadFile "sub/.git"]
        ++ [FsReadFile "/gd/HEAD"; FsReadFile "/gd/refs/heads/main";
            FsReadFile "/gd/packed-refs"]).
Proof.
  split; [| split].
  - apply (getSubmoduleCommitSHA_detection plainPath (diskFS oneFileDisk)
             "plain" [] ) with (e := errno "ENOENT" "stat" "plain/.git").
    reflexivity.
  - destruct (getSubmoduleCommitSHA_detection plainPath
                (diskFS nestedRepoDisk) "dir" []) as [_ Hstats].
    destruct (Hstats (mkStats 0x41ED) eq_refl) as [Hdir _].
    exact (Hdir eq_refl).
  - destruct (getSubmoduleCommitSHA_detection plainPath
                (diskFS submoduleDisk) "sub" []) as [_ Hstats].
    destruct (Hstats (mkStats 0x81A4) eq_refl) as [_ Hfile].
    destruct (Hfile eq_refl) as [_ Hread].
    exact (Hread "gitdir: /gd" eq_refl).
Defined.

(** ** The [gitdir] line *)

Lemma prefix_slice (p s : string) :
  String.prefix p s = true -> s = p +:+ slice (String.length p) s.
Proof.
  revert s. induction p as [| a p IH]; intros s Hp; [reflexivity |].
  destruct s as [| b s]; [discriminate Hp |].
  simpl in Hp. destruct (ascii_dec a b) as [-> | _]; [| discriminate Hp].
  change (String b s = String b (p +:+ slice (String.length p) s)).
  f_equal. now apply IH.
Qed.

Lemma match_spaces_rest_cons (c : ascii) (s : string) :
  CreateCommit.match_spaces_rest (String c s) =
  let whole :=
    if string_forall (fun c => negb (is_line_terminator c)) (String c s)
    then Some (String c s) else None in
  if is_white_space c then
    match CreateCommit.match_spaces_rest s with
    | Some r => Some r
    | None => whole
    end
  else whole.
Proof. reflexivity. Qed.

Lemma match_spaces_rest_sound (s g : string) :
  CreateCommit.match_spaces_rest s = Some g ->
  spaces_then s g /\ g <> ""
  /\ string_forall (fun c => negb (is_line_terminator c)) g = true.
Proof.
  revert g. induction s as [| c s IH]; intros g Hm; [discriminate Hm |].
  assert (Hwhole :
    (if string_forall (fun c => negb (is_line_terminator c)) (String c s)
     then Some (String c s) else None) = Some g ->
    spaces_then (String c s) g /\ g <> ""
    /\ string_forall (fun c => negb (is_line_terminator c)) g = true).
  { destruct (string_forall _ (String c s)) eqn:Hnl; [| discriminate].
    intros [= <-]. split; [now exists "" |]. split; [discriminate | exact Hnl]. }
  rewrite match_spaces_rest_cons in Hm. cbv zeta in Hm.
  destruct (is_white_space c) eqn:Hc; [| now apply Hwhole].
  destruct (CreateCommit.match_spaces_rest s) as [r |] eqn:Hr;
    [| now apply Hwhole].
  injection Hm as <-.
  destruct (IH r eq_refl) as ((ws & -> & Hws) & Hne & Hnl).
  split; [| now split].
  exists (String c ws). split; [reflexivity |]. simpl. now rewrite Hc, Hws.
Qed.

Lemma match_spaces_rest_complete (ws g : string) :
  string_forall is_white_space ws = true ->
  match g with
  | EmptyString => False
  | String c _ => is_white_space c = false
  end ->
  string_forall (fun c => negb (is_line_terminator c)) g = true ->
  CreateCommit.match_spaces_rest (ws +:+ g) = Some g.
Proof.
  intros Hws Hg Hnl. induction ws as [| c ws IH].
  - destruct g as [| c g]; [contradiction |].
    change ("" +:+ String c g) with (String c g).
    rewrite match_spaces_rest_cons. cbv zeta. now rewrite Hg, Hnl.
  - simpl in Hws. apply andb_true_iff in Hws as [Hc Hws].
    change (String c ws +:+ g) with (String c (ws +:+ g)).
    rewrite match_spaces_rest_cons. cbv zeta. now rewrite Hc, (IH Hws).
Qed.

Lemma gitdir_prefix (x : string) :
  startsWith "gitdir:" ("gitdir:" +:+ x) = true.
Proof. now destruct x. Qed.

Lemma gitdir_slice (x : string) : slice 7 ("gitdir:" +:+ x) = x.
Proof. reflexivity. Qed.

(** X10.  The content of a [.git] file is taken for a pointer to a git
    directory exactly as the pattern [^gitdir:\s*(.+)$] says.  When it is,
    the content is "gitdir:", then white space, then the directory, which
    is not empty and holds no line terminator.  Conversely "gitdir:",
    any white space, and a directory on one line that starts with a
    character other than white space give that directory.  So a [.git]
    file that goes on after the line of the directory is not a pointer. *)
Theorem match_gitdir_pattern (content : string) :
  (forall dir,
     CreateCommit.match_gitdir content = Some dir ->
     (exists ws,
        content = "gitdir:" +:+ ws +:+ dir
        /\ string_forall is_white_space ws = true)
     /\ dir <> ""
     /\ string_forall (fun c => negb (is_line_terminator c)) dir = true)
  /\ (forall ws dir,
        content = "gitdir:" +:+ ws +:+ dir ->
        string_forall is_white_space ws = true ->
        match dir with
        | EmptyString => False
        | String c _ => is_white_space c = false
        end ->
        string_forall (fun c => negb (is_line_terminator c)) dir = true ->
        CreateCommit.match_gitdir content = Some dir).
Proof.
  split.
  - intros dir Hm. unfold CreateCommit.match_gitdir in Hm.
    destruct (startsWith "gitdir:" content) eqn:Hp; [| discriminate Hm].
    apply prefix_slice in Hp. change (String.length "gitdir:") with 7%nat in Hp.
    destruct (match_spaces_rest_sound _ _ Hm) as ((ws & Hs & Hws) & Hne & Hnl).
    split; [| now split].
    exists ws. split; [| exact Hws]. rewrite Hp at 1. now rewrite Hs.
  - intros ws dir -> Hws Hdir Hnl. unfold CreateCommit.match_gitdir.
    rewrite gitdir_prefix, gitdir_slice.
    now apply match_spaces_rest_complete.
Qed.

Lemma match_gitdir_pattern_example :
  CreateCommit.match_gitdir "gitdir: ../.git/modules/sub"
    = Some "../.git/modules/sub"
  /\ ((exists ws,
         "gitdir:/gd" = "gitdir:" +:+ ws +:+ "/gd"
         /\ string_forall is_white_space ws = true)
      /\ "/gd" <> ""
      /\ string_forall (fun c => negb (is_line_terminator c)) "/gd" = true).
Proof.
  split.
  - apply (match_gitdir_pattern "gitdir: ../.git/modules/sub") with (ws := " ");
      reflexivity.
  - apply (match_gitdir_pattern "gitdir:/gd"). reflexivity.
Defined.

(** ** Reading back [packed-refs] *)

Section PackedRoundTrip.
Import CreateCommit.

Lemma trimStart_cons (c : ascii) (s : string) :
  trimStart (String c s) = if is_white_space c then trimStart s else String c s.
Proof. reflexivity. Qed.

Lemma trimEnd_cons (c : ascii) (s : string) :
  trimEnd (String c s) =
  if (is_white_space c && String.eqb (trimEnd s) "")%bool then EmptyString
  else String c (trimEnd s).
Proof. reflexivity. Qed.

Lemma split_cons (sep c : ascii) (s : string) :
  split sep (String c s) =
  match split sep s with
  | hd :: tl =>
      if Ascii.eqb c sep then EmptyString :: hd :: tl else String c hd :: tl
  | [] => [EmptyString]
  end.
Proof. reflexivity. Qed.

Lemma trim_not_blank (c : ascii) (s : string) :
  is_white_space c = false -> trim (String c s) <> "".
Proof.
  intros Hc. unfold trim. rewrite trimStart_cons, Hc, trimEnd_cons, Hc.
  discriminate.
Qed.

(** A string without the separator is one piece. *)
Lemma split_one_piece (sep : ascii) (s : string) :
  string_forall (fun c => negb (Ascii.eqb c sep)) s = true ->
  split sep s = [s].
Proof.
  induction s as [| c s IH]; intros Hs; [reflexivity |].
  simpl in Hs. apply andb_true_iff in Hs as [Hc Hs].
  rewrite split_cons, (IH Hs). apply negb_true_iff in Hc. now rewrite Hc.
Qed.

(** The first piece ends at the first separator. *)
Lemma split_first_piece (sep : ascii) (a b : string) :
  string_forall (fun c => negb (Ascii.eqb c sep)) a = true ->
  split sep (a +:+ String sep b) = a :: split sep b.
Proof.
  induction a as [| c a IH]; intros Ha.
  - change ("" +:+ String sep b) with (String sep b).
    rewrite split_cons, Ascii.eqb_refl.
    destruct (split sep b) as [| hd tl] eqn:Hb; [| reflexivity].
    destruct b; simpl in Hb; [discriminate Hb |].
    destruct (split sep b); [discriminate Hb |].
    now destruct (Ascii.eqb a sep).
  - simpl in Ha. apply andb_true_iff in Ha as [Hc Ha].
    change (String c a +:+ String sep b) with (String c (a +:+ String sep b)).
    rewrite split_cons, (IH Ha). apply negb_true_iff in Hc. now rewrite Hc.
Qed.

Lemma string_forall_impl (p q : ascii -> bool) (s : string) :
  (forall c, p c = true -> q c = true) ->
  string_forall p s = true -> string_forall q s = true.
Proof.
  intros Hpq. induction s as [| c s IH]; [reflexivity |]. simpl.
  intros H. apply andb_true_iff in H as [Hc Hs].
  now rewrite (Hpq c Hc), (IH Hs).
Qed.

Lemma string_forall_app (p : ascii -> bool) (a b : string) :
  string_forall p (a +:+ b) = (string_forall p a && string_forall p b)%bool.
Proof.
  induction a as [| c a IH]; [reflexivity |].
  change (String c a +:+ b) with (String c (a +:+ b)). simpl.
  now rewrite IH, andb_assoc.
Qed.

Lemma string_app_assoc (a b c : string) :
  (a +:+ b) +:+ c = a +:+ b +:+ c.
Proof.
  induction a as [| x a IH]; [reflexivity |].
  change (String x ((a +:+ b) +:+ c) = String x (a +:+ b +:+ c)).
  now rewrite IH.
Qed.

Lemma startsWith_char (a c : ascii) (s : string) :
  startsWith (String a "") (String c s) = Ascii.eqb a c.
Proof.
  unfold startsWith. cbn [String.prefix].
  destruct (ascii_dec a c) as [-> | Hne].
  - rewrite Ascii.eqb_refl. now destruct s.
  - symmetry. now apply Ascii.eqb_neq.
Qed.

Lemma is_field_no_space (s : string) :
  is_field s = true ->
  string_forall (fun c => negb (Ascii.eqb c " ")) s = true.
Proof.
  apply string_forall_impl. intros c H.
  now apply andb_true_iff in H as [H _].
Qed.

Lemma is_field_no_line_feed (s : string) :
  is_field s = true ->
  string_forall (fun c => negb (Ascii.eqb c "010")) s = true.
Proof.
  apply string_forall_impl. intros c H.
  now apply andb_true_iff in H as [_ H].
Qed.

(** One line of an object name and a field, then a line feed: the scan
    takes the line when the field is the ref and goes on otherwise. *)
Lemma scan_written_line (sha r ref rest : string) :
  is_object_name sha = true ->
  is_field r = true ->
  scanPackedRefs
    (split "010" (sha +:+ " " +:+ r +:+ String "010" rest)) ref =
  if String.eqb r ref then Some sha
  else scanPackedRefs (split "010" rest) ref.
Proof.
  intros Hsha Hr.
  destruct sha as [| c sha]; [discriminate Hsha |].
  simpl in Hsha.
  apply andb_true_iff in Hsha as [Hsha Hfield].
  apply andb_true_iff in Hsha as [Hhash Hws].
  apply negb_true_iff in Hhash, Hws.
  set (line := String c sha +:+ " " +:+ r).
  assert (Hline : String c sha +:+ " " +:+ r +:+ String "010" rest
                  = line +:+ String "010" rest).
  { unfold line. now rewrite !string_app_assoc. }
  rewrite Hline, split_first_piece.
  2: { unfold line. rewrite !string_forall_app.
       rewrite (is_field_no_line_feed _ Hfield), (is_field_no_line_feed _ Hr).
       reflexivity. }
  cbn [scanPackedRefs].
  assert (Hcomment : startsWith "#" line = false).
  { unfold line.
    change (String c sha +:+ " " +:+ r)
      with (String c (sha +:+ " " +:+ r)).
    now rewrite startsWith_char, Ascii.eqb_sym. }
  assert (Hblank : String.eqb (trim line) "" = false).
  { apply String.eqb_neq. unfold line.
    change (String c sha +:+ " " +:+ r)
      with (String c (sha +:+ " " +:+ r)).
    now apply trim_not_blank. }
  rewrite Hcomment, Hblank. simpl orb. cbv iota.
  unfold split_limit, line.
  change (String c sha +:+ " " +:+ r) with (String c sha +:+ String " " r).
  rewrite split_first_piece by now apply is_field_no_space.
  rewrite split_one_piece by now apply is_field_no_space.
  reflexivity.
Qed.

Lemma scan_written (entries : list (string * string)) (ref : string) :
  Forall (fun e => is_object_name (fst e) = true /\ is_field (snd e) = true)
    entries ->
  scanPackedRefs (split "010" (writePackedRefs entries)) ref
  = firstEntry entries ref.
Proof.
  induction 1 as [| [sha r] entries [Hsha Hr] _ IH]; [reflexivity |].
  cbn [writePackedRefs firstEntry]. simpl in Hsha, Hr.
  rewrite <- IH.
  now apply scan_written_line.
Qed.

Context (path : Path) (fs : FileSystem).

(** X11.  [resolvePackedRef] reads back what is written to
    [packed-refs]: when the file holds one line per entry, the object name,
    a space and the ref name, with or without a comment line before them,
    the answer for a ref is the object name of the first entry with that
    name, and the error that names the ref when there is none.  Object
    names and ref names are fields without space or line feed, and an
    object name starts with a character other than [#] and white space. *)
Theorem resolvePackedRef_reads_back (gitDir ref : string) (h : Trace)
    (entries : list (string * string)) (header text : string) :
  Forall (fun e => is_object_name (fst e) = true /\ is_field (snd e) = true)
    entries ->
  string_forall (fun c => negb (Ascii.eqb c "010")) header = true ->
  text = writePackedRefs entries
  \/ text = String "#" header +:+ String "010" (writePackedRefs entries) ->
  fs_readFile fs (path_join path gitDir "packed-refs") = inr text ->
  resolvePackedRef path fs gitDir ref h =
    (match firstEntry entries ref with
     | Some sha => inr sha
     | None => inl (newError ("ref " +:+ ref +:+ " not found in packed-refs"))
     end,
     [FsReadFile (path_join path gitDir "packed-refs")]).
Proof.
  intros Hentries Hheader Htext Hread.
  assert (Hscan : scanPackedRefs (split "010" text) ref
                  = firstEntry entries ref).
  { destruct Htext as [-> | ->]; [now apply scan_written |].
    rewrite split_first_piece.
    - cbn [scanPackedRefs]. rewrite startsWith_char, Ascii.eqb_refl.
      simpl orb. cbv iota. now apply scan_written.
    - simpl. exact Hheader. }
  unfold resolvePackedRef, readFile. rewrite bind_perform, Hread, Hscan.
  now destruct (firstEntry entries ref).
Qed.
End PackedRoundTrip.

Lemma resolvePackedRef_reads_back_example :
  CreateCommit.resolvePackedRef plainPath (diskFS packedGitDir) "gd"
    "refs/heads/main" []
  = (inr "2222222", [FsReadFile "gd/packed-refs"])
  /\ CreateCommit.resolvePackedRef plainPath (diskFS packedGitDir) "gd"
       "refs/heads/gone" []
     = (inl (newError "ref refs/heads/gone not found in packed-refs"),
        [FsReadFile "gd/packed-refs"]).
Proof.
  assert (Hentries :
    Forall (fun e => is_object_name (fst e) = true
                     /\ is_field (snd e) = true)
      [("1111111", "refs/heads/dev"); ("2222222", "refs/heads/main")]).
  { repeat constructor. }
  split.
  - apply (resolvePackedRef_reads_back plainPath (diskFS packedGitDir) "gd"
             "refs/heads/main" [] _
             "pack-refs with: peeled fully-peeled sorted " packedRefsText
             Hentries eq_refl (or_intror eq_refl) eq_refl).
  - apply (resolvePackedRef_reads_back plainPath (diskFS packedGitDir) "gd"
             "refs/heads/gone" [] _
             "pack-refs with: peeled fully-peeled sorted " packedRefsText
             Hentries eq_refl (or_intror eq_refl) eq_refl).
Defined.

(** ** [commit] of [main.ts] *)

Section MainRun.
Context (fs : FileSystem) (octokit : GitHub MainTs.Ref).
Context (opts : MainTs.Options) (h : Trace).

Let o := MainTs.owner opts.
Let r := MainTs.repo opts.

(** The tree of the commit, as [commit] builds it. *)
Let treeStep (base : MainTs.Ref) : M string :=
  (if negb (truthy_opt_bool (MainTs.empty opts)) then
     tree <- for_push (MainTs.treeEntry fs) (or_nil (MainTs.files opts)) ;;
     restCreateTree octokit o r tree (Some (MainTs.target_tree_oid base))
   else ret (MainTs.target_tree_oid base))%async.

Let parentsOf (base : MainTs.Ref) : list string :=
  if truthy_opt_string (MainTs.parent opts)
  then [or_empty_string (MainTs.parent opts)]
  else [MainTs.target_oid base].

(** The run of [commit], step by step. *)
Lemma main_commit_run :
  MainTs.commit fs octokit opts h =
    if (negb (has_length (MainTs.files opts))
        && negb (truthy_opt_bool (MainTs.empty opts)))%bool
    then (inr None, [])
    else
      match
        MainTs.validateKeys opts
          [("owner", MainTs.owner); ("repo", MainTs.repo);
           ("branch", MainTs.branch); ("message", MainTs.message)]
      with
      | inl e => (inl e, [])
      | inr _ =>
          match MainTs.getBaseBranch octokit opts h with
          | (inl e, es1) => (inl e, es1)
          | (inr base, es1) =>
              match treeStep base (h ++ es1) with
              | (inl e, es2) => (inl e, es1 ++ es2)
              | (inr treeSHA, es2) =>
                  let created :=
                    RestCreateCommit o r (MainTs.message opts) treeSHA
                      (Some (parentsOf base)) in
                  match
                    rest_git_createCommit octokit ((h ++ es1) ++ es2) o r
                      (MainTs.message opts) treeSHA (Some (parentsOf base))
                  with
                  | inl e => (inl e, es1 ++ es2 ++ [created])
                  | inr commit =>
                      let h3 := ((h ++ es1) ++ es2) ++ [created] in
                      if String.eqb (MainTs.name base) (MainTs.branch opts)
                      then
                        (match
                           rest_git_updateRef octokit h3 o r
                             ("heads/" +:+ MainTs.branch opts) commit None
                         with
                         | inl e => inl e
                         | inr s => inr (Some (MainTs.mkResult s))
                         end,
                         es1 ++ es2
                         ++ [created;
                             RestUpdateRef o r
                               ("heads/" +:+ MainTs.branch opts) commit None])
                      else
                        (match
                           rest_git_createRef octokit h3 o r
                             ("refs/heads/" +:+ MainTs.branch opts) commit
                         with
                         | inl e => inl e
                         | inr s => inr (Some (MainTs.mkResult s))
                         end,
                         es1 ++ es2
                         ++ [created;
                             RestCreateRef o r
                               ("refs/heads/" +:+ MainTs.branch opts) commit])
                  end
              end
          end
      end.
Proof.
  unfold MainTs.commit.
  destruct (negb (has_length (MainTs.files opts))
            && negb (truthy_opt_bool (MainTs.empty opts)))%bool;
    [reflexivity |].
  destruct (MainTs.validateKeys opts _) as [e | []]; [reflexivity |].
  rewrite bind_lift_inr. unfold bind at 1.
  destruct (MainTs.getBaseBranch octokit opts h) as [[e | base] es1];
    [reflexivity |].
  unfold bind at 1. fold o r. fold (treeStep base).
  destruct (treeStep base (h ++ es1)) as [[e | treeSHA] es2];
    [reflexivity |].
  fold (parentsOf base). unfold restCreateCommit. rewrite bind_perform.
  destruct (rest_git_createCommit octokit ((h ++ es1) ++ es2) o r
              (MainTs.message opts) treeSHA (Some (parentsOf base)))
    as [e | commit]; [reflexivity |].
  cbv zeta.
  destruct (String.eqb (MainTs.name base) (MainTs.branch opts)).
  - unfold restUpdateRef. rewrite bind_perform.
    now destruct (rest_git_updateRef octokit _ o r _ commit None).
  - unfold restCreateRef. rewrite bind_perform.
    now destruct (rest_git_createRef octokit _ o r _ commit).
Qed.

(** X12.  In [commit] of [main.ts] the name of the resolved base
    decides how the ref is written, once the commit object is created:
    when it is the name of the target branch the ref [heads/<branch>] is
    updated, without [force], and otherwise [refs/heads/<branch>] is
    created.  This one write is the last call, and what it throws is
    thrown to the caller: an update that fails is not followed by a
    creation. *)
Theorem main_commit_ref_write (base : MainTs.Ref) (es1 : Trace)
    (treeSHA : string) (es2 : Trace) (commit : string) :
  (has_length (MainTs.files opts) || truthy_opt_bool (MainTs.empty opts))%bool
    = true ->
  MainTs.validateKeys opts
    [("owner", MainTs.owner); ("repo", MainTs.repo);
     ("branch", MainTs.branch); ("message", MainTs.message)] = inr tt ->
  MainTs.getBaseBranch octokit opts h = (inr base, es1) ->
  treeStep base (h ++ es1) = (inr treeSHA, es2) ->
  let created :=
    RestCreateCommit o r (MainTs.message opts) treeSHA
      (Some (parentsOf base)) in
  rest_git_createCommit octokit ((h ++ es1) ++ es2) o r (MainTs.message opts)
    treeSHA (Some (parentsOf base)) = inr commit ->
  let h3 := ((h ++ es1) ++ es2) ++ [created] in
  (MainTs.name base = MainTs.branch opts ->
   MainTs.commit fs octokit opts h =
     (match
        rest_git_updateRef octokit h3 o r ("heads/" +:+ MainTs.branch opts)
          commit None
      with
      | inl e => inl e
      | inr s => inr (Some (MainTs.mkResult s))
      end,
      es1 ++ es2
      ++ [created;
          RestUpdateRef o r ("heads/" +:+ MainTs.branch opts) commit None]))
  /\ (MainTs.name base <> MainTs.branch opts ->
      MainTs.commit fs octokit opts h =
        (match
           rest_git_createRef octokit h3 o r
             ("refs/heads/" +:+ MainTs.branch opts) commit
         with
         | inl e => inl e
         | inr s => inr (Some (MainTs.mkResult s))
         end,
         es1 ++ es2
         ++ [created;
             RestCreateRef o r ("refs/heads/" +:+ MainTs.branch opts)
               commit])).
Proof.
  intros Hreq Hvalid Hbase Htree created Hcommit h3.
  assert (Hguard : (negb (has_length (MainTs.files opts))
                    && negb (truthy_opt_bool (MainTs.empty opts)))%bool
                   = false).
  { destruct (has_length (MainTs.files opts)),
      (truthy_opt_bool (MainTs.empty opts)); try reflexivity.
    discriminate Hreq. }
  rewrite main_commit_run, Hguard, Hvalid, Hbase, Htree. cbv zeta.
  fold created. rewrite Hcommit. fold h3.
  split; intros Hname.
  - apply String.eqb_eq in Hname. now rewrite Hname.
  - apply String.eqb_neq in Hname. now rewrite Hname.
Qed.
End MainRun.

(** X13.  [commit] of [main.ts] reads [owner], [repo], [branch],
    [message], [empty], [files] and [parent] only: two requests that agree
    on these are treated alike, so [noParent], [directory], [deletedFiles],
    [deleteIfNotExist] and [forcePush] have no effect. *)
Theorem main_commit_reads_seven_options (fs : FileSystem)
    (octokit : GitHub MainTs.Ref) (opts opts' : MainTs.Options)
    (h : Trace) :
  MainTs.owner opts = MainTs.owner opts' ->
  MainTs.repo opts = MainTs.repo opts' ->
  MainTs.branch opts = MainTs.branch opts' ->
  MainTs.message opts = MainTs.message opts' ->
  MainTs.empty opts = MainTs.empty opts' ->
  MainTs.files opts = MainTs.files opts' ->
  MainTs.parent opts = MainTs.parent opts' ->
  MainTs.commit fs octokit opts h = MainTs.commit fs octokit opts' h.
Proof.
  destruct opts, opts'. simpl. intros -> -> -> -> -> -> ->. reflexivity.
Qed.

Lemma main_commit_ref_write_example :
  MainTs.commit (diskFS ∅) stubGitHubMain rootRequestMain []
    = (inr (Some (MainTs.mkResult "c1")),
       [GraphqlRef "o" "r" "main"] ++ []
       ++ [RestCreateCommit "o" "r" "m" "t0" (Some ["c0"]);
           RestUpdateRef "o" "r" "heads/main" "c1" None])
  /\ MainTs.commit (diskFS ∅) stubGitHubMain featRequestMain []
     = (inr (Some (MainTs.mkResult "c1")),
        [GraphqlRef "o" "r" "feat"; GraphqlDefaultBranchRef "o" "r"] ++ []
        ++ [RestCreateCommit "o" "r" "m" "t0" (Some ["c0"]);
            RestCreateRef "o" "r" "refs/heads/feat" "c1"]).
Proof.
  split.
  - apply (main_commit_ref_write (diskFS ∅) stubGitHubMain rootRequestMain []
             (MainTs.mkRef "main" "c0" "t0") [GraphqlRef "o" "r" "main"] "t0"
             [] "c1" eq_refl eq_refl eq_refl eq_refl eq_refl).
    reflexivity.
  - apply (main_commit_ref_write (diskFS ∅) stubGitHubMain featRequestMain []
             (MainTs.mkRef "main" "c0" "t0")
             [GraphqlRef "o" "r" "feat"; GraphqlDefaultBranchRef "o" "r"]
             "t0" [] "c1" eq_refl eq_refl eq_refl eq_refl eq_refl).
    discriminate.
Defined.

Lemma main_commit_reads_seven_options_example :
  MainTs.commit (diskFS ∅) stubGitHubMain rootRequestMain []
  = MainTs.commit (diskFS ∅) stubGitHubMain rootRequestMainOther [].
Proof.
  apply main_commit_reads_seven_options; reflexivity.
Defined.

(** ** [commit] of [part_001] *)

Section Part001Run.
Context (fs : FileSystem) (octokit : GitHub MainTs.Ref).
Context (opts : MainTs.Options) (h : Trace).

Let o := MainTs.owner opts.
Let r := MainTs.repo opts.

(** The tree of the commit, as [commit] builds it. *)
Let treeStep (base : MainTs.Ref) : M string :=
  (if negb (truthy_opt_bool (MainTs.empty opts)) then
     added <- for_push (Part001.addedEntry fs opts)
                (or_nil (MainTs.files opts)) ;;
     deleted <- for_push (Part001.deletedEntry fs opts)
                  (or_nil (MainTs.deletedFiles opts)) ;;
     restCreateTree octokit o r (added ++ deleted)
       (Some (MainTs.target_tree_oid base))
   else ret (MainTs.target_tree_oid base))%async.

Let parentsOf (base : MainTs.Ref) : list string :=
  if truthy_opt_string (MainTs.parent opts)
  then [or_empty_string (MainTs.parent opts)]
  else [MainTs.target_oid base].

Let force : option bool := Some (truthy_opt_bool (MainTs.forcePush opts)).

(** The run of [commit], step by step. *)
Lemma part001_commit_run :
  Part001.commit fs octokit opts h =
    if (negb (has_length (MainTs.files opts))
        && negb (has_length (MainTs.deletedFiles opts))
        && negb (truthy_opt_bool (MainTs.empty opts)))%bool
    then (inr None, [])
    else
      match
        MainTs.validateKeys opts
          [("owner", MainTs.owner); ("repo", MainTs.repo);
           ("branch", MainTs.branch); ("message", MainTs.message)]
      with
      | inl e => (inl e, [])
      | inr _ =>
          match MainTs.getBaseBranch octokit opts h with
          | (inl e, es1) => (inl e, es1)
          | (inr base, es1) =>
              match treeStep base (h ++ es1) with
              | (inl e, es2) => (inl e, es1 ++ es2)
              | (inr treeSHA, es2) =>
                  let created :=
                    RestCreateCommit o r (MainTs.message opts) treeSHA
                      (Some (parentsOf base)) in
                  match
                    rest_git_createCommit octokit ((h ++ es1) ++ es2) o r
                      (MainTs.message opts) treeSHA (Some (parentsOf base))
                  with
                  | inl e => (inl e, es1 ++ es2 ++ [created])
                  | inr commit =>
                      let h3 := ((h ++ es1) ++ es2) ++ [created] in
                      if String.eqb (MainTs.name base) (MainTs.branch opts)
                      then
                        (match
                           rest_git_updateRef octokit h3 o r
                             ("heads/" +:+ MainTs.branch opts) commit force
                         with
                         | inl e => inl e
                         | inr s => inr (Some (MainTs.mkResult s))
                         end,
                         es1 ++ es2
                         ++ [created;
                             RestUpdateRef o r
                               ("heads/" +:+ MainTs.branch opts) commit
                               force])
                      else
                        (match
                           rest_git_createRef octokit h3 o r
                             ("refs/heads/" +:+ MainTs.branch opts) commit
                         with
                         | inl e => inl e
                         | inr s => inr (Some (MainTs.mkResult s))
                         end,
                         es1 ++ es2
                         ++ [created;
                             RestCreateRef o r
                               ("refs/heads/" +:+ MainTs.branch opts) commit])
                  end
              end
          end
      end.
Proof.
  unfold Part001.commit.
  destruct (negb (has_length (MainTs.files opts))
            && negb (has_length (MainTs.deletedFiles opts))
            && negb (truthy_opt_bool (MainTs.empty opts)))%bool;
    [reflexivity |].
  destruct (MainTs.validateKeys opts _) as [e | []]; [reflexivity |].
  rewrite bind_lift_inr. unfold bind at 1.
  destruct (MainTs.getBaseBranch octokit opts h) as [[e | base] es1];
    [reflexivity |].
  unfold bind at 1. fold o r. fold (treeStep base).
  destruct (treeStep base (h ++ es1)) as [[e | treeSHA] es2];
    [reflexivity |].
  fold (parentsOf base). unfold restCreateCommit. rewrite bind_perform.
  destruct (rest_git_createCommit octokit ((h ++ es1) ++ es2) o r
              (MainTs.message opts) treeSHA (Some (parentsOf base)))
    as [e | commit]; [reflexivity |].
  cbv zeta. fold force.
  destruct (String.eqb (MainTs.name base) (MainTs.branch opts)).
  - unfold restUpdateRef. rewrite bind_perform.
    now destruct (rest_git_updateRef octokit _ o r _ commit force).
  - unfold restCreateRef. rewrite bind_perform.
    now destruct (rest_git_createRef octokit _ o r _ commit).
Qed.

(** X14.  In [commit] of [part_001], as in [main.ts], the name of the
    resolved base decides how the ref is written after the commit object:
    an update of [heads/<branch>] when it is the name of the target branch,
    here with [force] set to [forcePush] or [false], and a creation of
    [refs/heads/<branch>] otherwise.  What the write throws is thrown to
    the caller; a failed update is not followed by a creation. *)
Theorem part001_commit_ref_write (base : MainTs.Ref) (es1 : Trace)
    (treeSHA : string) (es2 : Trace) (commit : string) :
  (has_length (MainTs.files opts) || has_length (MainTs.deletedFiles opts)
   || truthy_opt_bool (MainTs.empty opts))%bool = true ->
  MainTs.validateKeys opts
    [("owner", MainTs.owner); ("repo", MainTs.repo);
     ("branch", MainTs.branch); ("message", MainTs.message)] = inr tt ->
  MainTs.getBaseBranch octokit opts h = (inr base, es1) ->
  treeStep base (h ++ es1) = (inr treeSHA, es2) ->
  let created :=
    RestCreateCommit o r (MainTs.message opts) treeSHA
      (Some (parentsOf base)) in
  rest_git_createCommit octokit ((h ++ es1) ++ es2) o r (MainTs.message opts)
    treeSHA (Some (parentsOf base)) = inr commit ->
  let h3 := ((h ++ es1) ++ es2) ++ [created] in
  (MainTs.name base = MainTs.branch opts ->
   Part001.commit fs octokit opts h =
     (match
        rest_git_updateRef octokit h3 o r ("heads/" +:+ MainTs.branch opts)
          commit force
      with
      | inl e => inl e
      | inr s => inr (Some (MainTs.mkResult s))
      end,
      es1 ++ es2
      ++ [created;
          RestUpdateRef o r ("heads/" +:+ MainTs.branch opts) commit force]))
  /\ (MainTs.name base <> MainTs.branch opts ->
      Part001.commit fs octokit opts h =
        (match
           rest_git_createRef octokit h3 o r
             ("refs/heads/" +:+ MainTs.branch opts) commit
         with
         | inl e => inl e
         | inr s => inr (Some (MainTs.mkResult s))
         end,
         es1 ++ es2
         ++ [created;
             RestCreateRef o r ("refs/heads/" +:+ MainTs.branch opts)
               commit])).
Proof.
  intros Hreq Hvalid Hbase Htree created Hcommit h3.
  assert (Hguard : (negb (has_length (MainTs.files opts))
                    && negb (has_length (MainTs.deletedFiles opts))
                    && negb (truthy_opt_bool (MainTs.empty opts)))%bool
                   = false).
  { destruct (has_length (MainTs.files opts)),
      (has_length (MainTs.deletedFiles opts)),
      (truthy_opt_bool (MainTs.empty opts)); try reflexivity.
    discriminate Hreq. }
  rewrite part001_commit_run, Hguard, Hvalid, Hbase, Htree. cbv zeta.
  fold created. rewrite Hcommit. fold h3.
  split; intros Hname.
  - apply String.eqb_eq in Hname. now rewrite Hname.
  - apply String.eqb_neq in Hname. now rewrite Hname.
Qed.

(** The entries of [part_001] only read the disk. *)
Lemma part001_getFileContentAndMode_emits filePath flag :
  emits (fun e => is_fs_event e = true)
    (Part001.getFileContentAndMode fs filePath flag).
Proof.
  unfold Part001.getFileContentAndMode. destruct (negb flag).
  - intros h'. simpl. now repeat constructor.
  - unfold stat, readFile. repeat emits_step.
Qed.

Lemma part001_getFileContentAndMode_deletion filePath flag h' file es :
  Part001.getFileContentAndMode fs filePath flag h' = (inr file, es) ->
  file_path file = filePath /\ file_type file = Some Blob
  /\ (file_sha file = ShaAbsent \/
      (file_sha file = ShaNull /\ file_content file = None
       /\ file_mode file = M100644 /\ flag = true)).
Proof.
  unfold Part001.getFileContentAndMode. destruct flag; simpl negb; cbv iota.
  - intros Hrun. apply try_catch_inv_inr in Hrun
      as [Hrun | (e & es1 & es2 & _ & Hhandler & _)].
    + apply bind_inv_inr in Hrun as (stats & e1 & e2 & _ & Hrun & _).
      apply bind_inv_inr in Hrun as (content & e3 & e4 & _ & Hret & _).
      unfold ret in Hret. injection Hret as <- _. simpl. auto.
    + destruct e as [msg [code |] | | repr]; try discriminate Hhandler.
      destruct (String.eqb code "ENOENT"); [| discriminate Hhandler].
      unfold ret in Hhandler. injection Hhandler as <- _. simpl.
      repeat split. right. now repeat split.
  - intros Hrun.
    destruct (fs_readFile fs filePath) as [e | content];
      [discriminate Hrun |].
    destruct (fs_stat fs filePath) as [e | stats]; [discriminate Hrun |].
    injection Hrun as <- _. simpl. auto.
Qed.

Lemma part001_addedEntry_shape filePath h' file es :
  Part001.addedEntry fs opts filePath h' = (inr file, es) ->
  file_path file = filePath /\ file_type file = Some Blob.
Proof.
  unfold Part001.addedEntry. intros Hrun.
  apply bind_inv_inr in Hrun as (f & e1 & e2 & _ & Hret & _).
  unfold ret in Hret. now injection Hret as <- _.
Qed.

Lemma part001_deletedEntry_shape filePath h' file es :
  Part001.deletedEntry fs opts filePath h' = (inr file, es) ->
  file_path file = filePath /\ file_type file = Some Blob
  /\ is_deletion file.
Proof.
  unfold Part001.deletedEntry. intros Hrun.
  apply bind_inv_inr in Hrun as (f & e1 & e2 & _ & Hret & _).
  unfold ret in Hret. now injection Hret as <- _.
Qed.

Lemma part001_treeStep_request (base : MainTs.Ref) (h' : Trace)
    o' r' tree base_tree :
  In (RestCreateTree o' r' tree base_tree) (snd (treeStep base h')) ->
  base_tree = Some (MainTs.target_tree_oid base)
  /\ exists added deleted,
       tree = added ++ deleted
       /\ map file_path added = or_nil (MainTs.files opts)
       /\ map file_path deleted = or_nil (MainTs.deletedFiles opts)
       /\ Forall is_deletion deleted
       /\ Forall (fun f => file_type f = Some Blob) tree.
Proof.
  assert (Hadd : forall x, emits (fun e => is_fs_event e = true)
                             (Part001.addedEntry fs opts x)).
  { intros x. unfold Part001.addedEntry.
    apply emits_bind; [apply part001_getFileContentAndMode_emits |].
    intros f. apply emits_ret. }
  assert (Hdel : forall x, emits (fun e => is_fs_event e = true)
                             (Part001.deletedEntry fs opts x)).
  { intros x. unfold Part001.deletedEntry.
    apply emits_bind; [apply part001_getFileContentAndMode_emits |].
    intros f. apply emits_ret. }
  unfold treeStep.
  destruct (negb (truthy_opt_bool (MainTs.empty opts))); [| intros []].
  pose proof (emits_for_push _ _ (or_nil (MainTs.files opts)) Hadd h')
    as Hfs_a.
  unfold bind at 1.
  destruct (for_push (Part001.addedEntry fs opts) (or_nil (MainTs.files opts))
              h') as [[e | added] es_a] eqn:Ha; simpl in Hfs_a.
  { intros Hin. exfalso.
    exact (fs_event_not_createTree _ _ _ _ _ Hfs_a Hin). }
  pose proof (emits_for_push _ _ (or_nil (MainTs.deletedFiles opts)) Hdel
                (h' ++ es_a)) as Hfs_d.
  unfold bind at 1.
  destruct (for_push (Part001.deletedEntry fs opts)
              (or_nil (MainTs.deletedFiles opts)) (h' ++ es_a))
    as [[e | deleted] es_d] eqn:Hd; simpl in Hfs_d; simpl.
  { intros Hin. exfalso. apply in_app_or in Hin as [Hin | Hin].
    - exact (fs_event_not_createTree _ _ _ _ _ Hfs_a Hin).
    - exact (fs_event_not_createTree _ _ _ _ _ Hfs_d Hin). }
  intros Hin.
  apply in_app_or in Hin as [Hin | Hin];
    [exfalso; exact (fs_event_not_createTree _ _ _ _ _ Hfs_a Hin) |].
  apply in_app_or in Hin as [Hin | Hin];
    [exfalso; exact (fs_event_not_createTree _ _ _ _ _ Hfs_d Hin) |].
  destruct Hin as [Heq | []]. injection Heq as _ _ <- <-.
  split; [reflexivity |]. exists added, deleted. repeat split.
  - eapply for_push_paths, Ha. intros x h0 y es0 Hy.
    now apply part001_addedEntry_shape in Hy.
  - eapply for_push_paths, Hd. intros x h0 y es0 Hy.
    now apply part001_deletedEntry_shape in Hy.
  - eapply for_push_Forall, Hd. intros x h0 y es0 Hy.
    now apply part001_deletedEntry_shape in Hy.
  - apply Forall_app. split.
    + eapply for_push_Forall, Ha. intros x h0 y es0 Hy.
      now apply part001_addedEntry_shape in Hy.
    + eapply for_push_Forall, Hd. intros x h0 y es0 Hy.
      now apply part001_deletedEntry_shape in Hy.
Qed.
Lemma main_getBaseBranch_emits :
  emits (fun e => is_query e = true) (MainTs.getBaseBranch octokit opts).
Proof.
  unfold MainTs.getBaseBranch, MainTs.getBranch, MainTs.getDefaultBranch,
    graphqlRef, graphqlDefaultBranchRef.
  repeat emits_step.
Qed.

Lemma query_not_createTree (es : Trace) o' r' tree bt :
  Forall (fun e => is_query e = true) es ->
  ~ In (RestCreateTree o' r' tree bt) es.
Proof.
  intros Hall Hin. rewrite Forall_forall in Hall.
  apply list_elem_of_In in Hin. apply Hall in Hin. discriminate Hin.
Qed.

(** X15.  Every tree that [commit] of [part_001] requests is built on
    the tree of the resolved base, whatever [noParent] is.  It lists the
    additions and then the deletions, in the order and under the paths of
    the request; every entry of a deletion has [sha] [null] and no content;
    and every entry has the type [blob]: directories and submodules are
    not told apart from files. *)
Theorem part001_tree_request o' r' tree base_tree :
  In (RestCreateTree o' r' tree base_tree)
    (snd (Part001.commit fs octokit opts h)) ->
  exists base es1,
    MainTs.getBaseBranch octokit opts h = (inr base, es1)
    /\ base_tree = Some (MainTs.target_tree_oid base)
    /\ exists added deleted,
         tree = added ++ deleted
         /\ map file_path added = or_nil (MainTs.files opts)
         /\ map file_path deleted = or_nil (MainTs.deletedFiles opts)
         /\ Forall is_deletion deleted
         /\ Forall (fun f => file_type f = Some Blob) tree.
Proof.
  rewrite part001_commit_run.
  destruct (negb (has_length (MainTs.files opts))
            && negb (has_length (MainTs.deletedFiles opts))
            && negb (truthy_opt_bool (MainTs.empty opts)))%bool;
    [intros [] |].
  destruct (MainTs.validateKeys opts _) as [e | []]; [intros [] |].
  pose proof (main_getBaseBranch_emits h) as Hq.
  destruct (MainTs.getBaseBranch octokit opts h) as [[e | base] es1];
    simpl in Hq.
  { intros Hin. exfalso. exact (query_not_createTree _ _ _ _ _ Hq Hin). }
  pose proof (part001_treeStep_request base (h ++ es1) o' r' tree base_tree)
    as Hstep.
  assert (Hmid : forall res es2 rest,
            treeStep base (h ++ es1) = (res, es2) ->
            ~ In (RestCreateTree o' r' tree base_tree) rest ->
            In (RestCreateTree o' r' tree base_tree) (es1 ++ es2 ++ rest) ->
            exists base0 es0,
              (@inr Thrown MainTs.Ref base, es1) = (inr base0, es0)
              /\ base_tree = Some (MainTs.target_tree_oid base0)
              /\ exists added deleted,
                   tree = added ++ deleted
                   /\ map file_path added = or_nil (MainTs.files opts)
                   /\ map file_path deleted
                      = or_nil (MainTs.deletedFiles opts)
                   /\ Forall is_deletion deleted
                   /\ Forall (fun f => file_type f = Some Blob) tree).
  { intros res es2 rest Hrun Hrest Hin.
    apply in_app_or in Hin as [Hin | Hin];
      [exfalso; exact (query_not_createTree _ _ _ _ _ Hq Hin) |].
    apply in_app_or in Hin as [Hin | Hin]; [| contradiction].
    rewrite Hrun in Hstep. destruct (Hstep Hin) as [Hbt Hentries].
    exists base, es1. now repeat split. }
  destruct (treeStep base (h ++ es1)) as [[e | treeSHA] es2] eqn:Hrun.
  { simpl. intros Hin. apply (Hmid _ _ [] eq_refl); [intros [] |].
    now rewrite app_nil_r. }
  cbv zeta.
  destruct (rest_git_createCommit octokit ((h ++ es1) ++ es2) o r
              (MainTs.message opts) treeSHA (Some (parentsOf base)))
    as [e | commit].
  { simpl. apply (Hmid _ _ _ eq_refl). intros [H | []]. discriminate H. }
  destruct (String.eqb (MainTs.name base) (MainTs.branch opts)); simpl;
    apply (Hmid _ _ _ eq_refl); intros [H | [H | []]]; discriminate H.
Qed.
End Part001Run.

(** X16.  [commit] of [part_001] reads neither [noParent] nor
    [directory]: two requests that agree on the ten other options are
    treated alike. *)
Theorem part001_commit_ignores_noParent (fs : FileSystem)
    (octokit : GitHub MainTs.Ref) (opts opts' : MainTs.Options)
    (h : Trace) :
  MainTs.owner opts = MainTs.owner opts' ->
  MainTs.repo opts = MainTs.repo opts' ->
  MainTs.branch opts = MainTs.branch opts' ->
  MainTs.message opts = MainTs.message opts' ->
  MainTs.empty opts = MainTs.empty opts' ->
  MainTs.files opts = MainTs.files opts' ->
  MainTs.parent opts = MainTs.parent opts' ->
  MainTs.deletedFiles opts = MainTs.deletedFiles opts' ->
  MainTs.deleteIfNotExist opts = MainTs.deleteIfNotExist opts' ->
  MainTs.forcePush opts = MainTs.forcePush opts' ->
  Part001.commit fs octokit opts h = Part001.commit fs octokit opts' h.
Proof.
  destruct opts, opts'. simpl. intros -> -> -> -> -> -> -> -> -> ->.
  reflexivity.
Qed.

Lemma part001_commit_ref_write_example :
  Part001.commit (diskFS ∅) stubGitHubMain rootRequestMainOther []
    = (inr (Some (MainTs.mkResult "c1")),
       [GraphqlRef "o" "r" "main"] ++ []
       ++ [RestCreateCommit "o" "r" "m" "t0" (Some ["c0"]);
           RestUpdateRef "o" "r" "heads/main" "c1" (Some true)])
  /\ Part001.commit (diskFS ∅) stubGitHubMain featRequestMain []
     = (inr (Some (MainTs.mkResult "c1")),
        [GraphqlRef "o" "r" "feat"; GraphqlDefaultBranchRef "o" "r"] ++ []
        ++ [RestCreateCommit "o" "r" "m" "t0" (Some ["c0"]);
            RestCreateRef "o" "r" "refs/heads/feat" "c1"]).
Proof.
  split.
  - apply (part001_commit_ref_write (diskFS ∅) stubGitHubMain
             rootRequestMainOther [] (MainTs.mkRef "main" "c0" "t0")
             [GraphqlRef "o" "r" "main"] "t0" [] "c1" eq_refl eq_refl eq_refl
             eq_refl eq_refl).
    reflexivity.
  - apply (part001_commit_ref_write (diskFS ∅) stubGitHubMain featRequestMain
             [] (MainTs.mkRef "main" "c0" "t0")
             [GraphqlRef "o" "r" "feat"; GraphqlDefaultBranchRef "o" "r"]
             "t0" [] "c1" eq_refl eq_refl eq_refl eq_refl eq_refl).
    discriminate.
Defined.

Lemma part001_tree_request_example :
  let tree :=
    [mkFile "a.txt" (Some "hello") ShaAbsent M100644 (Some Blob);
     mkFile "gone.txt" None ShaNull M100644 (Some Blob)] in
  exists base es1,
    MainTs.getBaseBranch stubGitHubMain changeRequestMain [] = (inr base, es1)
    /\ Some "t0" = Some (MainTs.target_tree_oid base)
    /\ exists added deleted,
         tree = added ++ deleted
         /\ map file_path added = or_nil (MainTs.files changeRequestMain)
         /\ map file_path deleted
            = or_nil (MainTs.deletedFiles changeRequestMain)
         /\ Forall is_deletion deleted
         /\ Forall (fun f => file_type f = Some Blob) tree.
Proof.
  intros tree.
  apply (part001_tree_request (diskFS oneFileDisk) stubGitHubMain
           changeRequestMain [] "o" "r" tree (Some "t0")).
  vm_compute. do 4 right. left. reflexivity.
Defined.

Lemma part001_commit_ignores_noParent_example :
  Part001.commit (diskFS oneFileDisk) stubGitHubMain changeRequestMain []
  = Part001.commit (diskFS oneFileDisk) stubGitHubMain
      (MainTs.mkOptions "o" "r" "main" "m" None (Some ["a.txt"]) None None
         (Some "dir") (Some ["gone.txt"]) (Some true) None) [].
Proof.
  apply part001_commit_ignores_noParent; reflexivity.
Defined.

(** X17.  In [part_001] a path that is missing on disk, [stat] failing
    with the code [ENOENT], is answered with [deleteIfNotExist] as the
    deletion entry of the path after that one call: [sha] [null], mode
    [100644], type [blob], no content.  Without [deleteIfNotExist] both
    [readFile] and [stat] are called and the inspection throws. *)
Theorem part001_missing_path_policy (fs : FileSystem) (filePath : string)
    (msg : option string) (h : Trace) :
  fs_stat fs filePath = inl (ThrownObject msg (Some "ENOENT")) ->
  Part001.getFileContentAndMode fs filePath true h
    = (inr (mkFile filePath None ShaNull M100644 (Some Blob)),
       [FsStat filePath])
  /\ exists e,
       Part001.getFileContentAndMode fs filePath false h
       = (inl e, [FsReadFile filePath; FsStat filePath]).
Proof.
  intros Hstat. split.
  - unfold Part001.getFileContentAndMode. change (negb true) with false.
    cbv iota. unfold try_catch, stat, bind, perform. now rewrite Hstat.
  - unfold Part001.getFileContentAndMode. change (negb false) with true.
    cbv iota. rewrite Hstat.
    destruct (fs_readFile fs filePath) as [e | content]; eauto.
Qed.

Lemma part001_missing_path_policy_example :
  Part001.getFileContentAndMode (diskFS oneFileDisk) "gone.txt" true []
    = (inr (mkFile "gone.txt" None ShaNull M100644 (Some Blob)),
       [FsStat "gone.txt"])
  /\ exists e,
       Part001.getFileContentAndMode (diskFS oneFileDisk) "gone.txt" false []
       = (inl e, [FsReadFile "gone.txt"; FsStat "gone.txt"]).
Proof.
  apply (part001_missing_path_policy (diskFS oneFileDisk) "gone.txt"
           (Some "ENOENT: stat 'gone.txt'") []).
  reflexivity.
Defined.

(** ** A base branch that the remote answers with [null] *)

Section NullBase.
Import CreateCommit.
Context (path : Path) (fs : FileSystem) (octokit : GitHub Ref).
Context (opts : Options) (h : Trace).

Let o := owner opts.
Let r := repo opts.
Let bb := or_empty_string (baseBranch opts).



End NullBase.


(** ** Reading the loose ref fails *)

(** X19.  Once [HEAD] names a ref, [resolveGitHEAD] answers every
    failure of reading the ref file, whatever is thrown, by reading
    [packed-refs]: a ref file that is on disk and cannot be read is passed
    over like an absent one.  What reading [packed-refs] throws is thrown
    to the caller as it is; otherwise the scan of its lines decides. *)
Theorem resolveGitHEAD_catches_every_failure (path : Path) (fs : FileSystem)
    (gitDir : string) (h : Trace) (raw : string) (e : Thrown) :
  let headPath := path_join path gitDir "HEAD" in
  let ref := slice 5 (trim raw) in
  let refPath := path_join path gitDir ref in
  let packedRefsPath := path_join path gitDir "packed-refs" in
  fs_readFile fs headPath = inr raw ->
  startsWith "ref: " (trim raw) = true ->
  fs_readFile fs refPath = inl e ->
  CreateCommit.resolveGitHEAD path fs gitDir h =
    (match fs_readFile fs packedRefsPath with
     | inl e' => inl e'
     | inr packed =>
         match CreateCommit.scanPackedRefs (split "010" packed) ref with
         | Some sha => inr sha
         | None =>
             inl (newError ("ref " +:+ ref +:+ " not found in packed-refs"))
         end
     end,
     [FsReadFile headPath; FsReadFile refPath; FsReadFile packedRefsPath]).
Proof.
  intros headPath ref refPath packedRefsPath Hhead Hsym Hloose.
  now apply (resolveGitHEAD_fallback path fs gitDir h raw Hhead e).
Qed.

Lemma resolveGitHEAD_catches_every_failure_example :
  CreateCommit.resolveGitHEAD plainPath unreadableRefFS "gd" []
    = (inr "2222222",
       [FsReadFile "gd/HEAD"; FsReadFile "gd/refs/heads/main";
        FsReadFile "gd/packed-refs"])
  /\ CreateCommit.resolveGitHEAD plainPath (diskFS headOnlyGitDir) "gd" []
     = (inl (errno "ENOENT" "open" "gd/packed-refs"),
        [FsReadFile "gd/HEAD"; FsReadFile "gd/refs/heads/main";
         FsReadFile "gd/packed-refs"]).
Proof.
  split.
  - exact (resolveGitHEAD_catches_every_failure plainPath unreadableRefFS
             "gd" [] headText (errno "EACCES" "open" "gd/refs/heads/main")
             eq_refl eq_refl eq_refl).
  - exact (resolveGitHEAD_catches_every_failure plainPath
             (diskFS headOnlyGitDir) "gd" [] headText
             (errno "ENOENT" "open" "gd/refs/heads/main")
             eq_refl eq_refl eq_refl).
Defined.
